(** * resto-match-backend: the request pipeline and its resource handlers

    A shallow embedding of the Express application: the token check
    ([middleware/auth.js]), the role gate ([middleware/checkRole.js]), the
    express-validator checks mounted on the routes, the Mongoose models and
    the route handlers of the menu, reservation, order, auth and admin
    routers.  A handler is a function from the request and the database to a
    response and the database after it; a middleware either passes the
    request on, answers it, or throws.

    The payload of a request is a JSON object; numbers are IEEE 754 doubles;
    a collection is a finite map from the ObjectId of a document, as 24
    hexadecimal digits, to the document.  [models/Reservation.js] is
    embedded from its source; the other three models are not among the
    sources and follow the data model of the specification. *)

From Stdlib Require Import ZArith Floats Ascii String.
From stdpp Require Import base option list strings gmap pretty sorting.

Set Warnings "-register-all".
Open Scope string_scope.
Open Scope Z_scope.
Open Scope list_scope.

(** ** JavaScript values *)

(** A value that [JSON.parse] can produce.  [undefined] is the absence of a
    value: a property read is an [option value]. *)
Inductive value : Type :=
| VNull
| VBool (b : bool)
| VNum (n : float)
| VStr (s : string)
| VArr (l : list value)
| VObj (o : list (string * value)).

(** [o[k]] on the entries of an object. *)
Fixpoint assoc (k : string) (o : list (string * value)) : option value :=
  match o with
  | [] => None
  | (k', v) :: o' => if String.eqb k k' then Some v else assoc k o'
  end.

Inductive exn : Type :=
| TypeError
| CastError (kind path : string)
| ValidationError (model : string) (errors : list (string * string))
| DuplicateKey (path : string)
| ImmutableField (path : string).

(** [x.k].  Reading a property of [undefined] or [null] throws a
    [TypeError]; the keys the program reads ([user], [id], [role]) are own
    properties of objects only. *)
Definition prop (x : option value) (k : string) : exn + option value :=
  match x with
  | None | Some VNull => inl TypeError
  | Some (VObj o) => inr (assoc k o)
  | Some _ => inr None
  end.

Definition is_nan (x : float) : bool := negb (PrimFloat.eqb x x).

(** [!!x]. *)
Definition truthy (x : option value) : bool :=
  match x with
  | None | Some VNull => false
  | Some (VBool b) => b
  | Some (VNum n) => negb (PrimFloat.eqb n 0 || is_nan n)
  | Some (VStr s) => negb (String.eqb s "")
  | Some (VArr _) | Some (VObj _) => true
  end.

(** [roles.includes(x)] on an array of strings. *)
Definition includes (roles : list string) (x : option value) : bool :=
  match x with
  | Some (VStr r) => existsb (String.eqb r) roles
  | _ => false
  end.

(** ** The libraries the program calls

    [jsonwebtoken], [validator.js], [bcryptjs] and the conversions of the
    JavaScript runtime are outside the repository.  The program is
    parametric in them. *)
Class Platform : Type := {
  (** [jwt.verify(token, process.env.JWT_SECRET)] at the time of the
      request: the decoded payload, or [None] when it throws (bad signature,
      malformed token, elapsed expiry). *)
  jwt_verify : string -> option value;
  (** [jwt.sign(payload, process.env.JWT_SECRET, { expiresIn })]. *)
  jwt_sign : value -> string;
  (** [validator.isEmail]. *)
  isEmail : string -> bool;
  (** [validator.isFloat(s, { min })]. *)
  isFloat : string -> float -> bool;
  (** [validator.isLength(s, { min })]. *)
  isLength : string -> nat -> bool;
  (** [String(n)] on a number. *)
  Number_toString : float -> string;
  (** [Number(s)] on a string ([NaN] when [s] is no numeral). *)
  Number_ofString : string -> float;
  (** [parseFloat(s)]. *)
  parseFloat : string -> float;
  (** The pre-save hook of the User model (bcrypt). *)
  bcrypt_hash : string -> string;
  (** Mongoose's cast of a value to a Date (milliseconds), [None] when it
      fails. *)
  castDate : value -> option Z
}.

(** ** Requests and responses *)

(** An error of express-validator: [{ value, msg, param }]. *)
Record verror : Type := { param : string; msg : string; given : option value }.

Inductive method : Type := GET | POST | PUT | PATCH | DELETE.

Record request : Type := {
  meth : method;
  path : list string;             (* the segments below the router's mount point *)
  x_auth_token : option string;   (* req.header('x-auth-token') *)
  id_param : string;              (* req.params.id, req.params.userId *)
  body : list (string * value);   (* req.body, a JSON object *)
  user : option value;            (* req.user *)
  verrors : list verror           (* what validationResult(req) reads *)
}.

Definition set_user (u : option value) (r : request) : request :=
  {| meth := meth r; path := path r; x_auth_token := x_auth_token r;
     id_param := id_param r; body := body r; user := u; verrors := verrors r |}.

Definition add_verror (e : verror) (r : request) : request :=
  {| meth := meth r; path := path r; x_auth_token := x_auth_token r;
     id_param := id_param r; body := body r; user := user r;
     verrors := verrors r ++ [e] |}.

(** A request as it enters a router: no middleware of [server.js] sets
    [req.user], nothing was validated, and the route that matches will bind
    its parameter. *)
Definition incoming (m : method) (p : list string) (tok : option string)
    (b : list (string * value)) : request :=
  {| meth := m; path := p; x_auth_token := tok; id_param := "";
     body := b; user := None; verrors := [] |}.

(** ** Mongoose: casts *)

(** A path of a document: never set, set to [null], or set to a value. *)
Inductive field (A : Type) : Type :=
| Undefined
| Null
| Val (a : A).
Arguments Undefined {A}.
Arguments Null {A}.
Arguments Val {A} a.

Definition field_eqb (s : string) (f : field string) : bool :=
  match f with Val s' => String.eqb s' s | _ => false end.

Section Casts.
Context `{Platform}.

(** Each cast returns [None] where Mongoose raises a [CastError]. *)
Definition castString (x : option value) : option (field string) :=
  match x with
  | None => Some Undefined
  | Some VNull => Some Null
  | Some (VStr s) => Some (Val s)
  | Some (VNum n) => Some (Val (Number_toString n))
  | Some (VBool b) => Some (Val (if b then "true" else "false"))
  | Some (VObj o) =>
      match assoc "_id" o with
      | Some (VStr s) => if String.eqb s "" then None else Some (Val s)
      | _ => None
      end
  | Some (VArr _) => None
  end.

Definition castNumber (x : option value) : option (field float) :=
  match x with
  | None => Some Undefined
  | Some VNull => Some Null
  | Some (VStr s) =>
      if String.eqb s "" then Some Null
      else let n := Number_ofString s in
           if is_nan n then None else Some (Val n)
  | Some (VBool b) => Some (Val (if b then 1%float else 0%float))
  | Some (VNum n) => if is_nan n then None else Some (Val n)
  | Some (VArr _) | Some (VObj _) => None
  end.

Definition castBoolean (x : option value) : option (field bool) :=
  match x with
  | None => Some Undefined
  | Some VNull => Some Null
  | Some (VBool b) => Some (Val b)
  | Some (VStr s) =>
      if existsb (String.eqb s) ["true"; "1"; "yes"] then Some (Val true)
      else if existsb (String.eqb s) ["false"; "0"; "no"] then Some (Val false)
      else None
  | Some (VNum n) =>
      if PrimFloat.eqb n 1 then Some (Val true)
      else if PrimFloat.eqb n 0 then Some (Val false)
      else None
  | Some (VArr _) | Some (VObj _) => None
  end.

Definition castDateField (x : option value) : option (field Z) :=
  match x with
  | None => Some Undefined
  | Some VNull => Some Null
  | Some v => match castDate v with Some t => Some (Val t) | None => None end
  end.

End Casts.

(** *** ObjectIds

    A document id is the 24 lower-case hexadecimal digits of its ObjectId.
    Mongoose casts a string to an ObjectId when it is 24 hexadecimal digits
    or 12 bytes long. *)
Definition is_hex (c : ascii) : bool :=
  let n := Ascii.N_of_ascii c in
  ((48 <=? n) && (n <=? 57) || (65 <=? n) && (n <=? 70)
   || (97 <=? n) && (n <=? 102))%N.

Definition lower (c : ascii) : ascii :=
  let n := Ascii.N_of_ascii c in
  if ((65 <=? n) && (n <=? 90))%N then Ascii.ascii_of_N (n + 32) else c.

Fixpoint map_string (f : ascii -> ascii) (s : string) : string :=
  match s with
  | EmptyString => EmptyString
  | String c s' => String (f c) (map_string f s')
  end.

Fixpoint all_string (f : ascii -> bool) (s : string) : bool :=
  match s with
  | EmptyString => true
  | String c s' => f c && all_string f s'
  end.

Definition hex_digit (n : N) : ascii :=
  Ascii.ascii_of_N (if (n <? 10)%N then 48 + n else 87 + n).

Fixpoint to_hex (s : string) : string :=
  match s with
  | EmptyString => EmptyString
  | String c s' =>
      let n := Ascii.N_of_ascii c in
      String (hex_digit (n / 16)) (String (hex_digit (n mod 16)) (to_hex s'))
  end.

Definition castObjectId (s : string) : option string :=
  if Nat.eqb (String.length s) 24 && all_string is_hex s
  then Some (map_string lower s)
  else if Nat.eqb (String.length s) 12 then Some (to_hex s)
  else None.

(** The cast of a JavaScript value used as an id ([req.user.id]). *)
Definition castObjectIdValue (x : option value) : option string :=
  match x with
  | Some (VStr s) => castObjectId s
  | _ => None
  end.

(** ** Mongoose: schemas and documents *)

(** What a request cannot choose: the clock and the ObjectId the driver
    generates for a new document, and the process environment. *)
Record env : Type := {
  now : Z;                 (* Date.now() *)
  fresh_oid : string;      (* the _id of a document created by this request *)
  today : string;          (* today.toISOString().split('T')[0] *)
  development : bool       (* process.env.NODE_ENV === 'development' *)
}.

(** Validation errors of a document: the failing paths, each with the kind
    of validator that failed. *)
Definition path_errors : Type := list (string * string).

(** The value of path [k] cast from [b]; a failed cast leaves the path
    unset and is reported when the document is validated. *)
Definition cast_path {A : Type} (cast : option value -> option (field A))
    (k : string) (b : list (string * value)) : field A :=
  match cast (assoc k b) with
  | Some f => f
  | None => Undefined
  end.

Definition cast_error {A : Type} (cast : option value -> option A)
    (k : string) (b : list (string * value)) : path_errors :=
  match cast (assoc k b) with
  | Some _ => []
  | None => [(k, "cast")]
  end.

Definition or_default {A : Type} (d : A) (f : field A) : field A :=
  match f with Undefined => Val d | _ => f end.

Definition required_string (f : field string) : bool :=
  match f with Val s => negb (String.eqb s "") | _ => false end.

Definition required_number (f : field float) : bool :=
  match f with Val _ => true | _ => false end.

(** An [enum] validator: skipped on a path never set, run on [null]. *)
Definition enum_ok (allowed : list string) (f : field string) : bool :=
  match f with
  | Undefined => true
  | Null => false
  | Val s => existsb (String.eqb s) allowed
  end.

Definition is_some {A : Type} (o : option A) : bool :=
  match o with Some _ => true | None => false end.

Definition fails (ok : bool) (p kind : string) : path_errors :=
  if ok then [] else [(p, kind)].

(** The [_id] of a new document: the one the payload gives, else a fresh
    one. *)
Definition new_id (e : env) (b : list (string * value)) : option string :=
  match assoc "_id" b with
  | None => Some (fresh_oid e)
  | Some v => castObjectIdValue (Some v)
  end.

Definition new_id_errors (b : list (string * value)) : path_errors :=
  match assoc "_id" b with
  | None => []
  | Some v => fails (is_some (castObjectIdValue (Some v))) "_id" "cast"
  end.

(** [doc.save()] of a new document whose validation found [errs]: the
    insert fails on an [_id] already there. *)
Definition insert_doc {D : Type} (model : string) (errs : path_errors)
    (i : option string) (d : D) (coll : gmap string D) : exn + (string * gmap string D) :=
  match errs, i with
  | [], Some k =>
      match coll !! k with
      | Some _ => inl (DuplicateKey "_id")
      | None => inr (k, <[k := d]> coll)
      end
  | _, _ => inl (ValidationError model errs)
  end.

(** [Model.findById(id)]: a [CastError] of kind ObjectId when [id] is no
    ObjectId, else the document or [null]. *)
Definition findById {D : Type} (i : string) (coll : gmap string D) : exn + option (string * D) :=
  match castObjectId i with
  | None => inl (CastError "ObjectId" "_id")
  | Some k => inr (match coll !! k with Some d => Some (k, d) | None => None end)
  end.

(** An update [{ $set: u }] is cast entry by entry, in the order of its
    keys, and the first failure is thrown; [failure k v] is the kind of the
    [CastError] when the schema cannot cast the entry. *)
Fixpoint cast_update (failure : string -> value -> option string)
    (u : list (string * value)) : option exn :=
  match u with
  | [] => None
  | (k, v) :: u' =>
      match failure k v with
      | Some kind => Some (CastError kind k)
      | None => cast_update failure u'
      end
  end.

Definition set_path {A : Type} (cast : option value -> option (field A))
    (k : string) (u : list (string * value)) (old : field A) : field A :=
  match assoc k u with
  | None => old
  | Some v => default old (cast (Some v))
  end.

(** [Model.findByIdAndUpdate(id, { $set: u }, { new: true })]: the id and
    the update are cast, then the document, if there is one, is updated and
    returned.  No validator of the schema runs on an update.  The server
    refuses an update that would change [_id]. *)
Definition update_by_id {D : Type} (failure : string -> value -> option string)
    (apply : list (string * value) -> D -> D)
    (i : string) (u : list (string * value)) (coll : gmap string D)
    : exn + option (string * D * gmap string D) :=
  match castObjectId i with
  | None => inl (CastError "ObjectId" "_id")
  | Some k =>
      match cast_update failure u with
      | Some x => inl x
      | None =>
          match coll !! k with
          | None => inr None
          | Some d =>
              if match assoc "_id" u with
                 | None => true
                 | Some v => bool_decide (castObjectIdValue (Some v) = Some k)
                 end
              then inr (Some (k, apply u d, <[k := apply u d]> coll))
              else inl (ImmutableField "_id")
          end
      end
  end.

(** *** models/Reservation.js *)

Record dish : Type := {
  dish_id : field string;
  dish_name : field string;
  dish_price : field float;
  dish_quantity : field float
}.

Module Reservation.

Record t : Type := mk {
  name : field string;
  email : field string;
  phone : field string;
  date : field string;
  time : field string;
  type : field string;
  numberOfPeople : field float;
  address : field string;
  specialRequests : field string;
  dishes : list dish;
  totalAmount : field float;
  status : field string;
  createdAt : field Z
}.

Definition status_enum : list string :=
  ["pending"; "confirmed"; "rejected"; "delivered"; "completed"].

Definition type_enum : list string := ["surPlace"; "livraison"].

Section Model.
Context `{Platform}.

Definition castDish (v : value) : option dish :=
  match v with
  | VObj o =>
      match castString (assoc "_id" o), castString (assoc "name" o),
            castNumber (assoc "price" o), castNumber (assoc "quantity" o) with
      | Some i, Some n, Some p, Some q =>
          Some {| dish_id := i; dish_name := n; dish_price := p; dish_quantity := q |}
      | _, _, _, _ => None
      end
  | _ => None
  end.

Fixpoint castDishList (l : list value) : option (list dish) :=
  match l with
  | [] => Some []
  | v :: l' =>
      match castDish v, castDishList l' with
      | Some d, Some ds => Some (d :: ds)
      | _, _ => None
      end
  end.

(** The array path: a value that is no array is cast as a one-element
    array; [null] and a path never set leave no dishes. *)
Definition castDishes (x : option value) : option (list dish) :=
  match x with
  | None | Some VNull => Some []
  | Some (VArr l) => castDishList l
  | Some v => castDishList [v]
  end.

(** [new Reservation(body)]: every path of the schema is cast from the
    payload, paths outside the schema are dropped, and the defaults of
    [status] and [createdAt] fill the paths never set. *)
Definition construct (e : env) (b : list (string * value)) : t :=
  {| name := cast_path castString "name" b;
     email := cast_path castString "email" b;
     phone := cast_path castString "phone" b;
     date := cast_path castString "date" b;
     time := cast_path castString "time" b;
     type := cast_path castString "type" b;
     numberOfPeople := cast_path castNumber "numberOfPeople" b;
     address := cast_path castString "address" b;
     specialRequests := cast_path castString "specialRequests" b;
     dishes := default [] (castDishes (assoc "dishes" b));
     totalAmount := cast_path castNumber "totalAmount" b;
     status := or_default "pending" (cast_path castString "status" b);
     createdAt := or_default (now e) (cast_path castDateField "createdAt" b) |}.

Definition cast_errors (b : list (string * value)) : path_errors :=
  cast_error castString "name" b ++ cast_error castString "email" b
  ++ cast_error castString "phone" b ++ cast_error castString "date" b
  ++ cast_error castString "time" b ++ cast_error castString "type" b
  ++ cast_error castNumber "numberOfPeople" b
  ++ cast_error castString "address" b
  ++ cast_error castString "specialRequests" b
  ++ cast_error castDishes "dishes" b
  ++ cast_error castNumber "totalAmount" b
  ++ cast_error castString "status" b
  ++ cast_error castDateField "createdAt" b.

(** The validators the schema declares, path by path. *)
Definition validate (r : t) : path_errors :=
  fails (required_string (name r)) "name" "required"
  ++ fails (required_string (email r)) "email" "required"
  ++ fails (required_string (phone r)) "phone" "required"
  ++ fails (required_string (date r)) "date" "required"
  ++ fails (required_string (time r)) "time" "required"
  ++ (if required_string (type r)
      then fails (enum_ok type_enum (type r)) "type" "enum"
      else [("type", "required")])
  ++ (if field_eqb "surPlace" (type r)
      then fails (required_number (numberOfPeople r)) "numberOfPeople" "required"
      else [])
  ++ (if field_eqb "livraison" (type r)
      then fails (required_string (address r)) "address" "required"
      else [])
  ++ fails (required_number (totalAmount r)) "totalAmount" "required"
  ++ fails (enum_ok status_enum (status r)) "status" "enum".

(** [new Reservation(body)] followed by [save()]. *)
Definition create (e : env) (b : list (string * value)) (coll : gmap string t)
    : exn + (string * t * gmap string t) :=
  let r := construct e b in
  match insert_doc "Reservation" (new_id_errors b ++ cast_errors b ++ validate r)
          (new_id e b) r coll with
  | inl x => inl x
  | inr (k, coll') => inr (k, r, coll')
  end.

(** The schema's cast of one entry of an update.  An entry that names no
    path of the schema is dropped (strict mode). *)
Definition cast_failure (k : string) (v : value) : option string :=
  if existsb (String.eqb k)
       ["name"; "email"; "phone"; "date"; "time"; "type"; "address";
        "specialRequests"; "status"]
  then (if is_some (castString (Some v)) then None else Some "string")
  else if existsb (String.eqb k) ["numberOfPeople"; "totalAmount"]
  then (if is_some (castNumber (Some v)) then None else Some "Number")
  else if String.eqb k "dishes"
  then (if is_some (castDishes (Some v)) then None else Some "Array")
  else if String.eqb k "createdAt"
  then (if is_some (castDateField (Some v)) then None else Some "date")
  else if String.eqb k "_id"
  then (if is_some (castObjectIdValue (Some v)) then None else Some "ObjectId")
  else None.

(** [{ $set: u }] on a stored document. *)
Definition apply_set (u : list (string * value)) (r : t) : t :=
  {| name := set_path castString "name" u (name r);
     email := set_path castString "email" u (email r);
     phone := set_path castString "phone" u (phone r);
     date := set_path castString "date" u (date r);
     time := set_path castString "time" u (time r);
     type := set_path castString "type" u (type r);
     numberOfPeople := set_path castNumber "numberOfPeople" u (numberOfPeople r);
     address := set_path castString "address" u (address r);
     specialRequests := set_path castString "specialRequests" u (specialRequests r);
     dishes := match assoc "dishes" u with
               | None => dishes r
               | Some v => default (dishes r) (castDishes (Some v))
               end;
     totalAmount := set_path castNumber "totalAmount" u (totalAmount r);
     status := set_path castString "status" u (status r);
     createdAt := set_path castDateField "createdAt" u (createdAt r) |}.

Definition findByIdAndUpdate :=
  update_by_id cast_failure apply_set.

End Model.
End Reservation.

(** *** models/MenuItem.js *)

Module MenuItem.

(** Modelled from the spec: [models/MenuItem.js] is not among the sources.
    The spec gives the document as [{id, name, description, price (>0),
    category ∈ enumerated set, image, available: bool}]; the enumerated set
    is the one the menu route accepts. *)
Record t : Type := mk {
  name : field string;
  description : field string;
  price : field float;
  category : field string;
  image : field string;
  available : field bool
}.

Definition category_enum : list string :=
  ["Entrées"; "Plats"; "Desserts"; "Boissons"].

Section Model.
Context `{Platform}.

Definition construct (b : list (string * value)) : t :=
  {| name := cast_path castString "name" b;
     description := cast_path castString "description" b;
     price := cast_path castNumber "price" b;
     category := cast_path castString "category" b;
     image := cast_path castString "image" b;
     available := cast_path castBoolean "available" b |}.

Definition cast_errors (b : list (string * value)) : path_errors :=
  cast_error castString "name" b ++ cast_error castString "description" b
  ++ cast_error castNumber "price" b ++ cast_error castString "category" b
  ++ cast_error castString "image" b ++ cast_error castBoolean "available" b.

Definition price_ok (f : field float) : bool :=
  match f with
  | Undefined => true
  | Null => true
  | Val p => PrimFloat.ltb 0 p
  end.

Definition validate (m : t) : path_errors :=
  fails (price_ok (price m)) "price" "min"
  ++ fails (enum_ok category_enum (category m)) "category" "enum".

Definition create (e : env) (b : list (string * value)) (coll : gmap string t)
    : exn + (string * t * gmap string t) :=
  let m := construct b in
  match insert_doc "MenuItem" (new_id_errors b ++ cast_errors b ++ validate m)
          (new_id e b) m coll with
  | inl x => inl x
  | inr (k, coll') => inr (k, m, coll')
  end.

Definition cast_failure (k : string) (v : value) : option string :=
  if existsb (String.eqb k) ["name"; "description"; "category"; "image"]
  then (if is_some (castString (Some v)) then None else Some "string")
  else if String.eqb k "price"
  then (if is_some (castNumber (Some v)) then None else Some "Number")
  else if String.eqb k "available"
  then (if is_some (castBoolean (Some v)) then None else Some "Boolean")
  else if String.eqb k "_id"
  then (if is_some (castObjectIdValue (Some v)) then None else Some "ObjectId")
  else None.

Definition apply_set (u : list (string * value)) (m : t) : t :=
  {| name := set_path castString "name" u (name m);
     description := set_path castString "description" u (description m);
     price := set_path castNumber "price" u (price m);
     category := set_path castString "category" u (category m);
     image := set_path castString "image" u (image m);
     available := set_path castBoolean "available" u (available m) |}.

Definition findByIdAndUpdate :=
  update_by_id cast_failure apply_set.

End Model.

Definition set_available (a : bool) (m : t) : t :=
  {| name := name m; description := description m; price := price m;
     category := category m; image := image m; available := Val a |}.

End MenuItem.

(** *** models/Order.js *)

Module Order.

(** Modelled from the spec: [models/Order.js] is not among the sources.
    The spec gives the document as [{id, user (owning reference), items:
    ordered sequence of {menuItemRef, quantity≥1}, totalAmount≥0, status ∈
    {pending, preparing, ready, delivered, cancelled}, createdAt}]. *)
Record t : Type := mk {
  user : field string;
  items : list (string * float);
  totalAmount : field float;
  status : field string;
  createdAt : field Z
}.

Definition status_enum : list string :=
  ["pending"; "preparing"; "ready"; "delivered"; "cancelled"].

Definition set_status (s : string) (o : t) : t :=
  {| user := user o; items := items o; totalAmount := totalAmount o;
     status := Val s; createdAt := createdAt o |}.

(** [save()] of a stored document validates the paths that changed. *)
Definition validate_status (o : t) : path_errors :=
  fails (enum_ok status_enum (status o)) "status" "enum".

End Order.

(** *** models/User.js *)

Module User.

(** Modelled from the spec: [models/User.js] is not among the sources.  The
    spec gives the document as [{id, name, email (unique), passwordHash,
    role ∈ {client, staff, admin}, salary (required iff role ∈ {staff,
    admin}), createdAt}]. *)
Record t : Type := mk {
  name : field string;
  email : field string;
  password : field string;
  role : field string;
  salary : field float;
  createdAt : field Z
}.

Definition role_enum : list string := ["client"; "staff"; "admin"].

Definition salaried (u : t) : bool :=
  field_eqb "staff" (role u) || field_eqb "admin" (role u).

Definition validate (u : t) : path_errors :=
  fails (enum_ok role_enum (role u)) "role" "enum"
  ++ (if salaried u
      then fails (required_number (salary u)) "salary" "required"
      else []).

Definition set_role (r : field string) (u : t) : t :=
  {| name := name u; email := email u; password := password u; role := r;
     salary := salary u; createdAt := createdAt u |}.

Section Model.
Context `{Platform}.

Definition hash_password (u : t) : t :=
  {| name := name u; email := email u;
     password := match password u with
                 | Val p => Val (bcrypt_hash p)
                 | f => f
                 end;
     role := role u; salary := salary u; createdAt := createdAt u |}.

Definition construct (e : env) (b : list (string * value)) : t :=
  {| name := cast_path castString "name" b;
     email := cast_path castString "email" b;
     password := cast_path castString "password" b;
     role := cast_path castString "role" b;
     salary := cast_path castNumber "salary" b;
     createdAt := or_default (now e) (cast_path castDateField "createdAt" b) |}.

Definition cast_errors (b : list (string * value)) : path_errors :=
  cast_error castString "name" b ++ cast_error castString "email" b
  ++ cast_error castString "password" b ++ cast_error castString "role" b
  ++ cast_error castNumber "salary" b ++ cast_error castDateField "createdAt" b.

(** [new User(b)] followed by [save()]. *)
Definition create (e : env) (b : list (string * value)) (coll : gmap string t)
    : exn + (string * t * gmap string t) :=
  let u := construct e b in
  match insert_doc "User" (new_id_errors b ++ cast_errors b ++ validate u)
          (new_id e b) (hash_password u) coll with
  | inl x => inl x
  | inr (k, coll') => inr (k, hash_password u, coll')
  end.

(** [User.findOne({ email })]: the filter is cast by the schema; a filter
    whose email is [undefined] is the empty filter, and [null] matches the
    documents without an email. *)
Definition email_matches (f : field string) (d : string * t) : bool :=
  match f with
  | Undefined => true
  | Null => match email d.2 with Val _ => false | _ => true end
  | Val s => field_eqb s (email d.2)
  end.

Definition findOne_email (x : option value) (coll : gmap string t)
    : exn + option (string * t) :=
  match castString x with
  | None => inl (CastError "string" "email")
  | Some f => inr (head (List.filter (email_matches f) (map_to_list coll)))
  end.

End Model.
End User.

(** ** The database *)

Record store : Type := {
  users : gmap string User.t;
  menuItems : gmap string MenuItem.t;
  orders : gmap string Order.t;
  reservations : gmap string Reservation.t
}.

Definition with_users (c : gmap string User.t) (s : store) : store :=
  {| users := c; menuItems := menuItems s; orders := orders s;
     reservations := reservations s |}.

Definition with_menuItems (c : gmap string MenuItem.t) (s : store) : store :=
  {| users := users s; menuItems := c; orders := orders s;
     reservations := reservations s |}.

Definition with_orders (c : gmap string Order.t) (s : store) : store :=
  {| users := users s; menuItems := menuItems s; orders := c;
     reservations := reservations s |}.

Definition with_reservations (c : gmap string Reservation.t) (s : store) : store :=
  {| users := users s; menuItems := menuItems s; orders := orders s;
     reservations := c |}.

(** ** Express: responses, middleware and routes *)

Inductive payload : Type :=
| Msg (s : string)                          (* { msg } *)
| Message (s : string)                      (* { message } *)
| Text (s : string)                         (* res.send(text) *)
| Errors (l : list verror)                  (* { errors: errors.array() } *)
| ErrorMessage (x : exn)                    (* { message: error.message } *)
| WentWrong (detail : option exn)           (* the answer of the error middleware *)
| MenuItems (l : list (string * MenuItem.t))
| MenuItemDoc (d : string * MenuItem.t)
| Reservations (l : list (string * Reservation.t))
| ReservationDoc (d : string * Reservation.t)
| ReservationStats (total pending on_day : nat)
| Session (token : string) (d : string * User.t)   (* { token, user: { id, name, email, role } } *)
| RoleUpdated (d : string * User.t)         (* { message, user } *)
| Failure (message : string) (x : exn)      (* { message, error: err.message } *)
| CannotRoute.                              (* Express: no route matched *)

Record response : Type := { status : Z; content : payload }.

(** [res.status(c).json(p)]; [res.json(p)] answers 200. *)
Definition json (c : Z) (p : payload) : response := {| status := c; content := p |}.

(** What a middleware does with a request: call [next()], answer, or
    throw. *)
Inductive step : Type :=
| Next (r : request)
| Respond (resp : response)
| Throw (x : exn).

Definition middleware : Type := request -> store -> step.
Definition handler : Type := env -> request -> store -> response * store.

(** The error-handling middleware of [server.js]: Express hands it what a
    middleware throws. *)
Definition error_middleware (e : env) (x : exn) : response :=
  json 500 (WentWrong (if development e then Some x else None)).

(** A route: its middleware run in order, then its handler. *)
Fixpoint run (ms : list middleware) (h : handler) (e : env) (req : request)
    (st : store) : response * store :=
  match ms with
  | [] => h e req st
  | m :: ms' =>
      match m req st with
      | Next req' => run ms' h e req' st
      | Respond resp => (resp, st)
      | Throw x => (error_middleware e x, st)
      end
  end.

(** *** express-validator *)

Inductive rule : Type :=
| NotEmpty                       (* .not().isEmpty() *)
| IsEmail                        (* .isEmail() *)
| IsInt (min max : Z)            (* .isInt({ min, max }) *)
| IsFloat (min : float)          (* .isFloat({ min }) *)
| IsIn (allowed : list string)   (* .isIn([...]) *)
| IsLength (min : nat).          (* .isLength({ min }) *)

Definition is_digit (c : ascii) : bool :=
  let n := Ascii.N_of_ascii c in ((48 <=? n) && (n <=? 57))%N.

Fixpoint digits (s : string) (acc : Z) : option Z :=
  match s with
  | EmptyString => Some acc
  | String c s' =>
      if is_digit c
      then digits s' (10 * acc + (Z.of_N (Ascii.N_of_ascii c) - 48))
      else None
  end.

(** The numerals [validator.isInt] accepts: an optional sign, then [0] or
    digits with no leading zero. *)
Definition int_literal (s : string) : option Z :=
  let signed := match s with
                | String "-" r => (true, r)
                | String "+" r => (false, r)
                | _ => (false, s)
                end in
  match signed.2 with
  | EmptyString => None
  | String "0" EmptyString => Some 0
  | String "0" _ => None
  | r => (if signed.1 then Z.opp else fun z => z) <$> digits r 0
  end.

Definition isInt (min max : Z) (s : string) : bool :=
  match int_literal s with
  | Some n => (min <=? n) && (n <=? max)
  | None => false
  end.

Section Pipeline.
Context `{Platform}.

(** [String(v)] of the runtime: an array joins the strings of its
    elements, with nothing for [null]; an object parsed from JSON prints as
    [[object Object]]. *)
Fixpoint js_String (v : value) : string :=
  match v with
  | VNull => "null"
  | VStr s => s
  | VNum n => Number_toString n
  | VBool b => if b then "true" else "false"
  | VArr l =>
      String.concat ","
        (List.map (fun x => match x with VNull => "" | _ => js_String x end) l)
  | VObj _ => "[object Object]"
  end.

Definition shallowString (v : value) : string :=
  match v with
  | VNull => ""
  | VNum n => if is_nan n then "" else Number_toString n
  | _ => js_String v
  end.

(** The string a standard validator is run on: of an array, its first
    element. *)
Definition toString (x : option value) : string :=
  match x with
  | None => ""
  | Some (VArr (v :: _)) => shallowString v
  | Some v => shallowString v
  end.

Definition passes (r : rule) (x : option value) : bool :=
  match r with
  | NotEmpty => negb (String.eqb (toString x) "")
  | IsEmail => isEmail (toString x)
  | IsInt min max => isInt min max (toString x)
  | IsFloat min => isFloat (toString x) min
  | IsIn allowed => existsb (String.eqb (toString x)) allowed
  | IsLength min => isLength (toString x) min
  end.

(** [check(field, message).rule()], mounted on a route: it records an
    error when the field fails the rule, and always calls [next()].  The
    fields of a request travel in its JSON payload; the other places
    express-validator looks a field up in (query string, headers, route
    parameters) do not carry them. *)
Definition check (k message : string) (r : rule) : middleware :=
  fun req _ =>
    let x := assoc k (body req) in
    Next (if passes r x then req
          else add_verror {| param := k; msg := message; given := x |} req).

(** *** middleware/auth.js *)
Definition auth : middleware :=
  fun req _ =>
    match x_auth_token req with
    | None => Respond (json 401 (Msg "Pas de token, autorisation refusée"))
    | Some token =>
        if String.eqb token ""
        then Respond (json 401 (Msg "Pas de token, autorisation refusée"))
        else match jwt_verify token with
             | None => Respond (json 401 (Msg "Token non valide"))
             | Some decoded =>
                 match prop (Some decoded) "user" with
                 | inr u => Next (set_user u req)
                 | inl _ => Respond (json 401 (Msg "Token non valide"))
                 end
             end
    end.

(** *** middleware/checkRole.js *)
Definition checkRole (roles : list string) : middleware :=
  fun req _ =>
    match prop (user req) "role" with
    | inl x => Throw x
    | inr role =>
        if includes roles role
        then Next req
        else Respond (json 403
               (Msg "Accès refusé - Vous n'avez pas les permissions nécessaires"))
    end.

(** [validationResult(req).isEmpty()] *)
Definition no_errors (req : request) : bool :=
  match verrors req with [] => true | _ :: _ => false end.

(** [err.kind === 'ObjectId'] *)
Definition kind_ObjectId (x : exn) : bool :=
  match x with
  | CastError kind _ => String.eqb kind "ObjectId"
  | _ => false
  end.

(** The entries of an object literal [{ k: x }]: a property whose value is
    [undefined] is a path never set. *)
Definition entry (k : string) (x : option value) : list (string * value) :=
  match x with Some v => [(k, v)] | None => [] end.

(** [.sort(...)] of a query, on a comparison of documents. *)
Fixpoint insert_by {A : Type} (le : A -> A -> bool) (x : A) (l : list A) : list A :=
  match l with
  | [] => [x]
  | y :: l' => if le x y then x :: l else y :: insert_by le x l'
  end.

Definition sort_by {A : Type} (le : A -> A -> bool) (l : list A) : list A :=
  foldr (insert_by le) [] l.

(** The order of the server on a string path: a path unset or [null]
    comes before every string. *)
Definition field_compare (a b : field string) : comparison :=
  match a, b with
  | Val x, Val y => String.compare x y
  | Val _, _ => Gt
  | _, Val _ => Lt
  | _, _ => Eq
  end.

Definition lex_le (c1 c2 : comparison) : bool :=
  match c1 with
  | Lt => true
  | Gt => false
  | Eq => match c2 with Gt => false | _ => true end
  end.

(** ** routes/menu.js *)

Definition menu_order (a b : string * MenuItem.t) : bool :=
  lex_le (field_compare (MenuItem.category a.2) (MenuItem.category b.2))
         (field_compare (MenuItem.name a.2) (MenuItem.name b.2)).

Definition is_available (d : string * MenuItem.t) : bool :=
  match MenuItem.available d.2 with Val true => true | _ => false end.

(** GET /api/menu *)
Definition menu_get : handler :=
  fun _ _ st =>
    (json 200 (MenuItems
       (sort_by menu_order (List.filter is_available (map_to_list (menuItems st))))),
     st).

(** POST /api/menu *)
Definition menu_post_stack : list middleware :=
  [ auth;
    checkRole ["staff"; "admin"];
    check "name" "Le nom est requis" NotEmpty;
    check "description" "La description est requise" NotEmpty;
    check "price" "Le prix est requis" (IsFloat 0);
    check "category" "La catégorie est requise"
      (IsIn ["Entrées"; "Plats"; "Desserts"; "Boissons"]);
    check "image" "L'image est requise" NotEmpty ].

Definition menu_post_handler : handler :=
  fun e req st =>
    let b := body req in
    if negb (no_errors req)
    then (json 400 (Errors (verrors req)), st)
    else if negb (truthy (assoc "name" b)) || negb (truthy (assoc "description" b))
            || negb (truthy (assoc "price" b)) || negb (truthy (assoc "category" b))
            || negb (truthy (assoc "image" b))
    then (json 400 (Message "Tous les champs sont requis"), st)
    else
      let price := parseFloat (from_option js_String "undefined" (assoc "price" b)) in
      if is_nan price || PrimFloat.leb price 0
      then (json 400 (Message "Le prix doit être un nombre positif"), st)
      else
        match MenuItem.create e
                (entry "name" (assoc "name" b)
                 ++ entry "description" (assoc "description" b)
                 ++ [("price", VNum price)]
                 ++ entry "category" (assoc "category" b)
                 ++ entry "image" (assoc "image" b)
                 ++ [("available", default (VBool true) (assoc "available" b))])
                (menuItems st) with
        | inr (k, m, coll) => (json 200 (MenuItemDoc (k, m)), with_menuItems coll st)
        | inl x =>
            (json 500 (Failure "Erreur lors de l'ajout de l'élément au menu" x), st)
        end.

Definition menu_post : handler := run menu_post_stack menu_post_handler.

(** PUT /api/menu/:id *)
Definition menu_put_handler : handler :=
  fun _ req st =>
    match MenuItem.findByIdAndUpdate (id_param req) (body req) (menuItems st) with
    | inr None => (json 404 (Msg "Élément non trouvé"), st)
    | inr (Some (k, m, coll)) => (json 200 (MenuItemDoc (k, m)), with_menuItems coll st)
    | inl x =>
        if kind_ObjectId x
        then (json 404 (Msg "Élément non trouvé"), st)
        else (json 500 (Text "Erreur serveur"), st)
    end.

Definition menu_put : handler :=
  run [auth; checkRole ["staff"; "admin"]] menu_put_handler.

(** DELETE /api/menu/:id *)
Definition menu_delete_handler : handler :=
  fun _ req st =>
    match findById (id_param req) (menuItems st) with
    | inr None => (json 404 (Msg "Élément non trouvé"), st)
    | inr (Some (k, m)) =>
        (* menuItem.available = false; await menuItem.save() *)
        (json 200 (Msg "Élément supprimé du menu"),
         with_menuItems (<[k := MenuItem.set_available false m]> (menuItems st)) st)
    | inl x =>
        if kind_ObjectId x
        then (json 404 (Msg "Élément non trouvé"), st)
        else (json 500 (Text "Erreur serveur"), st)
    end.

Definition menu_delete : handler :=
  run [auth; checkRole ["staff"; "admin"]] menu_delete_handler.

(** ** routes/reservations.js *)

Definition by_date_time (a b : string * Reservation.t) : bool :=
  lex_le (field_compare (Reservation.date a.2) (Reservation.date b.2))
         (field_compare (Reservation.time a.2) (Reservation.time b.2)).

Definition created (d : string * Reservation.t) : Z :=
  match Reservation.createdAt d.2 with Val t => t | _ => 0 end.

Definition newest_first (a b : string * Reservation.t) : bool :=
  created b <=? created a.

Definition staff_only : list middleware := [auth; checkRole ["staff"; "admin"]].

(** POST /api/reservations *)
Definition reservations_post_stack : list middleware :=
  [ check "date" "La date est requise" NotEmpty;
    check "time" "L'heure est requise" NotEmpty;
    check "guests" "Le nombre de personnes est requis" (IsInt 1 10);
    check "name" "Le nom est requis" NotEmpty;
    check "email" "Email invalide" IsEmail;
    check "phone" "Le numéro de téléphone est requis" NotEmpty ].

Definition reservations_post_handler : handler :=
  fun e req st =>
    if negb (no_errors req)
    then (json 400 (Errors (verrors req)), st)
    else match Reservation.create e (body req) (reservations st) with
         | inr (k, r, coll) => (json 200 (ReservationDoc (k, r)), with_reservations coll st)
         | inl _ => (json 500 (Text "Erreur serveur"), st)
         end.

Definition reservations_post : handler :=
  run reservations_post_stack reservations_post_handler.

(** GET /api/reservations *)
Definition reservations_list_handler : handler :=
  fun _ _ st =>
    (json 200 (Reservations (sort_by by_date_time (map_to_list (reservations st)))), st).

(** GET /api/reservations/:id *)
Definition reservations_get_handler : handler :=
  fun _ req st =>
    match findById (id_param req) (reservations st) with
    | inr None => (json 404 (Msg "Réservation non trouvée"), st)
    | inr (Some d) => (json 200 (ReservationDoc d), st)
    | inl x =>
        if kind_ObjectId x
        then (json 404 (Msg "Réservation non trouvée"), st)
        else (json 500 (Text "Erreur serveur"), st)
    end.

(** PUT /api/reservations/:id *)
Definition reservations_put_stack : list middleware :=
  [ auth;
    checkRole ["staff"; "admin"];
    check "status" "Le statut est requis" (IsIn ["pending"; "confirmed"; "cancelled"]) ].

Definition reservations_put_handler : handler :=
  fun _ req st =>
    if negb (no_errors req)
    then (json 400 (Errors (verrors req)), st)
    else match Reservation.findByIdAndUpdate (id_param req) (body req) (reservations st) with
         | inr None => (json 404 (Msg "Réservation non trouvée"), st)
         | inr (Some (k, r, coll)) =>
             (json 200 (ReservationDoc (k, r)), with_reservations coll st)
         | inl x =>
             if kind_ObjectId x
             then (json 404 (Msg "Réservation non trouvée"), st)
             else (json 500 (Text "Erreur serveur"), st)
         end.

Definition reservations_put : handler :=
  run reservations_put_stack reservations_put_handler.

(** DELETE /api/reservations/:id *)
Definition reservations_delete_handler : handler :=
  fun _ req st =>
    match findById (id_param req) (reservations st) with
    | inr None => (json 404 (Msg "Réservation non trouvée"), st)
    | inr (Some (k, _)) =>
        (json 200 (Msg "Réservation supprimée"),
         with_reservations (delete k (reservations st)) st)
    | inl x =>
        if kind_ObjectId x
        then (json 404 (Msg "Réservation non trouvée"), st)
        else (json 500 (Text "Erreur serveur"), st)
    end.

(** POST /api/reservations/new *)
Definition reservations_new_handler : handler :=
  fun e req st =>
    match Reservation.create e (body req) (reservations st) with
    | inr (k, r, coll) => (json 201 (ReservationDoc (k, r)), with_reservations coll st)
    | inl x => (json 400 (ErrorMessage x), st)
    end.

Definition reservations_new : handler := run [] reservations_new_handler.

(** GET /api/reservations/all *)
Definition reservations_all_handler : handler :=
  fun _ _ st =>
    (json 200 (Reservations (sort_by newest_first (map_to_list (reservations st)))), st).

Definition reservations_all : handler :=
  run [checkRole ["admin"; "staff"]] reservations_all_handler.

(** PATCH /api/reservations/:id/status: the update is [{ status }], the
    status of the payload alone. *)
Definition reservations_patch_handler : handler :=
  fun _ req st =>
    match Reservation.findByIdAndUpdate (id_param req)
            (entry "status" (assoc "status" (body req))) (reservations st) with
    | inr None => (json 404 (Message "Réservation non trouvée"), st)
    | inr (Some (k, r, coll)) =>
        (json 200 (ReservationDoc (k, r)), with_reservations coll st)
    | inl x => (json 400 (ErrorMessage x), st)
    end.

Definition reservations_patch : handler :=
  run [checkRole ["admin"; "staff"]] reservations_patch_handler.

(** GET /api/reservations/stats *)
Definition reservations_stats_handler : handler :=
  fun e _ st =>
    let all := map_to_list (reservations st) in
    (json 200 (ReservationStats
       (length all)
       (length (List.filter (fun d => field_eqb "pending" (Reservation.status d.2)) all))
       (length (List.filter (fun d => field_eqb (today e) (Reservation.date d.2)) all))),
     st).

(** *** The router

    Express tries the routes of a router in the order of their
    declaration; the first whose method and path match answers. *)
Inductive segment : Type :=
| Lit (s : string)
| Param.

Record route : Type := {
  route_method : method;
  route_path : list segment;
  route_stack : list middleware;
  route_handler : handler
}.

Definition method_eqb (a b : method) : bool :=
  match a, b with
  | GET, GET | POST, POST | PUT, PUT | PATCH, PATCH | DELETE, DELETE => true
  | _, _ => false
  end.

(** The value of the route parameter when the path matches (the empty
    string for a route without one).  Literal segments match without
    regard to case. *)
Fixpoint match_path (pat : list segment) (p : list string) : option string :=
  match pat, p with
  | [], [] => Some ""
  | Lit s :: pat', x :: p' =>
      if String.eqb (map_string lower s) (map_string lower x)
      then match_path pat' p' else None
  | Param :: pat', x :: p' =>
      match match_path pat' p' with Some _ => Some x | None => None end
  | _, _ => None
  end.

Definition set_param (i : string) (r : request) : request :=
  {| meth := meth r; path := path r; x_auth_token := x_auth_token r;
     id_param := i; body := body r; user := user r; verrors := verrors r |}.

Fixpoint dispatch (routes : list route) (e : env) (req : request) (st : store)
    : response * store :=
  match routes with
  | [] => (json 404 CannotRoute, st)
  | r :: routes' =>
      if method_eqb (route_method r) (meth req)
      then match match_path (route_path r) (path req) with
           | Some i => run (route_stack r) (route_handler r) e (set_param i req) st
           | None => dispatch routes' e req st
           end
      else dispatch routes' e req st
  end.

(** The routes of [routes/reservations.js], as the file declares them. *)
Definition reservations_router : list route :=
  [ {| route_method := POST; route_path := [];
       route_stack := reservations_post_stack;
       route_handler := reservations_post_handler |};
    {| route_method := GET; route_path := [];
       route_stack := staff_only; route_handler := reservations_list_handler |};
    {| route_method := GET; route_path := [Param];
       route_stack := staff_only; route_handler := reservations_get_handler |};
    {| route_method := PUT; route_path := [Param];
       route_stack := reservations_put_stack;
       route_handler := reservations_put_handler |};
    {| route_method := DELETE; route_path := [Param];
       route_stack := staff_only; route_handler := reservations_delete_handler |};
    {| route_method := POST; route_path := [Lit "new"];
       route_stack := []; route_handler := reservations_new_handler |};
    {| route_method := GET; route_path := [Lit "all"];
       route_stack := [checkRole ["admin"; "staff"]];
       route_handler := reservations_all_handler |};
    {| route_method := PATCH; route_path := [Param; Lit "status"];
       route_stack := [checkRole ["admin"; "staff"]];
       route_handler := reservations_patch_handler |};
    {| route_method := GET; route_path := [Lit "stats"];
       route_stack := staff_only; route_handler := reservations_stats_handler |} ].

(** A request to [/api/reservations/...]. *)
Definition reservations_api : handler := dispatch reservations_router.

(** ** routes/auth.js *)

Definition field_value (f : field string) : option value :=
  match f with
  | Undefined => None
  | Null => Some VNull
  | Val s => Some (VStr s)
  end.

(** The claims of a session token: [{ user: { id, role } }]. *)
Definition token_payload (k : string) (u : User.t) : value :=
  VObj [("user", VObj ([("id", VStr k)] ++ entry "role" (field_value (User.role u))))].

(** POST /api/auth/register *)
Definition register_stack : list middleware :=
  [ check "name" "Le nom est requis" NotEmpty;
    check "email" "Veuillez inclure un email valide" IsEmail;
    check "password" "Le mot de passe doit contenir au moins 6 caractères" (IsLength 6) ].

Definition register_handler : handler :=
  fun e req st =>
    if negb (no_errors req)
    then (json 400 (Errors (verrors req)), st)
    else
      let b := body req in
      (* const { name, email, password, role = 'client' } = req.body *)
      let role := default (VStr "client") (assoc "role" b) in
      match User.findOne_email (assoc "email" b) (users st) with
      | inl _ => (json 500 (Text "Erreur serveur"), st)
      | inr (Some _) => (json 400 (Msg "Cet utilisateur existe déjà"), st)
      | inr None =>
          match User.create e
                  (entry "name" (assoc "name" b) ++ entry "email" (assoc "email" b)
                   ++ entry "password" (assoc "password" b) ++ [("role", role)])
                  (users st) with
          | inl _ => (json 500 (Text "Erreur serveur"), st)
          | inr (k, u, coll) =>
              (json 200 (Session (jwt_sign (token_payload k u)) (k, u)),
               with_users coll st)
          end
      end.

Definition register : handler := run register_stack register_handler.

(** ** routes/orders.js *)

(** [a === 'client'] and the like: a value that is this string. *)
Definition is_string (s : string) (x : option value) : bool :=
  match x with Some (VStr s') => String.eqb s' s | _ => false end.

(** DELETE /api/orders/:id *)
Definition orders_delete_handler : handler :=
  fun _ req st =>
    let server_error := (json 500 (Text "Erreur serveur"), st) in
    match findById (id_param req) (orders st) with
    | inl x =>
        if kind_ObjectId x
        then (json 404 (Msg "Commande non trouvée"), st)
        else server_error
    | inr None => (json 404 (Msg "Commande non trouvée"), st)
    | inr (Some (k, order)) =>
        match prop (user req) "role" with
        | inl _ => server_error
        | inr role =>
            let cancel :=
              (* order.status = 'cancelled'; await order.save() *)
              let order' := Order.set_status "cancelled" order in
              match Order.validate_status order' with
              | [] => (json 200 (Msg "Commande annulée"),
                       with_orders (<[k := order']> (orders st)) st)
              | _ :: _ => server_error
              end in
            if is_string "client" role
            then match Order.user order, prop (user req) "id" with
                 | Val owner, inr i =>
                     if negb (is_string owner i)
                     then (json 403 (Msg "Non autorisé"), st)
                     else cancel
                 | _, _ => server_error
                 end
            else cancel
        end
    end.

Definition orders_delete : handler := run [auth] orders_delete_handler.

(** ** routes/admin.js *)

(** The middleware [isAdmin]. *)
Definition isAdmin : middleware :=
  fun req st =>
    let server_error := Respond (json 500 (Message "Erreur serveur")) in
    match prop (user req) "id" with
    | inl _ => server_error
    | inr i =>
        match castObjectIdValue i with
        | None => server_error
        | Some k =>
            match users st !! k with
            | None => server_error
            | Some u =>
                if negb (field_eqb "admin" (User.role u))
                then Respond (json 403 (Message
                       "Accès refusé. Seuls les administrateurs peuvent effectuer cette action."))
                else Next req
            end
        end
    end.

(** PUT /api/admin/users/:userId/role *)
Definition role_put_handler : handler :=
  fun _ req st =>
    let server_error :=
      (json 500 (Message "Erreur lors de la modification du rôle"), st) in
    let role := assoc "role" (body req) in
    if negb (includes ["client"; "staff"; "admin"] role)
    then (json 400 (Message "Rôle invalide"), st)
    else
      match findById (id_param req) (users st) with
      | inl _ => server_error
      | inr None => (json 404 (Message "Utilisateur non trouvé"), st)
      | inr (Some (k, u)) =>
          match prop (user req) "id" with
          | inl _ => server_error
          | inr i =>
              if is_string k i && negb (is_string "admin" role)
              then (json 400 (Message "Vous ne pouvez pas modifier votre propre rôle"), st)
              else
                (* user.role = role; await user.save() *)
                let u' := User.set_role (default Undefined (castString role)) u in
                match User.validate u' with
                | [] => (json 200 (RoleUpdated (k, u')),
                         with_users (<[k := u']> (users st)) st)
                | _ :: _ => server_error
                end
          end
      end.

Definition role_put : handler := run [auth; isAdmin] role_put_handler.

End Pipeline.

(** The percentage change of [GET /api/admin/stats], on the numbers of the
    runtime (IEEE 754 doubles). *)
Definition calculateChange (current previous : float) : float :=
  (* if (!previous) return 0 *)
  if PrimFloat.eqb previous 0 || is_nan previous then 0%float
  else (((current - previous) / previous) * 100)%float.

(** [stats[0]?.total || 0]: the total of a window, [0] when the window is
    empty or its total is falsy. *)
Definition window_total (total : option float) : float :=
  match total with
  | Some t => if PrimFloat.eqb t 0 || is_nan t then 0%float else t
  | None => 0%float
  end.

Definition revenueChange (current previous : option float) : float :=
  calculateChange (window_total current) (window_total previous).

(** A request that carries a token [jwt.verify] accepts: [u] is what
    [auth] stores in [req.user]. *)
Definition authenticated `{Platform} (req : request) (u : option value) : Prop :=
  exists token decoded,
    x_auth_token req = Some token /\ token <> "" /\
    jwt_verify token = Some decoded /\ prop (Some decoded) "user" = inr u.

(** What the checks of a route keep true of the request: its payload, and
    that every recorded error is on one of the checked fields. *)
Definition checked (b : list (string * value)) (fields : list string)
    (req : request) : Prop :=
  body req = b /\ Forall (fun x => In (param x) fields) (verrors req).

(** A middleware that is a check of one of [fields]. *)
Definition is_check `{Platform} (fields : list string) (m : middleware) : Prop :=
  exists k message r, In k fields /\ m = check k message r.

(** ** A platform to run the program on

    The examples below run the handlers on this platform: three tokens are
    valid, numbers are printed and read as decimal integers. *)
Module Demo.

Definition client_id : string := "64f100000000000000000001".
Definition staff_id : string := "64f100000000000000000002".
Definition admin_id : string := "64f100000000000000000003".

Definition claims (k role : string) : value :=
  VObj [("user", VObj [("id", VStr k); ("role", VStr role)])].

Definition verify (token : string) : option value :=
  if String.eqb token "client-token" then Some (claims client_id "client")
  else if String.eqb token "staff-token" then Some (claims staff_id "staff")
  else if String.eqb token "admin-token" then Some (claims admin_id "admin")
  else None.

Definition float_of_Z (z : Z) : float :=
  match z with
  | Z0 => 0%float
  | Zpos _ => PrimFloat.of_uint63 (Uint63.of_Z z)
  | Zneg _ => PrimFloat.opp (PrimFloat.of_uint63 (Uint63.of_Z (- z)))
  end.

Definition number_of_string (s : string) : float :=
  match int_literal s with
  | Some z => float_of_Z z
  | None => PrimFloat.nan
  end.

Definition Z_of_float (x : float) : option Z :=
  match Prim2SF x with
  | S754_zero _ => Some 0
  | S754_finite s m e =>
      let z := if 0 <=? e then Z.pos m * 2 ^ e else Z.pos m / 2 ^ (- e) in
      Some (if s then - z else z)
  | _ => None
  end.

Definition string_of_number (x : float) : string :=
  match Z_of_float x with
  | Some z => pretty z
  | None => "NaN"
  end.

Fixpoint has_at (s : string) : bool :=
  match s with
  | EmptyString => false
  | String c s' => Ascii.eqb c "@" || has_at s'
  end.

#[local] Instance platform : Platform := {|
  jwt_verify := verify;
  jwt_sign := fun _ => "issued-token";
  isEmail := has_at;
  isFloat := fun s min =>
    match int_literal s with
    | Some z => PrimFloat.leb min (float_of_Z z)
    | None => false
    end;
  isLength := fun s min => Nat.leb min (String.length s);
  Number_toString := string_of_number;
  Number_ofString := number_of_string;
  parseFloat := number_of_string;
  bcrypt_hash := fun p => "$2a$10$" +:+ p;
  castDate := fun v => match v with VNum n => Z_of_float n | _ => None end
|}.

Definition environment : env :=
  {| now := 1700000000000; fresh_oid := "64f1000000000000000000aa";
     today := "2023-11-14"; development := false |}.

(** A database with one admin, two menu items (one of them withdrawn), an
    order of the client that was delivered, and one reservation. *)
Definition admin_user : User.t :=
  {| User.name := Val "Ada"; User.email := Val "ada@resto.fr";
     User.password := Val "$2a$10$secret"; User.role := Val "admin";
     User.salary := Val 3000%float; User.createdAt := Val 1690000000000 |}.

Definition soup_id : string := "64f1000000000000000000b1".
Definition tart_id : string := "64f1000000000000000000b2".

Definition soup : MenuItem.t :=
  {| MenuItem.name := Val "Soupe"; MenuItem.description := Val "Soupe du jour";
     MenuItem.price := Val 6%float; MenuItem.category := Val "Plats";
     MenuItem.image := Val "soupe.png"; MenuItem.available := Val false |}.

Definition tart : MenuItem.t :=
  {| MenuItem.name := Val "Tarte"; MenuItem.description := Val "Tarte aux pommes";
     MenuItem.price := Val 5%float; MenuItem.category := Val "Desserts";
     MenuItem.image := Val "tarte.png"; MenuItem.available := Val true |}.

Definition order_id : string := "64f1000000000000000000c1".

Definition delivered_order : Order.t :=
  {| Order.user := Val client_id; Order.items := [(tart_id, 2%float)];
     Order.totalAmount := Val 10%float; Order.status := Val "delivered";
     Order.createdAt := Val 1699000000000 |}.

Definition booking_id : string := "64f1000000000000000000d1".

Definition booking : Reservation.t :=
  {| Reservation.name := Val "Luc"; Reservation.email := Val "luc@mail.fr";
     Reservation.phone := Val "0600000000"; Reservation.date := Val "2023-11-20";
     Reservation.time := Val "20:00"; Reservation.type := Val "surPlace";
     Reservation.numberOfPeople := Val 4%float; Reservation.address := Undefined;
     Reservation.specialRequests := Undefined; Reservation.dishes := [];
     Reservation.totalAmount := Val 0%float; Reservation.status := Val "pending";
     Reservation.createdAt := Val 1699500000000 |}.

Definition database : store :=
  {| users := {[ admin_id := admin_user ]};
     menuItems := {[ soup_id := soup; tart_id := tart ]};
     orders := {[ order_id := delivered_order ]};
     reservations := {[ booking_id := booking ]} |}.

(** Payloads. *)
Definition delivery : list (string * value) :=
  [ ("name", VStr "Zoé"); ("email", VStr "zoe@mail.fr"); ("phone", VStr "0611111111");
    ("date", VStr "2023-11-21"); ("time", VStr "19:30"); ("guests", VNum 2);
    ("type", VStr "livraison"); ("totalAmount", VNum 25) ].

Definition signup (role : list (string * value)) : list (string * value) :=
  [ ("name", VStr "Max"); ("email", VStr "max@mail.fr");
    ("password", VStr "s3cret!") ] ++ role.

End Demo.

(** ** The rest of the routers *)

Section Routes.
Context `{Platform}.

(** *** What a list of checks records *)

(** The error a check records on a payload, if any. *)
Definition failure_of (b : list (string * value)) (c : string * string * rule)
    : list verror :=
  let '(k, message, r) := c in
  if passes r (assoc k b) then []
  else [{| param := k; msg := message; given := assoc k b |}].

Definition failures (cs : list (string * string * rule))
    (b : list (string * value)) : list verror :=
  concat (List.map (failure_of b) cs).

Definition checks (cs : list (string * string * rule)) : list middleware :=
  List.map (fun c => check c.1.1 c.1.2 c.2) cs.

Definition add_verrors (l : list verror) (req : request) : request :=
  {| meth := meth req; path := path req; x_auth_token := x_auth_token req;
     id_param := id_param req; body := body req; user := user req;
     verrors := verrors req ++ l |}.

(** The fields each route checks, in the order of its declaration. *)
Definition register_checks : list (string * string * rule) :=
  [ ("name", "Le nom est requis", NotEmpty);
    ("email", "Veuillez inclure un email valide", IsEmail);
    ("password", "Le mot de passe doit contenir au moins 6 caractères", IsLength 6) ].

Definition reservation_checks : list (string * string * rule) :=
  [ ("date", "La date est requise", NotEmpty);
    ("time", "L'heure est requise", NotEmpty);
    ("guests", "Le nombre de personnes est requis", IsInt 1 10);
    ("name", "Le nom est requis", NotEmpty);
    ("email", "Email invalide", IsEmail);
    ("phone", "Le numéro de téléphone est requis", NotEmpty) ].

(** *** routes/auth.js, login *)

(** [check(field, message).exists()]: the field is not [undefined]. *)
Definition check_exists (k message : string) : middleware :=
  fun req _ =>
    Next (match assoc k (body req) with
          | Some _ => req
          | None => add_verror {| param := k; msg := message; given := None |} req
          end).

Definition login_stack : list middleware :=
  [ check "email" "Veuillez inclure un email valide" IsEmail;
    check_exists "password" "Le mot de passe est requis" ].

(** [user.comparePassword(password)] is a method of [models/User.js]: the
    handler is parametric in it.  [None] is an exception. *)
Variable comparePassword : User.t -> option value -> option bool.

(** POST /api/auth/login *)
Definition login_handler : handler :=
  fun _ req st =>
    if negb (no_errors req)
    then (json 400 (Errors (verrors req)), st)
    else
      let b := body req in
      match User.findOne_email (assoc "email" b) (users st) with
      | inl _ => (json 500 (Text "Erreur serveur"), st)
      | inr None => (json 400 (Msg "Identifiants invalides"), st)
      | inr (Some (k, u)) =>
          match comparePassword u (assoc "password" b) with
          | None => (json 500 (Text "Erreur serveur"), st)
          | Some false => (json 400 (Msg "Identifiants invalides"), st)
          | Some true =>
              (json 200 (Session (jwt_sign (token_payload k u)) (k, u)), st)
          end
      end.

Definition login : handler := run login_stack login_handler.

End Routes.

(** No two stored users have the same email. *)
Definition emails_unique (coll : gmap string User.t) : Prop :=
  forall k1 k2 u1 u2 s,
    coll !! k1 = Some u1 -> coll !! k2 = Some u2 ->
    User.email u1 = Val s -> User.email u2 = Val s -> k1 = k2.

(** A list in the order of [le]: each element is before the next. *)
Definition in_order {A : Type} (le : A -> A -> bool) (l : list A) : Prop :=
  Sorted (fun a b => le a b = true) l.

(** ** Routes that answer with orders, users and counts *)

(** An order as a query returns it: [.populate('user', ['name', 'email'])]
    replaces the owner's id by the id, name and email of the stored user
    ([null] when there is none), [.populate('items.menuItem')] each item's
    id by the stored menu item ([null] when there is none). *)
Record order_view : Type := {
  view_id : string;
  view_order : Order.t;
  view_user : option (option (string * field string * field string));
      (* [None]: the owner was not populated *)
  view_items : list (option (string * MenuItem.t))
}.

Inductive answer : Type :=
| Plain (p : payload)
| Categories (l : list (option string))     (* an array of strings and nulls *)
| TotalItems (n : nat)                      (* { totalItems } *)
| OrderViews (l : list order_view)
| OrderView (o : order_view)
| UserDocs (l : list (string * User.t))
| UserDoc (d : string * User.t).

Definition xhandler : Type := env -> request -> store -> (Z * answer) * store.

(** [res.status(c).json(a)] *)
Definition reply (c : Z) (a : answer) (st : store) : (Z * answer) * store :=
  ((c, a), st).

Definition plain (r : response) (st : store) : (Z * answer) * store :=
  ((status r, Plain (content r)), st).

(** A route whose handler answers with an [answer]: the middleware is the
    same. *)
Fixpoint xrun (ms : list middleware) (h : xhandler) (e : env) (req : request)
    (st : store) : (Z * answer) * store :=
  match ms with
  | [] => h e req st
  | m :: ms' =>
      match m req st with
      | Next req' => xrun ms' h e req' st
      | Respond resp => plain resp st
      | Throw x => plain (error_middleware e x) st
      end
  end.

Section Answers.
Context `{Platform}.

(** *** routes/menu.js *)

(** [MenuItem.distinct('category')]: the categories of the stored items,
    available or not, each once. *)
Definition category_of (d : string * MenuItem.t) : list (option string) :=
  match MenuItem.category d.2 with
  | Val c => [Some c]
  | Null => [None]
  | Undefined => []
  end.

Definition menu_categories (st : store) : list (option string) :=
  remove_dups (concat (List.map category_of (map_to_list (menuItems st)))).

(** GET /api/menu/categories *)
Definition menu_categories_handler : xhandler :=
  fun _ _ st => reply 200 (Categories (menu_categories st)) st.

(** GET /api/menu/stats *)
Definition menu_stats_handler : xhandler :=
  fun _ _ st =>
    reply 200
      (TotalItems (length (List.filter is_available (map_to_list (menuItems st))))) st.

Definition menu_stats : xhandler :=
  xrun [auth; checkRole ["staff"; "admin"]] menu_stats_handler.

(** *** routes/orders.js *)

Definition populate_user (st : store) (f : field string)
    : option (string * field string * field string) :=
  match f with
  | Val k =>
      match users st !! k with
      | Some u => Some (k, User.name u, User.email u)
      | None => None
      end
  | _ => None
  end.

Definition populate_item (st : store) (it : string * float)
    : option (string * MenuItem.t) :=
  match menuItems st !! it.1 with
  | Some m => Some (it.1, m)
  | None => None
  end.

Definition view (with_user : bool) (st : store) (d : string * Order.t) : order_view :=
  {| view_id := d.1; view_order := d.2;
     view_user := if with_user then Some (populate_user st (Order.user d.2)) else None;
     view_items := List.map (populate_item st) (Order.items d.2) |}.

(** [.sort({ createdAt: -1 })]: the latest first, an order without a date
    last. *)
Definition order_date (d : string * Order.t) : option Z :=
  match Order.createdAt d.2 with Val t => Some t | _ => None end.

Definition latest_first (a b : string * Order.t) : bool :=
  match order_date a, order_date b with
  | Some x, Some y => y <=? x
  | Some _, None => true
  | None, Some _ => false
  | None, None => true
  end.

(** The filter [{ user: req.user.id }], cast by the schema: [None] is a
    [CastError].  An id that is [undefined] or [null] selects the orders
    without an owner. *)
Definition owned_by (i : option value) : option (string * Order.t -> bool) :=
  match i with
  | None | Some VNull =>
      Some (fun d => match Order.user d.2 with Val _ => false | _ => true end)
  | Some (VStr s) =>
      match castObjectId s with
      | Some k => Some (fun d => field_eqb k (Order.user d.2))
      | None => None
      end
  | Some _ => None
  end.

(** GET /api/orders *)
Definition orders_list_handler : xhandler :=
  fun _ req st =>
    let server_error := plain (json 500 (Text "Erreur serveur")) st in
    match prop (user req) "role" with
    | inl _ => server_error
    | inr role =>
        if includes ["staff"; "admin"] role
        then reply 200
               (OrderViews (List.map (view true st)
                  (sort_by latest_first (map_to_list (orders st))))) st
        else match prop (user req) "id" with
             | inl _ => server_error
             | inr i =>
                 match owned_by i with
                 | None => server_error
                 | Some mine =>
                     reply 200
                       (OrderViews (List.map (view false st)
                          (sort_by latest_first
                             (List.filter mine (map_to_list (orders st)))))) st
                 end
             end
    end.

Definition orders_list : xhandler := xrun [auth] orders_list_handler.






(** *** routes/staff.js *)

(** [.select('-password')] *)
Definition without_password (d : string * User.t) : string * User.t :=
  (d.1, {| User.name := User.name d.2; User.email := User.email d.2;
           User.password := Undefined; User.role := User.role d.2;
           User.salary := User.salary d.2; User.createdAt := User.createdAt d.2 |}).

Definition by_name (a b : string * User.t) : bool :=
  match field_compare (User.name a.2) (User.name b.2) with
  | Gt => false
  | _ => true
  end.

Definition has_role (r : string) (d : string * User.t) : bool :=
  field_eqb r (User.role d.2).

(** GET /api/staff *)
Definition staff_list_handler : xhandler :=
  fun _ _ st =>
    reply 200
      (UserDocs (List.map without_password
         (sort_by by_name (List.filter (has_role "staff") (map_to_list (users st)))))) st.

Definition staff_list : xhandler :=
  xrun [auth; checkRole ["admin"]] staff_list_handler.

(** POST /api/staff *)
Definition staff_checks : list (string * string * rule) :=
  [ ("name", "Le nom est requis", NotEmpty);
    ("email", "Email invalide", IsEmail);
    ("password", "Le mot de passe doit contenir au moins 6 caractères", IsLength 6);
    ("role", "Le rôle est requis", IsIn ["staff"; "admin"]);
    ("salary", "Le salaire est requis", IsFloat 0) ].

Definition staff_post_handler : xhandler :=
  fun e req st =>
    if negb (no_errors req)
    then plain (json 400 (Errors (verrors req))) st
    else
      let b := body req in
      match User.findOne_email (assoc "email" b) (users st) with
      | inl _ => plain (json 500 (Text "Erreur serveur")) st
      | inr (Some _) => plain (json 400 (Msg "Cet utilisateur existe déjà")) st
      | inr None =>
          match User.create e
                  (entry "name" (assoc "name" b) ++ entry "email" (assoc "email" b)
                   ++ entry "password" (assoc "password" b)
                   ++ entry "role" (assoc "role" b)
                   ++ entry "salary" (assoc "salary" b))
                  (users st) with
          | inl _ => plain (json 500 (Text "Erreur serveur")) st
          | inr (k, u, coll) => reply 200 (UserDoc (k, u)) (with_users coll st)
          end
      end.

Definition staff_post : xhandler :=
  xrun ([auth; checkRole ["admin"]] ++ checks staff_checks) staff_post_handler.

(** [user.salary = v] and [user.name = v]: the value is cast on assignment;
    a failed cast is reported by [save()]. *)
Definition assign {A : Type} (cast : option value -> option (field A))
    (x : option value) (old : field A) : field A * path_errors :=
  if truthy x
  then match cast x with
       | Some f => (f, [])
       | None => (old, [("", "cast")])
       end
  else (old, []).

(** PUT /api/staff/:id *)
Definition staff_put_handler : xhandler :=
  fun _ req st =>
    if negb (no_errors req)
    then plain (json 400 (Errors (verrors req))) st
    else
      match findById (id_param req) (users st) with
      | inl x =>
          if kind_ObjectId x
          then plain (json 404 (Msg "Utilisateur non trouvé")) st
          else plain (json 500 (Text "Erreur serveur")) st
      | inr None => plain (json 404 (Msg "Utilisateur non trouvé")) st
      | inr (Some (k, u)) =>
          if negb (includes ["staff"; "admin"] (field_value (User.role u)))
          then plain (json 400 (Msg "Cet utilisateur n'est pas un membre du personnel")) st
          else
            (* if (req.body.salary) user.salary = req.body.salary;
               if (req.body.name) user.name = req.body.name; *)
            let salary := assign castNumber (assoc "salary" (body req)) (User.salary u) in
            let name := assign castString (assoc "name" (body req)) (User.name u) in
            let u' := {| User.name := name.1; User.email := User.email u;
                         User.password := User.password u; User.role := User.role u;
                         User.salary := salary.1; User.createdAt := User.createdAt u |} in
            match salary.2 ++ name.2 ++ User.validate u' with
            | [] => reply 200 (UserDoc (without_password (k, u')))
                      (with_users (<[k := u']> (users st)) st)
            | _ :: _ => plain (json 500 (Text "Erreur serveur")) st
            end
      end.

Definition staff_put : xhandler :=
  xrun ([auth; checkRole ["admin"]] ++ checks [("salary", "Le salaire est requis", IsFloat 0)])
    staff_put_handler.

(** DELETE /api/staff/:id *)
Definition staff_delete_handler : xhandler :=
  fun _ req st =>
    match findById (id_param req) (users st) with
    | inl x =>
        if kind_ObjectId x
        then plain (json 404 (Msg "Utilisateur non trouvé")) st
        else plain (json 500 (Text "Erreur serveur")) st
    | inr None => plain (json 404 (Msg "Utilisateur non trouvé")) st
    | inr (Some (k, u)) =>
        if negb (includes ["staff"; "admin"] (field_value (User.role u)))
        then plain (json 400 (Msg "Cet utilisateur n'est pas un membre du personnel")) st
        else reply 200 (Plain (Msg "Membre du personnel supprimé"))
               (with_users (delete k (users st)) st)
    end.

Definition staff_delete : xhandler :=
  xrun [auth; checkRole ["admin"]] staff_delete_handler.

(** *** routes/admin.js *)

(** GET /api/admin/users *)
Definition admin_users_handler : xhandler :=
  fun _ _ st =>
    reply 200
      (UserDocs (List.map without_password
         (List.filter (has_role "client") (map_to_list (users st))))) st.

Definition admin_users : xhandler := xrun [auth; isAdmin] admin_users_handler.

End Answers.

(** ** More sample data *)

Module Sample.

(** A delivery with its address. *)
Definition dinner : list (string * value) :=
  Demo.delivery ++ [("address", VStr "3 rue des Lilas")].

Definition cook : User.t :=
  {| User.name := Val "Bob"; User.email := Val "bob@resto.fr";
     User.password := Val "$2a$10$cuisine"; User.role := Val "staff";
     User.salary := Val 2000%float; User.createdAt := Val 1691000000000 |}.

Definition manager : User.t :=
  {| User.name := Val "Eve"; User.email := Val "eve@resto.fr";
     User.password := Val "$2a$10$gestion"; User.role := Val "admin";
     User.salary := Val 2800%float; User.createdAt := Val 1692000000000 |}.

(** The database of [Demo] with a cook under the id of the staff token. *)
Definition kitchen : store :=
  with_users (<[Demo.staff_id := cook]> (users Demo.database)) Demo.database.

(** The database of [Demo] with a second admin under that id. *)
Definition office : store :=
  with_users (<[Demo.staff_id := manager]> (users Demo.database)) Demo.database.

(** [user.comparePassword(p)] on the hashes of [Demo.platform]. *)
Definition comparePassword (u : User.t) (x : option value) : option bool :=
  match x, User.password u with
  | Some (VStr p), Val h => Some (String.eqb h ("$2a$10$" +:+ p))
  | _, _ => None
  end.

End Sample.

(** * Properties *)

Section Properties.
Context `{Platform}.

(** A string is none of the strings of a list of literals. *)
Ltac not_among :=
  let Hx := fresh "Hx" in
  simpl; intros Hx;
  repeat (destruct Hx as [Hx|Hx]; [discriminate Hx|]); exact Hx.

(** ** The middleware chain *)

Lemma run_next (m : middleware) ms h e req req' st :
  m req st = Next req' -> run (m :: ms) h e req st = run ms h e req' st.
Proof. intros Hm. simpl. now rewrite Hm. Qed.

Lemma run_respond (m : middleware) ms h e req resp st :
  m req st = Respond resp -> run (m :: ms) h e req st = (resp, st).
Proof. intros Hm. simpl. now rewrite Hm. Qed.

Lemma run_throw (m : middleware) ms h e req x st :
  m req st = Throw x -> run (m :: ms) h e req st = (error_middleware e x, st).
Proof. intros Hm. simpl. now rewrite Hm. Qed.

Lemma auth_next req u st :
  authenticated req u -> auth req st = Next (set_user u req).
Proof.
  intros (token & decoded & Htok & Hne & Hver & Huser).
  unfold auth. rewrite Htok.
  destruct (String.eqb_spec token "") as [->|_]; [congruence|].
  now rewrite Hver, Huser.
Qed.

Lemma auth_missing req st :
  x_auth_token req = None ->
  auth req st = Respond (json 401 (Msg "Pas de token, autorisation refusée")).
Proof. intros Htok. unfold auth. now rewrite Htok. Qed.

Lemma auth_invalid req token st :
  x_auth_token req = Some token -> jwt_verify token = None ->
  auth req st =
    Respond (json 401 (Msg (if String.eqb token ""
                            then "Pas de token, autorisation refusée"
                            else "Token non valide"))).
Proof.
  intros Htok Hver. unfold auth. rewrite Htok.
  destruct (String.eqb token ""); [reflexivity|]. now rewrite Hver.
Qed.

Lemma checkRole_forbidden roles req role st :
  prop (user req) "role" = inr role -> includes roles role = false ->
  checkRole roles req st =
    Respond (json 403 (Msg "Accès refusé - Vous n'avez pas les permissions nécessaires")).
Proof. intros Hrole Hin. unfold checkRole. now rewrite Hrole, Hin. Qed.

Lemma checkRole_allowed roles req role st :
  prop (user req) "role" = inr role -> includes roles role = true ->
  checkRole roles req st = Next req.
Proof. intros Hrole Hin. unfold checkRole. now rewrite Hrole, Hin. Qed.

Lemma checkRole_no_user roles req st :
  user req = None -> checkRole roles req st = Throw TypeError.
Proof. intros Hu. unfold checkRole. now rewrite Hu. Qed.

(** C1. On a route that mounts [auth] and then the role gate, a request of
    an authenticated user whose role is not one of the allowed roles is
    answered 403, whatever its payload and whatever the route mounts after
    the gate: nothing is validated and the database is unchanged.  When the
    role is allowed the gate calls [next()] on the request as it received
    it.  POST /api/menu, open to staff and admin, is such a route. *)
Theorem role_gate_forbids_or_passes
    (roles : list string) (ms : list middleware) (h : handler)
    (e : env) (req : request) (st : store) (u role : option value) :
  authenticated req u ->
  prop u "role" = inr role ->
  (includes roles role = false ->
     run (auth :: checkRole roles :: ms) h e req st =
       (json 403 (Msg "Accès refusé - Vous n'avez pas les permissions nécessaires"), st))
  /\ (includes roles role = true ->
        checkRole roles (set_user u req) st = Next (set_user u req)
        /\ run (auth :: checkRole roles :: ms) h e req st =
             run ms h e (set_user u req) st)
  /\ (includes ["staff"; "admin"] role = false ->
        menu_post e req st =
          (json 403 (Msg "Accès refusé - Vous n'avez pas les permissions nécessaires"), st)).
Proof.
  intros Hauth Hrole.
  pose proof (auth_next req u st Hauth) as Ha.
  assert (Hgate : forall rs ms', includes rs role = false ->
            run (auth :: checkRole rs :: ms') h e req st =
              (json 403 (Msg "Accès refusé - Vous n'avez pas les permissions nécessaires"), st)).
  { intros rs ms' Hin. rewrite (run_next _ _ _ _ _ _ _ Ha).
    apply run_respond. now apply checkRole_forbidden with (role := role). }
  split; [apply Hgate|]. split.
  - intros Hin.
    assert (Hc : checkRole roles (set_user u req) st = Next (set_user u req))
      by now apply checkRole_allowed with (role := role).
    split; [exact Hc|].
    rewrite (run_next _ _ _ _ _ _ _ Ha). now apply run_next.
  - intros Hin. unfold menu_post, menu_post_stack.
    rewrite (run_next _ _ _ _ _ _ _ Ha).
    apply run_respond. now apply checkRole_forbidden with (role := role).
Qed.

(** C2. A route that mounts [auth] first answers 401 to a request without
    the x-auth-token header (or with an empty one), and to a request whose
    token [jwt.verify] rejects; the middleware after [auth] and the handler
    do not run, and the database is unchanged. *)
Theorem auth_rejects_without_valid_token
    (ms : list middleware) (h : handler) (e : env) (req : request) (st : store) :
  (x_auth_token req = None \/ x_auth_token req = Some "" ->
     run (auth :: ms) h e req st =
       (json 401 (Msg "Pas de token, autorisation refusée"), st))
  /\ (forall token, x_auth_token req = Some token -> jwt_verify token = None ->
        status (run (auth :: ms) h e req st).1 = 401
        /\ (run (auth :: ms) h e req st).2 = st
        /\ forall ms' h', run (auth :: ms') h' e req st = run (auth :: ms) h e req st).
Proof.
  split.
  - intros [Htok|Htok]; apply run_respond; unfold auth; now rewrite Htok.
  - intros token Htok Hver.
    pose proof (auth_invalid req token st Htok Hver) as Ha.
    rewrite (run_respond _ _ _ _ _ _ _ Ha). repeat split.
    intros ms' h'. now rewrite (run_respond _ _ _ _ _ _ _ Ha).
Qed.

(** ** Validation checks and the Reservation schema *)

Lemma run_check k message r ms h e req st :
  run (check k message r :: ms) h e req st =
    run ms h e (if passes r (assoc k (body req)) then req
                else add_verror {| param := k; msg := message;
                                   given := assoc k (body req) |} req) st.
Proof. reflexivity. Qed.

Lemma check_checked b fields k message r req st :
  In k fields -> checked b fields req ->
  exists req', check k message r req st = Next req' /\ checked b fields req'.
Proof.
  intros Hk [Hb Hv]. unfold check. eexists. split; [reflexivity|].
  destruct (passes r _); [now split|].
  split; [exact Hb|]. simpl. apply Forall_app. split; [exact Hv|].
  constructor; [exact Hk|constructor].
Qed.

Lemma insert_doc_invalid {D : Type} model errs i (d : D) coll :
  errs <> [] -> insert_doc model errs i d coll = inl (ValidationError model errs).
Proof. intros Hne. unfold insert_doc. destruct errs; [congruence|]. now destruct i. Qed.

Lemma insert_doc_inserted {D : Type} model errs i (d : D) coll k coll' :
  insert_doc model errs i d coll = inr (k, coll') ->
  errs = [] /\ i = Some k /\ coll !! k = None /\ coll' = <[k := d]> coll.
Proof.
  unfold insert_doc. destruct errs; [|discriminate].
  destruct i as [k'|]; [|discriminate].
  destruct (coll !! k') eqn:Hk; [discriminate|].
  intros [= <- <-]. auto.
Qed.

Lemma address_required e b :
  assoc "type" b = Some (VStr "livraison") -> assoc "address" b = None ->
  In ("address", "required") (Reservation.validate (Reservation.construct e b)).
Proof.
  intros Hty Haddr. unfold Reservation.validate.
  assert (Ht : Reservation.type (Reservation.construct e b) = Val "livraison")
    by (simpl; unfold cast_path; now rewrite Hty).
  assert (Ha : Reservation.address (Reservation.construct e b) = Undefined)
    by (simpl; unfold cast_path; now rewrite Haddr).
  rewrite !in_app_iff, Ht, Ha. simpl. intuition.
Qed.

Lemma create_without_address e b coll :
  assoc "type" b = Some (VStr "livraison") -> assoc "address" b = None ->
  exists errs,
    Reservation.create e b coll = inl (ValidationError "Reservation" errs)
    /\ In ("address", "required") errs.
Proof.
  intros Hty Haddr. pose proof (address_required e b Hty Haddr) as Hin.
  unfold Reservation.create.
  set (errs := new_id_errors b ++ Reservation.cast_errors b
               ++ Reservation.validate (Reservation.construct e b)).
  assert (Herrs : In ("address", "required") errs)
    by (unfold errs; apply in_or_app; right; apply in_or_app; now right).
  exists errs. split; [|exact Herrs].
  rewrite insert_doc_invalid; [reflexivity|].
  intros Hnil. rewrite Hnil in Herrs. contradiction.
Qed.

Lemma run_checks b fields ms h e req st :
  Forall (is_check fields) ms -> checked b fields req ->
  exists req', checked b fields req' /\ run ms h e req st = h e req' st.
Proof.
  intros Hms. revert req. induction Hms as [|m ms (k & message & r & Hk & ->) _ IH];
    intros req Hc.
  - now exists req.
  - destruct (check_checked b fields k message r req st Hk Hc) as (req1 & Heq & Hc1).
    destruct (IH req1 Hc1) as (req' & Hc' & Hrun).
    exists req'. split; [exact Hc'|]. now rewrite (run_next _ _ _ _ _ _ _ Heq).
Qed.

Lemma reservations_post_checked b tok e st :
  exists req',
    checked b ["date"; "time"; "guests"; "name"; "email"; "phone"] req'
    /\ reservations_post e (incoming POST [] tok b) st =
         reservations_post_handler e req' st.
Proof.
  apply run_checks.
  - unfold reservations_post_stack.
    repeat (constructor; [do 3 eexists; split; [|reflexivity]; simpl; tauto|]).
    constructor.
  - split; [reflexivity|constructor].
Qed.

(** A delivery without an address that passes the six checks of the route
    is answered 500. *)
Lemma livraison_answered_500 e tok b st :
  assoc "type" b = Some (VStr "livraison") -> assoc "address" b = None ->
  passes NotEmpty (assoc "date" b) = true ->
  passes NotEmpty (assoc "time" b) = true ->
  passes (IsInt 1 10) (assoc "guests" b) = true ->
  passes NotEmpty (assoc "name" b) = true ->
  passes IsEmail (assoc "email" b) = true ->
  passes NotEmpty (assoc "phone" b) = true ->
  reservations_post e (incoming POST [] tok b) st = (json 500 (Text "Erreur serveur"), st).
Proof.
  intros Hty Haddr Hdate Htime Hguests Hname Hemail Hphone.
  unfold reservations_post, reservations_post_stack.
  rewrite run_check; cbn [body incoming]; rewrite Hdate.
  rewrite run_check; cbn [body incoming]; rewrite Htime.
  rewrite run_check; cbn [body incoming]; rewrite Hguests.
  rewrite run_check; cbn [body incoming]; rewrite Hname.
  rewrite run_check; cbn [body incoming]; rewrite Hemail.
  rewrite run_check; cbn [body incoming]; rewrite Hphone.
  unfold run, reservations_post_handler. cbn [no_errors verrors incoming negb body].
  destruct (create_without_address e b (reservations st) Hty Haddr) as (errs & -> & _).
  reflexivity.
Qed.

(** C3. On POST /api/reservations a payload with [type = livraison] and no
    [address] is never answered with a validation error that names
    [address]: the route's checks know six other fields, and the schema's
    refusal of the document is answered 500.  No reservation is stored.
    The sibling route POST /api/reservations/new answers the same payload
    400 with the schema's error, which names [address]. *)
Theorem livraison_without_address
    (e : env) (tok : option string) (b : list (string * value)) (st : store) :
  assoc "type" b = Some (VStr "livraison") ->
  assoc "address" b = None ->
  (reservations_post e (incoming POST [] tok b) st).2 = st
  /\ ((reservations_post e (incoming POST [] tok b) st).1 = json 500 (Text "Erreur serveur")
      \/ exists errs,
           (reservations_post e (incoming POST [] tok b) st).1 = json 400 (Errors errs)
           /\ errs <> [] /\ Forall (fun x => param x <> "address") errs)
  /\ (passes NotEmpty (assoc "date" b) = true ->
      passes NotEmpty (assoc "time" b) = true ->
      passes (IsInt 1 10) (assoc "guests" b) = true ->
      passes NotEmpty (assoc "name" b) = true ->
      passes IsEmail (assoc "email" b) = true ->
      passes NotEmpty (assoc "phone" b) = true ->
      reservations_post e (incoming POST [] tok b) st
        = (json 500 (Text "Erreur serveur"), st))
  /\ exists errs,
       reservations_new e (incoming POST ["new"] tok b) st =
         (json 400 (ErrorMessage (ValidationError "Reservation" errs)), st)
       /\ In ("address", "required") errs.
Proof.
  intros Hty Haddr.
  pose proof (livraison_answered_500 e tok b st Hty Haddr) as H500.
  destruct (reservations_post_checked b tok e st) as (req' & [Hb Hv] & Hrun).
  rewrite Hrun in *.
  unfold reservations_post_handler in *. rewrite Hb in *.
  destruct (create_without_address e b (reservations st) Hty Haddr) as (errs & Hc & Hin).
  rewrite Hc in *. split; [|split; [|split]].
  - now destruct (no_errors req').
  - unfold no_errors. destruct (verrors req') as [|x l] eqn:Hl; simpl.
    + now left.
    + right. exists (x :: l). repeat split; [discriminate|].
      eapply Forall_impl; [exact Hv|]. simpl. intros y Hy Heq. rewrite Heq in Hy.
      revert Hy. not_among.
  - exact H500.
  - exists errs. split; [|exact Hin].
    unfold reservations_new, reservations_new_handler. simpl. now rewrite Hc.
Qed.

(** ** The menu *)

Lemma In_insert_by {A : Type} (le : A -> A -> bool) (x y : A) l :
  In y (insert_by le x l) <-> y = x \/ In y l.
Proof.
  induction l as [|z l IH]; simpl.
  - intuition.
  - destruct (le x z); simpl; rewrite ?IH; intuition.
Qed.

Lemma In_sort_by {A : Type} (le : A -> A -> bool) (y : A) l :
  In y (sort_by le l) <-> In y l.
Proof.
  induction l as [|z l IH]; simpl; [reflexivity|].
  rewrite In_insert_by, IH. intuition.
Qed.

Lemma In_map_to_list {D : Type} (coll : gmap string D) k d :
  In (k, d) (map_to_list coll) <-> coll !! k = Some d.
Proof. rewrite <- list_elem_of_In. apply elem_of_map_to_list. Qed.

Lemma findById_found {D : Type} (coll : gmap string D) i k d :
  castObjectId i = Some k -> coll !! k = Some d ->
  findById i coll = inr (Some (k, d)).
Proof. intros Hi Hk. unfold findById. now rewrite Hi, Hk. Qed.

(** DELETE /api/menu/:id keeps the document and clears its flag. *)
Lemma menu_delete_soft e req st k m :
  castObjectId (id_param req) = Some k -> menuItems st !! k = Some m ->
  menu_delete_handler e req st =
    (json 200 (Msg "Élément supprimé du menu"),
     with_menuItems (<[k := MenuItem.set_available false m]> (menuItems st)) st)
  /\ MenuItem.available (MenuItem.set_available false m) = Val false.
Proof.
  intros Hi Hk. unfold menu_delete_handler.
  now rewrite (findById_found _ _ _ _ Hi Hk).
Qed.

Lemma menu_apply_nothing m : MenuItem.apply_set [] m = m.
Proof. now destruct m. Qed.

(** C5. A menu item whose [available] flag is false is in no answer of
    GET /api/menu, and a lookup by its id still finds it: [findById]
    returns the document; PUT /api/menu/:id answers 200 with the document
    (here on a payload that changes nothing); and DELETE /api/menu/:id,
    which starts with that lookup, answers 200 instead of 404 and leaves
    the document stored. *)
Theorem soft_deleted_hidden_but_resolvable
    (e : env) (req : request) (st : store) (k : string) (m : MenuItem.t) :
  menuItems st !! k = Some m ->
  MenuItem.available m = Val false ->
  (exists l, menu_get e req st = (json 200 (MenuItems l), st)
             /\ forall m', ~ In (k, m') l)
  /\ (forall i, castObjectId i = Some k ->
        findById i (menuItems st) = inr (Some (k, m)))
  /\ (forall e' req', castObjectId (id_param req') = Some k ->
        status (menu_delete_handler e' req' st).1 = 200
        /\ menuItems (menu_delete_handler e' req' st).2 !! k
             = Some (MenuItem.set_available false m))
  /\ (forall e' req', castObjectId (id_param req') = Some k -> body req' = [] ->
        (menu_put_handler e' req' st).1 = json 200 (MenuItemDoc (k, m))
        /\ menuItems (menu_put_handler e' req' st).2 !! k = Some m).
Proof.
  intros Hk Hav. split; [|split; [|split]].
  - eexists. split; [reflexivity|].
    intros m' Hin. apply In_sort_by, filter_In in Hin. destruct Hin as [Hin Hflag].
    apply In_map_to_list in Hin. rewrite Hk in Hin. injection Hin as <-.
    unfold is_available in Hflag. simpl in Hflag. rewrite Hav in Hflag. discriminate.
  - intros i Hi. now apply findById_found.
  - intros e' req' Hi.
    destruct (menu_delete_soft e' req' st k m Hi Hk) as [-> _].
    split; [reflexivity|]. simpl. apply lookup_insert_eq.
  - intros e' req' Hi Hb. unfold menu_put_handler, MenuItem.findByIdAndUpdate, update_by_id.
    rewrite Hi, Hb, Hk. cbn [cast_update assoc]. rewrite menu_apply_nothing.
    split; [reflexivity|]. cbn [snd menuItems with_menuItems]. apply lookup_insert_eq.
Qed.

(** ** Statistics *)

Lemma window_total_number total : is_nan (window_total total) = false.
Proof.
  unfold window_total. destruct total as [t|]; [|reflexivity].
  destruct (PrimFloat.eqb t 0); simpl; [reflexivity|].
  destruct (is_nan t) eqn:Hn; [reflexivity|exact Hn].
Qed.

Lemma calculateChange_nan current previous :
  is_nan previous = true -> calculateChange current previous = 0%float.
Proof.
  intros Hn. unfold calculateChange. rewrite Hn.
  now destruct (PrimFloat.eqb previous 0).
Qed.

(** C8. On window totals (numbers: the totals the statistics route passes
    are never NaN), [calculateChange] returns 0 when the previous total is
    0, and ((current - previous) / previous) * 100 otherwise.  It is a total
    function: no input raises. *)
Theorem calculateChange_spec (current previous : float) :
  is_nan previous = false ->
  (PrimFloat.eqb previous 0 = true -> calculateChange current previous = 0%float)
  /\ (PrimFloat.eqb previous 0 = false ->
        calculateChange current previous
          = (((current - previous) / previous) * 100)%float)
  /\ calculateChange 5 0 = 0%float.
Proof.
  intros Hn. unfold calculateChange. rewrite Hn. repeat split.
  - now intros ->.
  - now intros ->.
Qed.

(** ** Routes that mount the gate without [auth] *)

Lemma auth_cases req st :
  (exists u, authenticated req u /\ auth req st = Next (set_user u req))
  \/ (exists message, auth req st = Respond (json 401 (Msg message))
                      /\ (x_auth_token req = None ->
                            message = "Pas de token, autorisation refusée")).
Proof.
  unfold auth. destruct (x_auth_token req) as [token|] eqn:Htok.
  - destruct (String.eqb_spec token "") as [->|Hne].
    { right. eexists. split; [reflexivity|discriminate]. }
    destruct (jwt_verify token) as [decoded|] eqn:Hver.
    + destruct (prop (Some decoded) "user") as [x|u] eqn:Hu.
      * right. eexists. split; [reflexivity|discriminate].
      * left. exists u. split; [|reflexivity]. now exists token, decoded.
    + right. eexists. split; [reflexivity|discriminate].
  - right. eexists. split; [reflexivity|reflexivity].
Qed.

Lemma staff_only_get_all e tok b st :
  let req := set_param "all" (incoming GET ["all"] tok b) in
  (run staff_only reservations_get_handler e req st).2 = st
  /\ In (status (run staff_only reservations_get_handler e req st).1)
        [401; 403; 404; 500]
  /\ (tok = None ->
        run staff_only reservations_get_handler e req st =
          (json 401 (Msg "Pas de token, autorisation refusée"), st)).
Proof.
  intros req. unfold staff_only.
  destruct (auth_cases req st) as [(u & Hauth & Ha)|(message & Ha & Hm)].
  - rewrite (run_next _ _ _ _ _ _ _ Ha).
    destruct Hauth as (token & _ & Htok & _).
    assert (Hsome : tok <> None) by (simpl in Htok; congruence).
    unfold run, checkRole.
    destruct (prop (user (set_user u req)) "role") as [x|role].
    { simpl. intuition. }
    destruct (includes ["staff"; "admin"] role); simpl; intuition.
  - rewrite (run_respond _ _ _ _ _ _ _ Ha). simpl. split; [reflexivity|].
    split; [now left|]. intros ->. now rewrite (Hm eq_refl).
Qed.

(** C9. The role gate reads [req.user.role] without looking at [req.user]:
    on a request no [auth] has populated it throws.  PATCH
    /api/reservations/:id/status and the route declared for GET
    /api/reservations/all mount the gate alone: each request that reaches
    one of them, with or without a token, ends in the error middleware with
    500.  Every PATCH request reaches its route.  A GET request for [/all]
    does not: GET /api/reservations/:id is declared first and matches the
    path, so the request is answered by that route, behind [auth] and the
    gate, with 401, 403, 404 or 500 (401 when it carries no token) and never
    with the list of reservations. *)
Theorem unguarded_gate_routes
    (e : env) (tok : option string) (b : list (string * value)) (st : store) :
  (forall roles req, user req = None -> checkRole roles req st = Throw TypeError)
  /\ (forall i, reservations_api e (incoming PATCH [i; "status"] tok b) st
               = (json 500 (WentWrong (if development e then Some TypeError else None)), st))
  /\ (forall m p, reservations_all e (incoming m p tok b) st
                 = (json 500 (WentWrong (if development e then Some TypeError else None)), st))
  /\ reservations_api e (incoming GET ["all"] tok b) st
      = run staff_only reservations_get_handler e
          (set_param "all" (incoming GET ["all"] tok b)) st
  /\ In (status (reservations_api e (incoming GET ["all"] tok b) st).1)
        [401; 403; 404; 500]
  /\ (tok = None ->
        reservations_api e (incoming GET ["all"] tok b) st
          = (json 401 (Msg "Pas de token, autorisation refusée"), st)).
Proof.
  assert (Hall : reservations_api e (incoming GET ["all"] tok b) st
      = run staff_only reservations_get_handler e
          (set_param "all" (incoming GET ["all"] tok b)) st) by reflexivity.
  split; [intros roles req; apply checkRole_no_user|].
  split; [intros i; reflexivity|].
  split; [intros m p; reflexivity|].
  split; [exact Hall|]. rewrite Hall.
  destruct (staff_only_get_all e tok b st) as (_ & Hs & Ht). now split.
Qed.

(** ** Orders *)

(** C6 (as the code has it). DELETE /api/orders/:id by a client on an
    order that exists: an order of someone else is refused with 403 and
    nothing changes; an order of their own is cancelled whatever its
    current status: the answer is 200, the stored order keeps its owner,
    items, amount and date and gets the status [cancelled], and every other
    order is untouched. *)
Theorem client_cancels_own_order
    (e : env) (req : request) (st : store) (u i : option value)
    (k owner : string) (o : Order.t) :
  authenticated req u ->
  prop u "role" = inr (Some (VStr "client")) ->
  prop u "id" = inr i ->
  castObjectId (id_param req) = Some k ->
  orders st !! k = Some o ->
  Order.user o = Val owner ->
  (is_string owner i = false ->
     orders_delete e req st = (json 403 (Msg "Non autorisé"), st))
  /\ (is_string owner i = true ->
        orders_delete e req st =
          (json 200 (Msg "Commande annulée"),
           with_orders (<[k := Order.set_status "cancelled" o]> (orders st)) st)
        /\ orders (orders_delete e req st).2 !! k
             = Some {| Order.user := Order.user o; Order.items := Order.items o;
                       Order.totalAmount := Order.totalAmount o;
                       Order.status := Val "cancelled";
                       Order.createdAt := Order.createdAt o |}
        /\ forall k', k' <> k ->
             orders (orders_delete e req st).2 !! k' = orders st !! k').
Proof.
  intros Hauth Hrole Hid Hk Ho Howner.
  unfold orders_delete. rewrite (run_next _ _ _ _ _ _ _ (auth_next req u st Hauth)).
  unfold run, orders_delete_handler.
  assert (Hreq : id_param (set_user u req) = id_param req) by reflexivity.
  rewrite Hreq, (findById_found _ _ _ _ Hk Ho).
  assert (Hu : user (set_user u req) = u) by reflexivity.
  assert (Hv : Order.validate_status (Order.set_status "cancelled" o) = [])
    by reflexivity.
  assert (Hc : is_string "client" (Some (VStr "client")) = true) by reflexivity.
  rewrite Hu, Hrole, Hid, Hv, Hc, Howner.
  split.
  - now intros ->.
  - intros ->. cbn [negb snd orders with_orders]. split; [reflexivity|]. split.
    + rewrite lookup_insert_eq. unfold Order.set_status. now rewrite ?Howner.
    + intros k' Hne. now apply lookup_insert_ne.
Qed.

(** ** The status of a reservation *)

Lemma existsb_eqb_In s l : existsb (String.eqb s) l = true <-> In s l.
Proof.
  rewrite existsb_exists. split.
  - intros (x & Hin & Heq). apply String.eqb_eq in Heq. now subst.
  - intros Hin. exists s. split; [exact Hin|apply String.eqb_refl].
Qed.

Lemma fails_nil ok p kind : fails ok p kind = [] -> ok = true.
Proof. destruct ok; [reflexivity|discriminate]. Qed.

(** Every reservation that [save()] stores has a status of the schema. *)
Lemma created_status e b coll k r coll' :
  Reservation.create e b coll = inr (k, r, coll') ->
  coll' = <[k := r]> coll
  /\ exists s, Reservation.status r = Val s /\ In s Reservation.status_enum.
Proof.
  unfold Reservation.create.
  destruct (insert_doc _ _ _ _ _) as [x|[k0 c0]] eqn:Hins; [discriminate|].
  intros [= <- <- <-].
  apply insert_doc_inserted in Hins as (Herrs & _ & _ & Hcoll).
  split; [exact Hcoll|].
  apply app_eq_nil in Herrs as [_ Herrs]. apply app_eq_nil in Herrs as [_ Hval].
  unfold Reservation.validate in Hval.
  repeat (apply app_eq_nil in Hval as [_ Hval]).
  apply fails_nil in Hval.
  destruct (Reservation.status (Reservation.construct e b)) as [| |s] eqn:Hs;
    simpl in Hval; try discriminate.
  - simpl in Hs. unfold or_default in Hs.
    destruct (cast_path castString "status" b); discriminate.
  - exists s. split; [reflexivity|]. now apply existsb_eqb_In.
Qed.

(** POST /api/reservations and POST /api/reservations/new keep the status
    of every stored reservation among those of the schema. *)
Lemma post_keeps_status e tok b st k r :
  (reservations (reservations_post e (incoming POST [] tok b) st).2 !! k = Some r
   \/ reservations (reservations_new e (incoming POST ["new"] tok b) st).2 !! k = Some r) ->
  reservations st !! k = Some r
  \/ exists s, Reservation.status r = Val s /\ In s Reservation.status_enum.
Proof.
  destruct (reservations_post_checked b tok e st) as (req' & [Hb _] & ->).
  unfold reservations_new, run, reservations_post_handler, reservations_new_handler.
  rewrite Hb. cbn [body incoming].
  destruct (Reservation.create e b (reservations st)) as [x|[[k0 r0] coll]] eqn:Hc.
  { destruct (no_errors req'); intros [Hl|Hl]; now left. }
  apply created_status in Hc as (-> & Hs).
  assert (Hnew : <[k0 := r0]> (reservations st) !! k = Some r ->
            reservations st !! k = Some r
            \/ exists s, Reservation.status r = Val s /\ In s Reservation.status_enum).
  { intros Hl. destruct (decide (k = k0)) as [->|Hne].
    - rewrite lookup_insert_eq in Hl. injection Hl as <-. now right.
    - rewrite lookup_insert_ne in Hl by congruence. now left. }
  destruct (no_errors req'); intros [Hl|Hl]; auto.
Qed.

(** PATCH /api/reservations/:id/status never reaches its update. *)
Lemma patch_never_updates e tok b st i :
  (reservations_api e (incoming PATCH [i; "status"] tok b) st).2 = st.
Proof. reflexivity. Qed.

(** The status a payload may carry through the check of PUT
    /api/reservations/:id, as the schema casts it. *)
Lemma status_check_cast allowed v f :
  passes (IsIn allowed) (Some v) = true ->
  ~ In "" allowed -> ~ In "[object Object]" allowed ->
  castString (Some v) = Some f ->
  exists s, f = Val s /\ In s allowed.
Proof.
  unfold passes. intros Hp Hne Hobj Hc. apply existsb_eqb_In in Hp.
  destruct v as [|bo|n|s|l|o]; simpl in Hc, Hp.
  - contradiction.
  - injection Hc as <-. eexists. split; [reflexivity|]. now destruct bo.
  - injection Hc as <-. eexists. split; [reflexivity|].
    destruct (is_nan n); [contradiction|exact Hp].
  - injection Hc as <-. eexists. split; [reflexivity|exact Hp].
  - discriminate.
  - contradiction.
Qed.

Lemma cast_update_assoc failure u k v :
  cast_update failure u = None -> assoc k u = Some v -> failure k v = None.
Proof.
  induction u as [|[k0 v0] u IH]; simpl; [discriminate|].
  destruct (failure k0 v0) eqn:Hf; [discriminate|].
  intros Hu. destruct (String.eqb_spec k k0) as [->|_].
  - now intros [= <-].
  - now apply IH.
Qed.

Lemma cast_failure_status v :
  Reservation.cast_failure "status" v =
    if is_some (castString (Some v)) then None else Some "string".
Proof. reflexivity. Qed.

Lemma no_errors_snoc req x : no_errors (add_verror x req) = false.
Proof. unfold no_errors. simpl. now destruct (verrors req). Qed.

(** What PUT /api/reservations/:id can do to the status of a stored
    reservation: leave it, or set it to one of the three strings its check
    accepts. *)
Lemma put_status_bound e req st k' r' :
  reservations (reservations_put e req st).2 !! k' = Some r' ->
  (exists r0, reservations st !! k' = Some r0
              /\ Reservation.status r0 = Reservation.status r')
  \/ exists s, Reservation.status r' = Val s
               /\ In s ["pending"; "confirmed"; "cancelled"].
Proof.
  assert (Hsame : reservations st !! k' = Some r' ->
            exists r0, reservations st !! k' = Some r0
                       /\ Reservation.status r0 = Reservation.status r')
    by (intros Hl; now exists r').
  unfold reservations_put, reservations_put_stack.
  destruct (auth_cases req st) as [(u & _ & Ha)|(message & Ha & _)];
    [|rewrite (run_respond _ _ _ _ _ _ _ Ha); left; auto].
  rewrite (run_next _ _ _ _ _ _ _ Ha).
  destruct (checkRole ["staff"; "admin"] (set_user u req) st) as [req1|resp|x] eqn:Hg;
    [|rewrite (run_respond _ _ _ _ _ _ _ Hg); left; auto
     |rewrite (run_throw _ _ _ _ _ _ _ Hg); left; auto].
  rewrite (run_next _ _ _ _ _ _ _ Hg), run_check. unfold run.
  destruct (passes _ (assoc "status" (body req1))) eqn:Hp.
  2:{ unfold reservations_put_handler. rewrite no_errors_snoc. left; auto. }
  unfold reservations_put_handler.
  destruct (no_errors req1); simpl negb; cbn iota; [|left; auto].
  unfold Reservation.findByIdAndUpdate, update_by_id.
  destruct (castObjectId (id_param req1)) as [k|]; [|left; auto].
  destruct (cast_update Reservation.cast_failure (body req1)) eqn:Hcu.
  { destruct (kind_ObjectId e0); left; auto. }
  destruct (reservations st !! k) as [r|] eqn:Hk; [|left; auto].
  destruct (match assoc "_id" (body req1) with
            | Some v => bool_decide (castObjectIdValue (Some v) = Some k)
            | None => true
            end); [|left; auto].
  cbn [snd reservations with_reservations]. intros Hl.
  destruct (decide (k' = k)) as [->|Hne].
  2:{ rewrite lookup_insert_ne in Hl by congruence. left; auto. }
  rewrite lookup_insert_eq in Hl. injection Hl as <-.
  cbn [Reservation.status Reservation.apply_set]. unfold set_path.
  destruct (assoc "status" (body req1)) as [v|] eqn:Hv.
  2:{ left. now exists r. }
  pose proof (cast_update_assoc _ _ _ _ Hcu Hv) as Hcf.
  rewrite cast_failure_status in Hcf.
  destruct (castString (Some v)) as [f|] eqn:Hc; [|discriminate].
  right. simpl default.
  apply (status_check_cast _ v f Hp); [not_among|not_among|exact Hc].
Qed.

(** C7 (where the code departs from it). PUT /api/reservations/:id by staff
    or admin with the payload [{ status: "cancelled" }] on a stored
    reservation passes the route's check and is written without the
    schema's validators: the stored status becomes [cancelled], which is
    not one of the five statuses of the schema. *)
Theorem put_stores_cancelled
    (e : env) (req : request) (st : store) (u role : option value)
    (k : string) (r : Reservation.t) :
  authenticated req u ->
  prop u "role" = inr role ->
  includes ["staff"; "admin"] role = true ->
  verrors req = [] ->
  body req = [("status", VStr "cancelled")] ->
  castObjectId (id_param req) = Some k ->
  reservations st !! k = Some r ->
  exists r',
    reservations_put e req st =
      (json 200 (ReservationDoc (k, r')), with_reservations (<[k := r']> (reservations st)) st)
    /\ reservations (reservations_put e req st).2 !! k = Some r'
    /\ Reservation.status r' = Val "cancelled"
    /\ ~ In "cancelled" Reservation.status_enum.
Proof.
  intros Hauth Hrole Hin Hv Hb Hk Hr.
  exists (Reservation.apply_set (body req) r).
  assert (Hrun : reservations_put e req st =
    (json 200 (ReservationDoc (k, Reservation.apply_set (body req) r)),
     with_reservations (<[k := Reservation.apply_set (body req) r]> (reservations st)) st)).
  { unfold reservations_put, reservations_put_stack.
    rewrite (run_next _ _ _ _ _ _ _ (auth_next req u st Hauth)).
    rewrite (run_next _ _ _ _ _ _ _
               (checkRole_allowed _ (set_user u req) role st Hrole Hin)).
    rewrite run_check. unfold run.
    assert (Hbody : body (set_user u req) = body req) by reflexivity.
    rewrite Hbody, Hb.
    assert (Hp : passes (IsIn ["pending"; "confirmed"; "cancelled"])
                   (assoc "status" [("status", VStr "cancelled")]) = true) by reflexivity.
    rewrite Hp. unfold reservations_put_handler, no_errors.
    assert (Hve : verrors (set_user u req) = verrors req) by reflexivity.
    rewrite Hve, Hv. cbn [negb].
    unfold Reservation.findByIdAndUpdate, update_by_id.
    assert (Hid : id_param (set_user u req) = id_param req) by reflexivity.
    rewrite Hid, Hk, Hbody, Hb, Hr. reflexivity. }
  rewrite Hrun. split; [reflexivity|]. split; [apply lookup_insert_eq|].
  rewrite Hb. split; [reflexivity|].
  unfold Reservation.status_enum. not_among.
Qed.

(** ** The administration of roles *)

(** C10. PUT /api/admin/users/:userId/role by an admin.  A requested role
    that is not one of client, staff and admin is answered 400 whatever the
    user id is (the user is not looked up).  When the target is the admin
    who asks and the requested role is not admin, the answer is 400 and the
    database, hence the admin's role, is unchanged. *)
Theorem own_role_change_refused
    (e : env) (req : request) (st : store) (u i : option value) :
  authenticated req u ->
  isAdmin (set_user u req) st = Next (set_user u req) ->
  prop u "id" = inr i ->
  (includes ["client"; "staff"; "admin"] (assoc "role" (body req)) = false ->
     role_put e req st = (json 400 (Message "Rôle invalide"), st))
  /\ (forall k target,
        castObjectId (id_param req) = Some k ->
        users st !! k = Some target ->
        is_string k i = true ->
        is_string "admin" (assoc "role" (body req)) = false ->
        status (role_put e req st).1 = 400
        /\ (role_put e req st).2 = st
        /\ users (role_put e req st).2 !! k = Some target).
Proof.
  intros Hauth Hadmin Hid.
  assert (Hrun : role_put e req st = role_put_handler e (set_user u req) st).
  { unfold role_put. rewrite (run_next _ _ _ _ _ _ _ (auth_next req u st Hauth)).
    now rewrite (run_next _ _ _ _ _ _ _ Hadmin). }
  rewrite Hrun. unfold role_put_handler.
  assert (Hb : body (set_user u req) = body req) by reflexivity.
  assert (Hi : id_param (set_user u req) = id_param req) by reflexivity.
  assert (Hu : user (set_user u req) = u) by reflexivity.
  rewrite Hb, Hi, Hu. split.
  - now intros ->.
  - intros k target Hk Ht Hself Hrole.
    destruct (includes _ (assoc "role" (body req))); cbn [negb].
    + rewrite (findById_found _ _ _ _ Hk Ht), Hid, Hself, Hrole. now cbn.
    + now cbn.
Qed.

(** ** Registration *)

Lemma register_object x1 x2 x3 role :
  let obj := entry "name" x1 ++ entry "email" x2 ++ entry "password" x3
             ++ [("role", role)] in
  assoc "role" obj = Some role /\ assoc "salary" obj = None.
Proof. destruct x1, x2, x3; now split. Qed.

Lemma cast_error_nil {A : Type} (cast : option value -> option A) k b :
  cast_error cast k b = [] -> exists a, cast (assoc k b) = Some a.
Proof. unfold cast_error. destruct (cast (assoc k b)) as [a|]; [eauto|discriminate]. Qed.

Lemma castString_set v : castString (Some v) <> Some Undefined.
Proof.
  destruct v as [| | | | |o]; simpl; try discriminate.
  destruct (assoc "_id" o) as [[| | |s| |]|]; try discriminate.
  destruct (String.eqb s ""); discriminate.
Qed.

(** A user that [register] stores was given no salary: the schema accepts
    it with the role [client] alone. *)
Lemma created_user_role e x1 x2 x3 role coll k u coll' :
  User.create e (entry "name" x1 ++ entry "email" x2 ++ entry "password" x3
                 ++ [("role", role)]) coll = inr (k, u, coll') ->
  castString (Some role) = Some (User.role u)
  /\ User.role u = Val "client"
  /\ coll !! k = None /\ coll' = <[k := u]> coll.
Proof.
  destruct (register_object x1 x2 x3 role) as [Hrole Hsalary].
  set (obj := entry "name" x1 ++ entry "email" x2 ++ entry "password" x3
              ++ [("role", role)]) in *.
  unfold User.create.
  destruct (insert_doc _ _ _ _ _) as [x|[k0 c0]] eqn:Hins; [discriminate|].
  intros [= <- <- <-].
  apply insert_doc_inserted in Hins as (Herrs & _ & Hfresh & Hcoll).
  apply app_eq_nil in Herrs as [_ Herrs]. apply app_eq_nil in Herrs as [Hcast Hval].
  unfold User.cast_errors in Hcast.
  do 3 apply app_eq_nil in Hcast as [_ Hcast]. apply app_eq_nil in Hcast as [Hcast _].
  apply cast_error_nil in Hcast as [f Hf]. rewrite Hrole in Hf.
  assert (Hr : User.role (User.hash_password (User.construct e obj)) = f).
  { simpl. unfold cast_path. now rewrite Hrole, Hf. }
  assert (Hs : User.salary (User.construct e obj) = Undefined).
  { simpl. unfold cast_path. now rewrite Hsalary. }
  assert (Hr0 : User.role (User.construct e obj) = f) by exact Hr.
  unfold User.validate in Hval. apply app_eq_nil in Hval as [Henum Hsal].
  apply fails_nil in Henum. rewrite Hr0 in Henum.
  unfold User.salaried in Hsal. rewrite Hr0, Hs in Hsal.
  rewrite Hr. repeat split; [now rewrite Hf| |exact Hfresh|exact Hcoll].
  destruct f as [| |s]; cbn [enum_ok] in Henum; try discriminate.
  { now apply castString_set in Hf. }
  apply existsb_eqb_In in Henum. simpl in Henum, Hsal.
  destruct Henum as [<-|[<-|[<-|[]]]]; [reflexivity|discriminate|discriminate].
Qed.

Lemma register_checked b tok e st :
  exists req',
    checked b ["name"; "email"; "password"] req'
    /\ register e (incoming POST ["register"] tok b) st = register_handler e req' st.
Proof.
  apply run_checks.
  - unfold register_stack.
    repeat (constructor; [do 3 eexists; split; [|reflexivity]; simpl; tauto|]).
    constructor.
  - split; [reflexivity|constructor].
Qed.

(** C4 (as the code has it). POST /api/auth/register hands the role of the
    payload, or [client] when the payload has none, to the User model
    without any check of its own; it never supplies a salary.  With the
    schema of the spec, which requires a salary of staff and admin, the
    only role a stored user gets is [client]: a payload that claims
    [staff] or [admin] stores nothing and is answered 400 or 500. *)
Theorem register_role
    (e : env) (tok : option string) (b : list (string * value)) (st : store) :
  (forall token k u,
     (register e (incoming POST ["register"] tok b) st).1
       = json 200 (Session token (k, u)) ->
     castString (Some (default (VStr "client") (assoc "role" b))) = Some (User.role u)
     /\ User.role u = Val "client"
     /\ users st !! k = None
     /\ (register e (incoming POST ["register"] tok b) st).2
          = with_users (<[k := u]> (users st)) st)
  /\ (forall r, In r ["staff"; "admin"] -> assoc "role" b = Some (VStr r) ->
        (register e (incoming POST ["register"] tok b) st).2 = st
        /\ In (status (register e (incoming POST ["register"] tok b) st).1) [400; 500]).
Proof.
  destruct (register_checked b tok e st) as (req' & [Hb _] & ->).
  unfold register_handler. rewrite Hb.
  destruct (no_errors req'); cbn [negb].
  2:{ split; [discriminate|]. intros; simpl; tauto. }
  destruct (User.findOne_email (assoc "email" b) (users st)) as [x|[d|]].
  1,2: split; [discriminate|]; intros; simpl; tauto.
  destruct (User.create e _ (users st)) as [x|[[k u] coll]] eqn:Hc.
  { split; [discriminate|]. intros; simpl; tauto. }
  apply created_user_role in Hc as (Hcast & Hclient & Hfresh & ->).
  split.
  - intros token k' u' [= _ <- <-]. now repeat split.
  - intros r Hr Hrole. exfalso. rewrite Hrole in Hcast. simpl in Hcast.
    rewrite Hclient in Hcast. injection Hcast as ->.
    revert Hr. not_among.
Qed.

End Properties.

(** * The program on the demonstration platform *)

Section Examples.
#[local] Existing Instance Demo.platform.

Lemma client_authenticated m p b :
  authenticated (incoming m p (Some "client-token") b)
    (Some (VObj [("id", VStr Demo.client_id); ("role", VStr "client")])).
Proof.
  exists "client-token", (Demo.claims Demo.client_id "client").
  repeat split. discriminate.
Qed.

Lemma staff_authenticated m p b :
  authenticated (incoming m p (Some "staff-token") b)
    (Some (VObj [("id", VStr Demo.staff_id); ("role", VStr "staff")])).
Proof.
  exists "staff-token", (Demo.claims Demo.staff_id "staff").
  repeat split. discriminate.
Qed.

Lemma admin_authenticated m p b :
  authenticated (incoming m p (Some "admin-token") b)
    (Some (VObj [("id", VStr Demo.admin_id); ("role", VStr "admin")])).
Proof.
  exists "admin-token", (Demo.claims Demo.admin_id "admin").
  repeat split. discriminate.
Qed.

(** A client who posts a menu item is refused, valid payload or not. *)
Lemma role_gate_witness :
  menu_post Demo.environment
    (incoming POST [] (Some "client-token")
       [("name", VStr "Flan"); ("description", VStr "Flan maison"); ("price", VNum 4);
        ("category", VStr "Desserts"); ("image", VStr "flan.png")])
    Demo.database
  = (json 403 (Msg "Accès refusé - Vous n'avez pas les permissions nécessaires"),
     Demo.database).
Proof.
  refine (proj2 (proj2 (role_gate_forbids_or_passes ["staff"; "admin"] []
            menu_post_handler _ _ _ _ (Some (VStr "client"))
            (client_authenticated _ _ _) _)) _); reflexivity.
Defined.

(** Without a token the list of reservations is refused with 401. *)
Lemma auth_rejects_witness :
  run (auth :: [checkRole ["staff"; "admin"]]) reservations_list_handler
    Demo.environment (incoming GET [] None []) Demo.database
  = (json 401 (Msg "Pas de token, autorisation refusée"), Demo.database).
Proof.
  apply (proj1 (auth_rejects_without_valid_token _ _ _ _ _)). left. reflexivity.
Defined.

(** The delivery payload passes the six checks of the route and is then
    answered 500. *)
Lemma livraison_witness :
  (reservations_post Demo.environment (incoming POST [] None Demo.delivery)
     Demo.database).2 = Demo.database
  /\ reservations_post Demo.environment (incoming POST [] None Demo.delivery)
       Demo.database = (json 500 (Text "Erreur serveur"), Demo.database).
Proof.
  destruct (livraison_without_address Demo.environment None Demo.delivery
              Demo.database eq_refl eq_refl) as (Hst & _ & H500 & _).
  split; [exact Hst|].
  exact (H500 eq_refl eq_refl eq_refl eq_refl eq_refl eq_refl).
Defined.

(** The withdrawn soup is not on the menu and is found by its id. *)
Lemma soft_deleted_witness :
  findById Demo.soup_id (menuItems Demo.database) = inr (Some (Demo.soup_id, Demo.soup)).
Proof.
  refine (proj1 (proj2 (soft_deleted_hidden_but_resolvable Demo.environment
            (incoming GET [] None []) Demo.database Demo.soup_id Demo.soup _ _))
            Demo.soup_id _); reflexivity.
Defined.

Lemma menu_hides_soup :
  (menu_get Demo.environment (incoming GET [] None []) Demo.database).1
  = json 200 (MenuItems [(Demo.tart_id, Demo.tart)]).
Proof. vm_compute. reflexivity. Qed.

(** C6, the claim as stated fails: the client cancels an order of their
    own that is [delivered], not [pending]. *)
Lemma client_cancels_delivered_order :
  orders Demo.database !! Demo.order_id = Some Demo.delivered_order
  /\ Order.status Demo.delivered_order = Val "delivered"
  /\ orders_delete Demo.environment
       (set_param Demo.order_id (incoming DELETE [Demo.order_id] (Some "client-token") []))
       Demo.database
     = (json 200 (Msg "Commande annulée"),
        with_orders {[ Demo.order_id := Order.set_status "cancelled" Demo.delivered_order ]}
          Demo.database).
Proof. vm_compute. repeat split. Qed.

Lemma client_cancels_witness :
  orders (orders_delete Demo.environment
            (set_param Demo.order_id
               (incoming DELETE [Demo.order_id] (Some "client-token") []))
            Demo.database).2 !! Demo.order_id
  = Some {| Order.user := Val Demo.client_id; Order.items := [(Demo.tart_id, 2%float)];
            Order.totalAmount := Val 10%float; Order.status := Val "cancelled";
            Order.createdAt := Val 1699000000000 |}.
Proof.
  refine (proj1 (proj2 (proj2 (client_cancels_own_order Demo.environment
            (set_param Demo.order_id
               (incoming DELETE [Demo.order_id] (Some "client-token") []))
            Demo.database _ (Some (VStr Demo.client_id)) Demo.order_id Demo.client_id
            Demo.delivered_order (client_authenticated _ _ _) _ _ _ _ _) _)));
    reflexivity.
Defined.

(** Staff set the status of the stored reservation to [cancelled]. *)
Lemma put_stores_cancelled_witness :
  exists r',
    reservations (reservations_put Demo.environment
                    (set_param Demo.booking_id
                       (incoming PUT [Demo.booking_id] (Some "staff-token")
                          [("status", VStr "cancelled")]))
                    Demo.database).2 !! Demo.booking_id = Some r'
    /\ Reservation.status r' = Val "cancelled"
    /\ ~ In "cancelled" Reservation.status_enum.
Proof.
  destruct (put_stores_cancelled Demo.environment
              (set_param Demo.booking_id
                 (incoming PUT [Demo.booking_id] (Some "staff-token")
                    [("status", VStr "cancelled")]))
              Demo.database _ (Some (VStr "staff")) Demo.booking_id Demo.booking
              (staff_authenticated _ _ _) eq_refl eq_refl eq_refl eq_refl eq_refl eq_refl)
    as (r' & _ & Hr).
  exists r'. exact Hr.
Defined.

(** From 10 to 15 is a change of 50 percent. *)
Lemma calculateChange_witness :
  calculateChange 15 10 = (((15 - 10) / 10) * 100)%float
  /\ calculateChange 15 10 = 50%float.
Proof.
  split; [|reflexivity].
  exact (proj1 (proj2 (calculateChange_spec 15 10 eq_refl)) eq_refl).
Defined.

(** C9, the claim as stated fails: GET /api/reservations/all without a
    token is answered 401. *)
Lemma all_without_token_is_401 :
  reservations_api Demo.environment (incoming GET ["all"] None []) Demo.database
  = (json 401 (Msg "Pas de token, autorisation refusée"), Demo.database).
Proof. vm_compute. reflexivity. Qed.

Lemma all_for_staff_is_404 :
  reservations_api Demo.environment (incoming GET ["all"] (Some "staff-token") [])
    Demo.database
  = (json 404 (Msg "Réservation non trouvée"), Demo.database).
Proof. vm_compute. reflexivity. Qed.

(** The admin cannot make themselves a client. *)
Lemma own_role_witness :
  status (role_put Demo.environment
            (set_param Demo.admin_id
               (incoming PUT ["users"; Demo.admin_id; "role"] (Some "admin-token")
                  [("role", VStr "client")]))
            Demo.database).1 = 400
  /\ users (role_put Demo.environment
              (set_param Demo.admin_id
                 (incoming PUT ["users"; Demo.admin_id; "role"] (Some "admin-token")
                    [("role", VStr "client")]))
              Demo.database).2 !! Demo.admin_id = Some Demo.admin_user.
Proof.
  destruct (proj2 (own_role_change_refused Demo.environment
              (set_param Demo.admin_id
                 (incoming PUT ["users"; Demo.admin_id; "role"] (Some "admin-token")
                    [("role", VStr "client")]))
              Demo.database _ (Some (VStr Demo.admin_id))
              (admin_authenticated _ _ _) eq_refl eq_refl)
            Demo.admin_id Demo.admin_user eq_refl eq_refl eq_refl eq_refl)
    as (Hs & _ & Hu).
  split; [exact Hs|exact Hu].
Defined.

(** C4, the claim as stated fails: a payload that claims [admin] creates
    no user. *)
Lemma register_admin_refused :
  assoc "role" (Demo.signup [("role", VStr "admin")]) = Some (VStr "admin")
  /\ register Demo.environment
       (incoming POST ["register"] None (Demo.signup [("role", VStr "admin")]))
       Demo.database
     = (json 500 (Text "Erreur serveur"), Demo.database).
Proof. vm_compute. split; reflexivity. Qed.

(** A payload without a role, and one that claims [client], create a
    client. *)
Lemma register_creates_client :
  (exists u,
     (register Demo.environment (incoming POST ["register"] None (Demo.signup []))
        Demo.database).1
     = json 200 (Session "issued-token" (fresh_oid Demo.environment, u))
     /\ User.role u = Val "client")
  /\ (exists u,
        (register Demo.environment
           (incoming POST ["register"] None (Demo.signup [("role", VStr "client")]))
           Demo.database).1
        = json 200 (Session "issued-token" (fresh_oid Demo.environment, u))
        /\ User.role u = Val "client").
Proof. split; eexists; vm_compute; split; reflexivity. Qed.

End Examples.

(** * The rest of the routers: properties *)

Section Coverage.
Context `{Platform}.

(** ** Checks *)

Lemma run_app ms1 ms2 h e req st :
  run (ms1 ++ ms2) h e req st = run ms1 (run ms2 h) e req st.
Proof.
  revert req. induction ms1 as [|m ms1 IH]; intros req; simpl; [reflexivity|].
  destruct (m req st); [apply IH|reflexivity|reflexivity].
Qed.

Lemma add_verrors_nil req : add_verrors [] req = req.
Proof. destruct req. unfold add_verrors. simpl. now rewrite app_nil_r. Qed.

Lemma add_verrors_app l1 l2 req :
  add_verrors l2 (add_verrors l1 req) = add_verrors (l1 ++ l2) req.
Proof. unfold add_verrors. simpl. now rewrite app_assoc. Qed.

Lemma run_checks_all cs h e req st :
  run (checks cs) h e req st = h e (add_verrors (failures cs (body req)) req) st.
Proof.
  revert req. induction cs as [|[[k message] r] cs IH]; intros req.
  - simpl. now rewrite add_verrors_nil.
  - cbn [checks List.map fst snd]. rewrite run_check.
    fold (checks cs). rewrite IH. unfold failures. cbn [List.map concat failure_of].
    destruct (passes r (assoc k (body req))).
    + reflexivity.
    + cbn [body add_verror]. f_equal.
      change (add_verror ?x req) with (add_verrors [x] req).
      apply add_verrors_app.
Qed.


(** ** Sorting *)

Lemma insert_by_in_order {A : Type} (le : A -> A -> bool) x l :
  (forall a b, le a b = true \/ le b a = true) ->
  in_order le l -> in_order le (insert_by le x l).
Proof.
  intros Htotal. unfold in_order. induction l as [|y l IH]; intros Hl; simpl.
  - repeat constructor.
  - destruct (le x y) eqn:Hxy.
    + constructor; [exact Hl|]. now constructor.
    + apply Sorted_inv in Hl as [Hl Hhd]. constructor; [now apply IH|].
      destruct l as [|z l]; simpl.
      * constructor. destruct (Htotal x y) as [Hc|Hc]; congruence.
      * destruct (le x z).
        -- constructor. destruct (Htotal x y) as [Hc|Hc]; congruence.
        -- constructor. now apply HdRel_inv in Hhd.
Qed.

Lemma sort_by_in_order {A : Type} (le : A -> A -> bool) l :
  (forall a b, le a b = true \/ le b a = true) -> in_order le (sort_by le l).
Proof.
  intros Htotal. induction l as [|x l IH]; simpl.
  - constructor.
  - now apply insert_by_in_order.
Qed.

Lemma field_compare_antisym a b :
  field_compare b a = CompOpp (field_compare a b).
Proof. destruct a, b; simpl; try reflexivity. apply String.compare_antisym. Qed.

Lemma lex_le_total c1 c2 d1 d2 :
  d1 = CompOpp c1 -> d2 = CompOpp c2 -> lex_le c1 c2 = true \/ lex_le d1 d2 = true.
Proof. intros -> ->. destruct c1, c2; simpl; auto. Qed.

Lemma menu_order_total a b : menu_order a b = true \/ menu_order b a = true.
Proof. apply lex_le_total; apply field_compare_antisym. Qed.

Lemma by_date_time_total a b : by_date_time a b = true \/ by_date_time b a = true.
Proof. apply lex_le_total; apply field_compare_antisym. Qed.

(** ** The menu *)

Lemma In_menu_listing st d :
  In d (sort_by menu_order (List.filter is_available (map_to_list (menuItems st))))
  <-> menuItems st !! d.1 = Some d.2 /\ MenuItem.available d.2 = Val true.
Proof.
  rewrite In_sort_by, filter_In. destruct d as [k m]. rewrite In_map_to_list.
  unfold is_available. simpl.
  destruct (MenuItem.available m) as [| |[]]; intuition congruence.
Qed.

(** X2. GET /api/menu answers 200 with exactly the stored items whose
    [available] flag is true, each under its id, ordered by category and
    then by name; it does not change the database. *)
Theorem menu_get_lists_available_in_order (e : env) (req : request) (st : store) :
  exists l,
    menu_get e req st = (json 200 (MenuItems l), st)
    /\ (forall k m, In (k, m) l <->
          menuItems st !! k = Some m /\ MenuItem.available m = Val true)
    /\ in_order menu_order l.
Proof.
  eexists. split; [reflexivity|]. split.
  - intros k m. apply (In_menu_listing st (k, m)).
  - apply sort_by_in_order, menu_order_total.
Qed.

Lemma menu_listing_after_delete st k m d :
  menuItems st !! k = Some m ->
  In d (sort_by menu_order (List.filter is_available
          (map_to_list (<[k := MenuItem.set_available false m]> (menuItems st)))))
  <-> In d (sort_by menu_order (List.filter is_available (map_to_list (menuItems st))))
      /\ d.1 <> k.
Proof.
  intros Hk.
  pose proof (In_menu_listing
    (with_menuItems (<[k := MenuItem.set_available false m]> (menuItems st)) st) d) as H1.
  cbn [menuItems with_menuItems] in H1. rewrite H1, In_menu_listing.
  destruct d as [k' m']. cbn [fst snd].
  destruct (decide (k' = k)) as [->|Hne].
  - rewrite lookup_insert_eq. split.
    + intros [[= <-] Hav]. discriminate.
    + intros [_ Hne]. congruence.
  - rewrite lookup_insert_ne by congruence. tauto.
Qed.

(** X3. DELETE /api/menu/:id on a stored item removes that item, and only
    that item, from the answers of GET /api/menu; no document leaves the
    collection, the other documents are untouched, and a second DELETE of
    the same id answers 200 again and changes nothing more. *)
Theorem menu_delete_then_list
    (e : env) (req : request) (st : store) (k : string) (m : MenuItem.t) :
  castObjectId (id_param req) = Some k ->
  menuItems st !! k = Some m ->
  (forall e' r' l l',
     menu_get e' r' st = (json 200 (MenuItems l), st) ->
     menu_get e' r' (menu_delete_handler e req st).2
       = (json 200 (MenuItems l'), (menu_delete_handler e req st).2) ->
     forall d, In d l' <-> In d l /\ d.1 <> k)
  /\ menuItems (menu_delete_handler e req st).2 !! k
     = Some (MenuItem.set_available false m)
  /\ (forall k', k' <> k ->
        menuItems (menu_delete_handler e req st).2 !! k' = menuItems st !! k')
  /\ menu_delete_handler e req (menu_delete_handler e req st).2
     = (json 200 (Msg "Élément supprimé du menu"), (menu_delete_handler e req st).2).
Proof.
  intros Hi Hk. destruct (menu_delete_soft e req st k m Hi Hk) as [Hd _].
  rewrite Hd. cbn [snd]. split; [|split; [|split]].
  - intros e' r' l l'. unfold menu_get. cbn [menuItems with_menuItems].
    intros [= <-] [= <-]. intros d. now apply menu_listing_after_delete.
  - cbn [menuItems with_menuItems]. apply lookup_insert_eq.
  - intros k' Hne. cbn [menuItems with_menuItems]. now apply lookup_insert_ne.
  - unfold menu_delete_handler. cbn [menuItems with_menuItems].
    unfold findById. rewrite Hi, lookup_insert_eq.
    unfold with_menuItems. cbn. now rewrite insert_insert_eq.
Qed.

Lemma menu_restore_item m :
  MenuItem.apply_set [("available", VBool true)] (MenuItem.set_available false m)
  = MenuItem.set_available true m.
Proof. now destruct m. Qed.

Lemma menu_set_available_same m :
  MenuItem.available m = Val true -> MenuItem.set_available true m = m.
Proof. destruct m. simpl. now intros ->. Qed.

(** X4. A withdrawn item is put back by PUT /api/menu/:id with the payload
    [{ available: true }]: after DELETE and then this PUT the document is
    stored with its other fields as before and is on the menu again; when
    it was available before the DELETE, it is the document it was. *)
Theorem menu_delete_then_restore
    (e e' : env) (req req' : request) (st : store) (k : string) (m : MenuItem.t) :
  castObjectId (id_param req) = Some k ->
  castObjectId (id_param req') = Some k ->
  body req' = [("available", VBool true)] ->
  menuItems st !! k = Some m ->
  (menu_put_handler e' req' (menu_delete_handler e req st).2).1
    = json 200 (MenuItemDoc (k, MenuItem.set_available true m))
  /\ menuItems (menu_put_handler e' req' (menu_delete_handler e req st).2).2 !! k
     = Some (MenuItem.set_available true m)
  /\ (exists l,
        menu_get e' req' (menu_put_handler e' req' (menu_delete_handler e req st).2).2
          = (json 200 (MenuItems l),
             (menu_put_handler e' req' (menu_delete_handler e req st).2).2)
        /\ In (k, MenuItem.set_available true m) l)
  /\ (MenuItem.available m = Val true -> MenuItem.set_available true m = m).
Proof.
  intros Hi Hi' Hb Hk. destruct (menu_delete_soft e req st k m Hi Hk) as [Hd _].
  rewrite Hd. cbn [snd].
  assert (Hput : menu_put_handler e' req'
            (with_menuItems (<[k := MenuItem.set_available false m]> (menuItems st)) st)
          = (json 200 (MenuItemDoc (k, MenuItem.set_available true m)),
             with_menuItems (<[k := MenuItem.set_available true m]>
                (<[k := MenuItem.set_available false m]> (menuItems st)))
               (with_menuItems (<[k := MenuItem.set_available false m]> (menuItems st)) st))).
  { unfold menu_put_handler, MenuItem.findByIdAndUpdate, update_by_id.
    rewrite Hi', Hb. cbn [menuItems with_menuItems]. rewrite lookup_insert_eq.
    assert (Hc : cast_update MenuItem.cast_failure [("available", VBool true)] = None)
      by reflexivity.
    rewrite Hc. cbn [assoc String.eqb]. now rewrite menu_restore_item. }
  rewrite Hput. cbn [fst snd]. split; [reflexivity|]. split; [|split].
  - cbn [menuItems with_menuItems]. apply lookup_insert_eq.
  - eexists. split; [reflexivity|]. apply In_menu_listing.
    cbn [fst snd menuItems with_menuItems]. split; [apply lookup_insert_eq|reflexivity].
  - apply menu_set_available_same.
Qed.

Lemma menu_object x1 x2 p x3 x4 a :
  let obj := entry "name" x1 ++ entry "description" x2 ++ [("price", VNum p)]
             ++ entry "category" x3 ++ entry "image" x4 ++ [("available", a)] in
  assoc "_id" obj = None /\ assoc "price" obj = Some (VNum p)
  /\ assoc "available" obj = Some a.
Proof. destruct x1, x2, x3, x4; now repeat split. Qed.

(** X5. POST /api/menu stores nothing but what it answers 200 for: the new
    item is stored under the fresh id, beside the items that were there;
    its price is the number [parseFloat] reads in the payload's price, and
    that number is neither NaN nor at most 0; an item whose payload says
    nothing of [available] is available. *)
Theorem menu_post_stores_priced_item (e : env) (req : request) (st : store) :
  (status (menu_post_handler e req st).1 <> 200 ->
     (menu_post_handler e req st).2 = st)
  /\ (status (menu_post_handler e req st).1 = 200 ->
        exists m p,
          menu_post_handler e req st
            = (json 200 (MenuItemDoc (fresh_oid e, m)),
               with_menuItems (<[fresh_oid e := m]> (menuItems st)) st)
          /\ menuItems st !! fresh_oid e = None
          /\ MenuItem.price m = Val p
          /\ (exists v, assoc "price" (body req) = Some v /\ p = parseFloat (js_String v))
          /\ is_nan p = false /\ PrimFloat.leb p 0 = false
          /\ (assoc "available" (body req) = None -> MenuItem.available m = Val true)).
Proof.
  unfold menu_post_handler.
  destruct (no_errors req); cbn [negb]; [|split; [reflexivity|discriminate]].
  destruct (negb (truthy (assoc "name" (body req))) || _ || _ || _ || _) eqn:Hall;
    [split; [reflexivity|discriminate]|].
  destruct (assoc "price" (body req)) as [v|] eqn:Hprice.
  2:{ exfalso. revert Hall. cbn [truthy negb]. rewrite !orb_true_r. discriminate. }
  cbn [from_option].
  set (p := parseFloat (js_String v)).
  destruct (is_nan p) eqn:Hnan; cbn [orb]; [split; [reflexivity|discriminate]|].
  destruct (PrimFloat.leb p 0) eqn:Hle; [split; [reflexivity|discriminate]|].
  destruct (menu_object (assoc "name" (body req)) (assoc "description" (body req)) p
              (assoc "category" (body req)) (assoc "image" (body req))
              (default (VBool true) (assoc "available" (body req))))
    as (Hid & Hp & Hav).
  set (obj := entry "name" (assoc "name" (body req)) ++ _) in *.
  unfold MenuItem.create.
  destruct (insert_doc "MenuItem" _ _ _ _) as [x|[k coll]] eqn:Hins;
    [split; [reflexivity|discriminate]|].
  apply insert_doc_inserted in Hins as (_ & Hnew & Hfresh & ->).
  unfold new_id in Hnew. rewrite Hid in Hnew. injection Hnew as <-.
  split; [intros Hs; now contradiction Hs|]. intros _.
  exists (MenuItem.construct obj), p. split; [reflexivity|]. split; [exact Hfresh|].
  split.
  { cbn [MenuItem.price MenuItem.construct]. unfold cast_path. rewrite Hp.
    cbn [castNumber]. now rewrite Hnan. }
  split; [now exists v|]. split; [exact Hnan|]. split; [exact Hle|].
  intros Hnone. cbn [MenuItem.available MenuItem.construct]. unfold cast_path.
  now rewrite Hav, Hnone.
Qed.

(** ** ObjectIds *)

Lemma lower_hex c : is_hex c = true -> is_hex (lower c) = true /\ lower (lower c) = lower c.
Proof. destruct c as [[] [] [] [] [] [] [] []]; (discriminate || now split). Qed.

Lemma hex_digits_of_byte c :
  let n := Ascii.N_of_ascii c in
  is_hex (hex_digit (n / 16)) = true /\ is_hex (hex_digit (n mod 16)) = true
  /\ lower (hex_digit (n / 16)) = hex_digit (n / 16)
  /\ lower (hex_digit (n mod 16)) = hex_digit (n mod 16).
Proof. destruct c as [[] [] [] [] [] [] [] []]; now repeat split. Qed.

Lemma map_lower_hex s :
  all_string is_hex s = true ->
  String.length (map_string lower s) = String.length s
  /\ all_string is_hex (map_string lower s) = true
  /\ map_string lower (map_string lower s) = map_string lower s.
Proof.
  induction s as [|c s IH]; simpl; [now repeat split|].
  intros [Hc Hs]%andb_prop. destruct (IH Hs) as (Hlen & Hall & Hmap).
  destruct (lower_hex c Hc) as [Hh Hl].
  rewrite Hlen, Hh, Hall, Hl, Hmap. now repeat split.
Qed.

Lemma to_hex_hex s :
  String.length (to_hex s) = (2 * String.length s)%nat
  /\ all_string is_hex (to_hex s) = true
  /\ map_string lower (to_hex s) = to_hex s.
Proof.
  induction s as [|c s (Hlen & Hall & Hmap)]; simpl; [now repeat split|].
  destruct (hex_digits_of_byte c) as (H1 & H2 & H3 & H4). cbn zeta in *.
  rewrite Hlen, H1, H2, H3, H4, Hall, Hmap. repeat split. lia.
Qed.

(** The cast of a string to an ObjectId gives the id in its stored form,
    which casts to itself. *)
Lemma castObjectId_canonical s k :
  castObjectId s = Some k -> castObjectId k = Some k.
Proof.
  unfold castObjectId at 1.
  destruct (Nat.eqb (String.length s) 24 && all_string is_hex s) eqn:H24.
  - intros [= <-]. apply andb_prop in H24 as [Hlen Hall].
    destruct (map_lower_hex s Hall) as (Hl & Hh & Hm).
    unfold castObjectId. now rewrite Hl, Hlen, Hh, Hm.
  - destruct (Nat.eqb (String.length s) 12) eqn:H12; [|discriminate].
    intros [= <-]. apply Nat.eqb_eq in H12.
    destruct (to_hex_hex s) as (Hl & Hh & Hm).
    unfold castObjectId. rewrite Hl, H12, Hh, Hm. reflexivity.
Qed.

(** ** Reservations *)

Lemma reservation_create_inserted e b coll k r coll' :
  Reservation.create e b coll = inr (k, r, coll') ->
  new_id e b = Some k /\ coll !! k = None /\ coll' = <[k := r]> coll
  /\ r = Reservation.construct e b.
Proof.
  unfold Reservation.create.
  destruct (insert_doc _ _ _ _ _) as [x|[k0 c0]] eqn:Hins; [discriminate|].
  intros [= <- <- <-].
  apply insert_doc_inserted in Hins as (_ & Hid & Hfresh & Hcoll). auto.
Qed.

Lemma new_id_canonical e b k :
  castObjectId (fresh_oid e) = Some (fresh_oid e) ->
  new_id e b = Some k -> castObjectId k = Some k.
Proof.
  intros Hfresh. unfold new_id. destruct (assoc "_id" b) as [v|].
  - destruct v; try discriminate. simpl. apply castObjectId_canonical.
  - now intros [= <-].
Qed.

(** What POST /api/reservations and POST /api/reservations/new do when they
    answer with a reservation. *)
Lemma reservation_posted e tok b st k r st' :
  (reservations_new e (incoming POST ["new"] tok b) st
     = (json 201 (ReservationDoc (k, r)), st')
   \/ reservations_post e (incoming POST [] tok b) st
     = (json 200 (ReservationDoc (k, r)), st')) ->
  Reservation.create e b (reservations st) = inr (k, r, <[k := r]> (reservations st))
  /\ st' = with_reservations (<[k := r]> (reservations st)) st.
Proof.
  intros Hrun.
  assert (Hh : exists c, Reservation.create e b (reservations st) = inr (k, r, c)
                         /\ st' = with_reservations c st).
  { destruct Hrun as [Hrun|Hrun].
    - unfold reservations_new, run, reservations_new_handler in Hrun.
      cbn [body incoming] in Hrun.
      destruct (Reservation.create e b (reservations st)) as [x|[[k0 r0] c]];
        [discriminate|].
      injection Hrun as <- <- <-. eauto.
    - change reservations_post
        with (run (checks reservation_checks) reservations_post_handler) in Hrun.
      rewrite run_checks_all in Hrun. unfold reservations_post_handler in Hrun.
      cbn [body incoming add_verrors] in Hrun.
      destruct (no_errors _); cbn [negb] in Hrun; [|discriminate].
      destruct (Reservation.create e b (reservations st)) as [x|[[k0 r0] c]];
        [discriminate|].
      injection Hrun as <- <- <-. eauto. }
  destruct Hh as (c & Hc & ->).
  destruct (reservation_create_inserted _ _ _ _ _ _ Hc) as (_ & _ & -> & _).
  now split.
Qed.

(** X6. A reservation that POST /api/reservations/new (or POST
    /api/reservations) answers with is then found by staff: GET
    /api/reservations/:id on the id of the answer returns the same
    document.  The ids the driver generates are ObjectIds. *)
Theorem reservation_created_then_found
    (e e' : env) (tok tok' : option string) (b b' : list (string * value))
    (st st' : store) (k : string) (r : Reservation.t) (u role : option value) :
  castObjectId (fresh_oid e) = Some (fresh_oid e) ->
  (reservations_new e (incoming POST ["new"] tok b) st
     = (json 201 (ReservationDoc (k, r)), st')
   \/ reservations_post e (incoming POST [] tok b) st
     = (json 200 (ReservationDoc (k, r)), st')) ->
  authenticated (incoming GET [k] tok' b') u ->
  prop u "role" = inr role ->
  includes ["staff"; "admin"] role = true ->
  reservations_api e' (incoming GET [k] tok' b') st'
    = (json 200 (ReservationDoc (k, r)), st').
Proof.
  intros Hfresh Hpost Hauth Hrole Hin.
  destruct (reservation_posted _ _ _ _ _ _ _ Hpost) as (Hc & ->).
  destruct (reservation_create_inserted _ _ _ _ _ _ Hc) as (Hid & _ & _ & _).
  pose proof (new_id_canonical _ _ _ Hfresh Hid) as Hk.
  change (reservations_api e' (incoming GET [k] tok' b') ?s)
    with (run staff_only reservations_get_handler e'
            (set_param k (incoming GET [k] tok' b')) s).
  unfold staff_only.
  assert (Hauth' : authenticated (set_param k (incoming GET [k] tok' b')) u) by exact Hauth.
  rewrite (run_next _ _ _ _ _ _ _ (auth_next _ u _ Hauth')).
  rewrite (run_next _ _ _ _ _ _ _
             (checkRole_allowed _ (set_user u (set_param k (incoming GET [k] tok' b')))
                role _ Hrole Hin)).
  unfold run, reservations_get_handler. cbn [id_param set_user set_param].
  erewrite findById_found; [reflexivity|exact Hk|].
  cbn [reservations with_reservations]. apply lookup_insert_eq.
Qed.

Lemma run_auth_gate roles (h : handler) e req st u role :
  authenticated req u -> prop u "role" = inr role -> includes roles role = true ->
  run [auth; checkRole roles] h e req st = h e (set_user u req) st.
Proof.
  intros Hauth Hrole Hin.
  rewrite (run_next _ _ _ _ _ _ _ (auth_next _ u _ Hauth)).
  now rewrite (run_next _ _ _ _ _ _ _
                 (checkRole_allowed _ (set_user u req) role _ Hrole Hin)).
Qed.

Lemma store_reservations_same st :
  with_reservations (reservations st) st = st.
Proof. now destruct st. Qed.

(** X7. DELETE /api/reservations/:id by staff removes the reservation for
    good: the answer is 200, GET /api/reservations/:id on the same id then
    answers 404, and the other reservations are untouched.  Deleting a
    reservation that POST /api/reservations/new has just created gives back
    the database as it was before the POST. *)
Theorem reservation_delete_then_gone
    (e e' : env) (tok : option string) (b : list (string * value)) (st : store)
    (i k : string) (r : Reservation.t) (u role : option value) :
  authenticated (incoming DELETE [i] tok b) u ->
  prop u "role" = inr role ->
  includes ["staff"; "admin"] role = true ->
  castObjectId i = Some k ->
  reservations st !! k = Some r ->
  reservations_api e (incoming DELETE [i] tok b) st
    = (json 200 (Msg "Réservation supprimée"),
       with_reservations (delete k (reservations st)) st)
  /\ reservations_api e' (incoming GET [i] tok b)
       (reservations_api e (incoming DELETE [i] tok b) st).2
     = (json 404 (Msg "Réservation non trouvée"),
        (reservations_api e (incoming DELETE [i] tok b) st).2)
  /\ (forall k', k' <> k ->
        reservations (reservations_api e (incoming DELETE [i] tok b) st).2 !! k'
          = reservations st !! k')
  /\ (forall e0 tok0 b0 st0,
        reservations_new e0 (incoming POST ["new"] tok0 b0) st0
          = (json 201 (ReservationDoc (k, r)), st) ->
        (reservations_api e (incoming DELETE [i] tok b) st).2 = st0).
Proof.
  intros Hauth Hrole Hin Hi Hk.
  assert (Hdel : reservations_api e (incoming DELETE [i] tok b) st
    = (json 200 (Msg "Réservation supprimée"),
       with_reservations (delete k (reservations st)) st)).
  { change (reservations_api e (incoming DELETE [i] tok b) st)
      with (run staff_only reservations_delete_handler e
              (set_param i (incoming DELETE [i] tok b)) st).
    unfold staff_only. rewrite (run_auth_gate _ _ _ _ _ u role); [|exact Hauth|auto..].
    unfold reservations_delete_handler. cbn [id_param set_user set_param].
    now rewrite (findById_found _ _ _ _ Hi Hk). }
  rewrite Hdel. cbn [snd]. split; [reflexivity|]. split; [|split].
  - change (reservations_api e' (incoming GET [i] tok b) ?s)
      with (run staff_only reservations_get_handler e'
              (set_param i (incoming GET [i] tok b)) s).
    unfold staff_only. rewrite (run_auth_gate _ _ _ _ _ u role); [|exact Hauth|auto..].
    unfold reservations_get_handler, findById. cbn [id_param set_user set_param].
    rewrite Hi. cbn [reservations with_reservations]. now rewrite lookup_delete_eq.
  - intros k' Hne. cbn [reservations with_reservations]. now apply lookup_delete_ne.
  - intros e0 tok0 b0 st0 Hnew.
    destruct (reservation_posted e0 tok0 b0 st0 k r st (or_introl Hnew)) as (Hc & ->).
    destruct (reservation_create_inserted _ _ _ _ _ _ Hc) as (_ & Hfresh & _ & _).
    cbn [reservations with_reservations]. rewrite delete_insert_eq, delete_id by exact Hfresh.
    unfold with_reservations. cbn. now destruct st0.
Qed.

(** X8. GET /api/reservations answers staff and admin with every stored
    reservation, each once under its id, ordered by date and then by time;
    it does not change the database. *)
Theorem reservations_listed_in_order
    (e : env) (tok : option string) (b : list (string * value)) (st : store)
    (u role : option value) :
  authenticated (incoming GET [] tok b) u ->
  prop u "role" = inr role ->
  includes ["staff"; "admin"] role = true ->
  exists l,
    reservations_api e (incoming GET [] tok b) st = (json 200 (Reservations l), st)
    /\ (forall k r, In (k, r) l <-> reservations st !! k = Some r)
    /\ length l = size (reservations st)
    /\ in_order by_date_time l.
Proof.
  intros Hauth Hrole Hin.
  exists (sort_by by_date_time (map_to_list (reservations st))). split.
  { change (reservations_api e (incoming GET [] tok b) st)
      with (run staff_only reservations_list_handler e
              (set_param "" (incoming GET [] tok b)) st).
    unfold staff_only. now rewrite (run_auth_gate _ _ _ _ _ u role). }
  split; [|split].
  - intros k r. rewrite In_sort_by. apply In_map_to_list.
  - unfold sort_by. rewrite <- length_map_to_list.
    induction (map_to_list (reservations st)) as [|x l IH]; [reflexivity|].
    cbn [foldr length]. rewrite <- IH. clear IH.
    generalize (foldr (insert_by by_date_time) [] l). intros l'.
    induction l' as [|y l' IH']; simpl; [reflexivity|].
    destruct (by_date_time x y); simpl; [reflexivity|now rewrite IH'].
  - apply sort_by_in_order, by_date_time_total.
Qed.

(** X9. POST /api/reservations/new and POST /api/reservations never touch a
    reservation that is already stored, whatever [_id] the payload carries;
    the reservation they answer with has the status [pending] when the
    payload gives no status, and the creation time [Date.now()] when the
    payload gives none. *)
Theorem reservation_post_adds_only
    (e : env) (tok : option string) (b : list (string * value)) (st : store) :
  (forall k0 r0, reservations st !! k0 = Some r0 ->
     reservations (reservations_new e (incoming POST ["new"] tok b) st).2 !! k0 = Some r0
     /\ reservations (reservations_post e (incoming POST [] tok b) st).2 !! k0 = Some r0)
  /\ (forall k r st',
        (reservations_new e (incoming POST ["new"] tok b) st
           = (json 201 (ReservationDoc (k, r)), st')
         \/ reservations_post e (incoming POST [] tok b) st
           = (json 200 (ReservationDoc (k, r)), st')) ->
        reservations st !! k = None
        /\ reservations st' !! k = Some r
        /\ (assoc "status" b = None -> Reservation.status r = Val "pending")
        /\ (assoc "createdAt" b = None -> Reservation.createdAt r = Val (now e))).
Proof.
  split.
  - intros k0 r0 Hk0.
    assert (Hkeep : forall c k r,
              Reservation.create e b (reservations st) = inr (k, r, c) ->
              c !! k0 = Some r0).
    { intros c k r Hc.
      destruct (reservation_create_inserted _ _ _ _ _ _ Hc) as (_ & Hfresh & -> & _).
      rewrite lookup_insert_ne; [exact Hk0|]. intros ->. congruence. }
    split.
    + unfold reservations_new, run, reservations_new_handler. cbn [body incoming].
      destruct (Reservation.create e b (reservations st)) as [x|[[k r] c]] eqn:Hc;
        [exact Hk0|]. cbn [snd reservations with_reservations]. eauto.
    + change reservations_post
        with (run (checks reservation_checks) reservations_post_handler).
      rewrite run_checks_all. unfold reservations_post_handler.
      cbn [body incoming add_verrors].
      destruct (no_errors _); cbn [negb]; [|exact Hk0].
      destruct (Reservation.create e b (reservations st)) as [x|[[k r] c]] eqn:Hc;
        [exact Hk0|]. cbn [snd reservations with_reservations]. eauto.
  - intros k r st' Hpost.
    destruct (reservation_posted _ _ _ _ _ _ _ Hpost) as (Hc & ->).
    destruct (reservation_create_inserted _ _ _ _ _ _ Hc) as (_ & Hfresh & _ & ->).
    split; [exact Hfresh|]. split.
    { cbn [reservations with_reservations]. apply lookup_insert_eq. }
    split.
    + intros Hs. cbn [Reservation.status Reservation.construct]. unfold cast_path.
      now rewrite Hs.
    + intros Hs. cbn [Reservation.createdAt Reservation.construct]. unfold cast_path.
      now rewrite Hs.
Qed.

Lemma authenticated_unique req u u' :
  authenticated req u -> authenticated req u' -> u = u'.
Proof.
  intros (t & d & Ht & _ & Hv & Hu) (t' & d' & Ht' & _ & Hv' & Hu').
  congruence.
Qed.

(** X10. GET /api/reservations/stats never answers with statistics: GET
    /api/reservations/:id is declared before it and matches its path, so
    the request is answered by that route, behind [auth] and the gate,
    with 401 when it carries no token, with 404 for staff and admin, and
    never with 200; the database is unchanged. *)
Theorem reservations_stats_is_shadowed
    (e : env) (tok : option string) (b : list (string * value)) (st : store) :
  reservations_api e (incoming GET ["stats"] tok b) st
    = run staff_only reservations_get_handler e
        (set_param "stats" (incoming GET ["stats"] tok b)) st
  /\ (reservations_api e (incoming GET ["stats"] tok b) st).2 = st
  /\ In (status (reservations_api e (incoming GET ["stats"] tok b) st).1)
        [401; 403; 404; 500]
  /\ (tok = None ->
        reservations_api e (incoming GET ["stats"] tok b) st
          = (json 401 (Msg "Pas de token, autorisation refusée"), st))
  /\ (forall u role,
        authenticated (incoming GET ["stats"] tok b) u ->
        prop u "role" = inr role -> includes ["staff"; "admin"] role = true ->
        reservations_api e (incoming GET ["stats"] tok b) st
          = (json 404 (Msg "Réservation non trouvée"), st)).
Proof.
  assert (Hd : reservations_api e (incoming GET ["stats"] tok b) st
    = run staff_only reservations_get_handler e
        (set_param "stats" (incoming GET ["stats"] tok b)) st) by reflexivity.
  split; [exact Hd|]. rewrite Hd. unfold staff_only.
  set (req := set_param "stats" (incoming GET ["stats"] tok b)).
  assert (Hlast : forall u role,
            authenticated (incoming GET ["stats"] tok b) u ->
            prop u "role" = inr role -> includes ["staff"; "admin"] role = true ->
            run [auth; checkRole ["staff"; "admin"]] reservations_get_handler e req st
              = (json 404 (Msg "Réservation non trouvée"), st)).
  { intros u role Hau Hr Hi. now rewrite (run_auth_gate _ _ _ _ _ u role). }
  destruct (auth_cases req st) as [(u & Hauth & Ha)|(message & Ha & Hm)].
  - destruct Hauth as (token & decoded & Htok & Hrest).
    assert (Hsome : tok <> None) by (cbn in Htok; congruence).
    rewrite (run_next _ _ _ _ _ _ _ Ha) in *. unfold run, checkRole in *.
    destruct (prop (user (set_user u req)) "role") as [x|role]; cbn [fst snd].
    + split; [reflexivity|]. split; [simpl; tauto|]. split; [congruence|exact Hlast].
    + destruct (includes ["staff"; "admin"] role); cbn [fst snd].
      * cbn. repeat split; auto; congruence.
      * split; [reflexivity|]. split; [simpl; tauto|]. split; [congruence|exact Hlast].
  - rewrite (run_respond _ _ _ _ _ _ _ Ha) in *. cbn [fst snd]. split; [reflexivity|].
    split; [now left|]. split; [|exact Hlast].
    intros ->. now rewrite (Hm eq_refl).
Qed.

(** ** Roles *)

Lemma set_role_same u : User.set_role (User.role u) u = u.
Proof. now destruct u. Qed.

(** X11. The admin routes decide on the role stored in the database, the
    routes behind [checkRole] on the role in the token.  When an admin
    makes another user a client, PUT /api/admin/users/:userId/role answers
    200 and stores the new role; from then on a token of that user that
    still claims the role admin is refused by [isAdmin] with 403, while
    [checkRole(['admin'])] still lets it through. *)
Theorem demotion_reaches_admin_routes_only
    (e : env) (req req' : request) (st : store) (u i u' : option value)
    (k k' : string) (target : User.t) :
  authenticated req u ->
  isAdmin (set_user u req) st = Next (set_user u req) ->
  prop u "id" = inr i ->
  is_string k i = false ->
  castObjectId (id_param req) = Some k ->
  users st !! k = Some target ->
  assoc "role" (body req) = Some (VStr "client") ->
  prop u' "id" = inr (Some (VStr k')) ->
  castObjectId k' = Some k ->
  prop u' "role" = inr (Some (VStr "admin")) ->
  role_put e req st
    = (json 200 (RoleUpdated (k, User.set_role (Val "client") target)),
       with_users (<[k := User.set_role (Val "client") target]> (users st)) st)
  /\ isAdmin (set_user u' req') (role_put e req st).2
     = Respond (json 403 (Message
         "Accès refusé. Seuls les administrateurs peuvent effectuer cette action."))
  /\ checkRole ["admin"] (set_user u' req') (role_put e req st).2
     = Next (set_user u' req').
Proof.
  intros Hauth Hadmin Hid Hother Hk Ht Hrole Hid' Hk' Hrole'.
  assert (Hrun : role_put e req st
    = (json 200 (RoleUpdated (k, User.set_role (Val "client") target)),
       with_users (<[k := User.set_role (Val "client") target]> (users st)) st)).
  { unfold role_put. rewrite (run_next _ _ _ _ _ _ _ (auth_next req u st Hauth)).
    rewrite (run_next _ _ _ _ _ _ _ Hadmin). unfold run, role_put_handler.
    cbn [body id_param user set_user]. rewrite Hrole.
    rewrite (findById_found _ _ _ _ Hk Ht), Hid, Hother.
    cbn [includes existsb String.eqb Ascii.eqb Bool.eqb negb orb andb castString default].
    destruct target. reflexivity. }
  rewrite Hrun. cbn [snd]. split; [reflexivity|]. split.
  - unfold isAdmin. cbn [user set_user]. rewrite Hid'. cbn [castObjectIdValue].
    rewrite Hk'. cbn [users with_users]. rewrite lookup_insert_eq. reflexivity.
  - unfold checkRole. cbn [user set_user]. now rewrite Hrole'.
Qed.

(** X12. Whatever the request, PUT /api/admin/users/:userId/role neither
    creates nor removes a user, and changes of a stored user nothing but
    the role; the menu, the orders and the reservations are untouched. *)
Theorem role_put_changes_roles_only (e : env) (req : request) (st : store) :
  menuItems (role_put e req st).2 = menuItems st
  /\ orders (role_put e req st).2 = orders st
  /\ reservations (role_put e req st).2 = reservations st
  /\ (forall k, users (role_put e req st).2 !! k = None <-> users st !! k = None)
  /\ (forall k u', users (role_put e req st).2 !! k = Some u' ->
        exists u0, users st !! k = Some u0
                   /\ u' = User.set_role (User.role u') u0).
Proof.
  assert (Hsame : forall s : store, s = st ->
    menuItems s = menuItems st /\ orders s = orders st
    /\ reservations s = reservations st
    /\ (forall k, users s !! k = None <-> users st !! k = None)
    /\ (forall k u', users s !! k = Some u' ->
          exists u0, users st !! k = Some u0 /\ u' = User.set_role (User.role u') u0)).
  { intros s ->. repeat split; auto. intros k u' Hu. exists u'. split; [exact Hu|].
    now rewrite set_role_same. }
  unfold role_put.
  destruct (auth_cases req st) as [(u & _ & Ha)|(message & Ha & _)];
    [|rewrite (run_respond _ _ _ _ _ _ _ Ha); now apply Hsame].
  rewrite (run_next _ _ _ _ _ _ _ Ha).
  destruct (isAdmin (set_user u req) st) as [req1|resp|x] eqn:Hg;
    [|rewrite (run_respond _ _ _ _ _ _ _ Hg); now apply Hsame
     |rewrite (run_throw _ _ _ _ _ _ _ Hg); now apply Hsame].
  rewrite (run_next _ _ _ _ _ _ _ Hg). unfold run, role_put_handler.
  destruct (includes _ _); cbn [negb]; [|now apply Hsame].
  unfold findById. destruct (castObjectId (id_param req1)) as [k0|]; [|now apply Hsame].
  destruct (users st !! k0) as [u0|] eqn:Hk0; [|now apply Hsame].
  destruct (prop (user req1) "id") as [x|i]; [now apply Hsame|].
  destruct (is_string k0 i && _); [now apply Hsame|].
  destruct (User.validate _); [|now apply Hsame].
  cbn [snd menuItems orders reservations users with_users].
  repeat split; auto.
  - intros Hn. destruct (decide (k = k0)) as [->|Hne].
    + rewrite lookup_insert_eq in Hn. discriminate.
    + now rewrite lookup_insert_ne in Hn by congruence.
  - intros Hn. destruct (decide (k = k0)) as [->|Hne]; [congruence|].
    now rewrite lookup_insert_ne by congruence.
  - intros k u' Hu. destruct (decide (k = k0)) as [->|Hne].
    + rewrite lookup_insert_eq in Hu. injection Hu as <-. exists u0.
      split; [exact Hk0|]. now destruct u0.
    + rewrite lookup_insert_ne in Hu by congruence. exists u'.
      split; [exact Hu|]. now rewrite set_role_same.
Qed.

(** ** Orders *)

Lemma set_status_twice s o :
  Order.set_status s (Order.set_status s o) = Order.set_status s o.
Proof. reflexivity. Qed.

(** X13. Whatever the request, DELETE /api/orders/:id removes no order and
    creates none; an order it changes keeps its owner, items, amount and
    date and gets the status [cancelled]; users, menu and reservations are
    untouched. *)
Theorem orders_delete_only_cancels (e : env) (req : request) (st : store) :
  users (orders_delete e req st).2 = users st
  /\ menuItems (orders_delete e req st).2 = menuItems st
  /\ reservations (orders_delete e req st).2 = reservations st
  /\ (forall k, orders (orders_delete e req st).2 !! k = None <-> orders st !! k = None)
  /\ (forall k o', orders (orders_delete e req st).2 !! k = Some o' ->
        exists o, orders st !! k = Some o
                  /\ (o' = o \/ o' = Order.set_status "cancelled" o)).
Proof.
  assert (Hsame : forall s : store, s = st ->
    users s = users st /\ menuItems s = menuItems st
    /\ reservations s = reservations st
    /\ (forall k, orders s !! k = None <-> orders st !! k = None)
    /\ (forall k o', orders s !! k = Some o' ->
          exists o, orders st !! k = Some o
                    /\ (o' = o \/ o' = Order.set_status "cancelled" o))).
  { intros s ->. repeat split; auto. intros k o' Ho. exists o'. auto. }
  unfold orders_delete.
  destruct (auth_cases req st) as [(u & _ & Ha)|(message & Ha & _)];
    [|rewrite (run_respond _ _ _ _ _ _ _ Ha); now apply Hsame].
  rewrite (run_next _ _ _ _ _ _ _ Ha). unfold run, orders_delete_handler.
  unfold findById. destruct (castObjectId _) as [k0|]; [|now apply Hsame].
  destruct (orders st !! k0) as [o0|] eqn:Hk0; [|now apply Hsame].
  destruct (prop _ "role") as [x|role]; [now apply Hsame|].
  assert (Hcancel :
    let s := (json 200 (Msg "Commande annulée"),
              with_orders (<[k0 := Order.set_status "cancelled" o0]> (orders st)) st).2 in
    users s = users st /\ menuItems s = menuItems st
    /\ reservations s = reservations st
    /\ (forall k, orders s !! k = None <-> orders st !! k = None)
    /\ (forall k o', orders s !! k = Some o' ->
          exists o, orders st !! k = Some o
                    /\ (o' = o \/ o' = Order.set_status "cancelled" o))).
  { cbn [snd users menuItems reservations orders with_orders]. repeat split; auto.
    - intros Hn. destruct (decide (k = k0)) as [->|Hne].
      + rewrite lookup_insert_eq in Hn. discriminate.
      + now rewrite lookup_insert_ne in Hn by congruence.
    - intros Hn. destruct (decide (k = k0)) as [->|Hne]; [congruence|].
      now rewrite lookup_insert_ne by congruence.
    - intros k o' Ho. destruct (decide (k = k0)) as [->|Hne].
      + rewrite lookup_insert_eq in Ho. injection Ho as <-. eauto.
      + rewrite lookup_insert_ne in Ho by congruence. eauto. }
  assert (Hv : Order.validate_status (Order.set_status "cancelled" o0) = [])
    by reflexivity.
  rewrite Hv.
  destruct (is_string "client" role).
  - destruct (Order.user o0); try now apply Hsame.
    destruct (prop _ "id") as [x|i]; [now apply Hsame|].
    destruct (negb _); [now apply Hsame|exact Hcancel].
  - exact Hcancel.
Qed.

(** X14. DELETE /api/orders/:id looks at the owner of the order only when
    the role in the token is the string [client]: a request with any other
    role, or with no role at all, cancels any stored order, its own or
    not. *)
Theorem orders_delete_open_to_other_roles
    (e : env) (req : request) (st : store) (u role : option value)
    (k : string) (o : Order.t) :
  authenticated req u ->
  prop u "role" = inr role ->
  is_string "client" role = false ->
  castObjectId (id_param req) = Some k ->
  orders st !! k = Some o ->
  orders_delete e req st
    = (json 200 (Msg "Commande annulée"),
       with_orders (<[k := Order.set_status "cancelled" o]> (orders st)) st).
Proof.
  intros Hauth Hrole Hnot Hk Ho. unfold orders_delete.
  rewrite (run_next _ _ _ _ _ _ _ (auth_next req u st Hauth)).
  unfold run, orders_delete_handler. cbn [id_param user set_user].
  rewrite (findById_found _ _ _ _ Hk Ho), Hrole, Hnot.
  assert (Hv : Order.validate_status (Order.set_status "cancelled" o) = [])
    by reflexivity.
  now rewrite Hv.
Qed.

(** ** Accounts *)

Lemma head_filter_some {A : Type} (P : A -> bool) l x :
  In x l -> P x = true -> exists y, head (List.filter P l) = Some y.
Proof.
  intros Hin HP. assert (Hf : In x (List.filter P l)) by (apply filter_In; auto).
  destruct (List.filter P l) as [|y l']; [contradiction|]. now exists y.
Qed.

Lemma head_filter_only {A : Type} (P : A -> bool) l x :
  In x l -> P x = true -> (forall y, In y l -> P y = true -> y = x) ->
  head (List.filter P l) = Some x.
Proof.
  intros Hin HP Hall. destruct (head_filter_some P l x Hin HP) as [y Hy].
  rewrite Hy. f_equal.
  destruct (List.filter P l) as [|z l'] eqn:Hf; [discriminate|].
  injection Hy as ->. assert (Hz : In y (List.filter P l)) by (rewrite Hf; now left).
  apply filter_In in Hz as [Hz1 Hz2]. auto.
Qed.

Lemma findOne_email_none x coll :
  User.findOne_email x coll = inr None ->
  exists f, castString x = Some f
            /\ forall k u, coll !! k = Some u -> User.email_matches f (k, u) = false.
Proof.
  unfold User.findOne_email. destruct (castString x) as [f|]; [|discriminate].
  intros [= Hh]. exists f. split; [reflexivity|]. intros k u Hk.
  destruct (User.email_matches f (k, u)) eqn:Hm; [|reflexivity].
  destruct (head_filter_some (User.email_matches f) (map_to_list coll) (k, u))
    as [y Hy]; [now apply In_map_to_list|exact Hm|congruence].
Qed.

Lemma register_user_object x1 x2 x3 role :
  let obj := entry "name" x1 ++ entry "email" x2 ++ entry "password" x3
             ++ [("role", role)] in
  assoc "email" obj = x2 /\ assoc "password" obj = x3.
Proof. destruct x1, x2, x3; now split. Qed.

(** What [register] stores when it answers 200. *)
Lemma register_stored e tok b st token k u st' :
  register e (incoming POST ["register"] tok b) st
    = (json 200 (Session token (k, u)), st') ->
  failures register_checks b = []
  /\ (exists f, castString (assoc "email" b) = Some f /\ User.email u = f
                /\ forall k0 u0, users st !! k0 = Some u0 ->
                                 User.email_matches f (k0, u0) = false)
  /\ (forall p, assoc "password" b = Some (VStr p) ->
                User.password u = Val (bcrypt_hash p))
  /\ users st !! k = None
  /\ st' = with_users (<[k := u]> (users st)) st.
Proof.
  change register with (run (checks register_checks) register_handler).
  rewrite run_checks_all. cbn [body incoming].
  destruct (failures register_checks b) as [|x l] eqn:Hf.
  2:{ unfold register_handler, no_errors. cbn [verrors add_verrors incoming app negb].
      discriminate. }
  rewrite add_verrors_nil. unfold register_handler.
  cbn [no_errors verrors incoming negb body].
  destruct (User.findOne_email (assoc "email" b) (users st)) as [x|[d|]] eqn:Hone;
    [discriminate|discriminate|].
  destruct (register_user_object (assoc "name" b) (assoc "email" b)
              (assoc "password" b) (default (VStr "client") (assoc "role" b)))
    as [Hemail Hpw].
  set (obj := entry "name" (assoc "name" b) ++ _) in *.
  destruct (User.create e obj (users st)) as [x|[[k0 u0] coll]] eqn:Hc; [discriminate|].
  intros [= _ <- <- <-].
  unfold User.create in Hc.
  destruct (insert_doc _ _ _ _ _) as [x|[k1 c1]] eqn:Hins; [discriminate|].
  injection Hc as <- <- <-.
  apply insert_doc_inserted in Hins as (_ & _ & Hfresh & ->).
  destruct (findOne_email_none _ _ Hone) as (f & Hcast & Hnone).
  split; [reflexivity|]. split; [|split; [|split; [exact Hfresh|reflexivity]]].
  - exists f. split; [exact Hcast|]. split; [|exact Hnone].
    cbn [User.email User.hash_password User.construct]. unfold cast_path.
    now rewrite Hemail, Hcast.
  - intros p Hp. cbn [User.password User.hash_password User.construct].
    unfold cast_path. now rewrite Hpw, Hp.
Qed.

Lemma email_matches_val s k u :
  User.email_matches (Val s) (k, u) = true <-> User.email u = Val s.
Proof.
  cbn [User.email_matches snd]. unfold field_eqb.
  destruct (User.email u) as [| |s']; try (split; [discriminate|discriminate]).
  rewrite String.eqb_eq. split; congruence.
Qed.

Lemma register_outcome e tok b st :
  (register e (incoming POST ["register"] tok b) st).2 = st
  \/ exists token k u st',
       register e (incoming POST ["register"] tok b) st
         = (json 200 (Session token (k, u)), st').
Proof.
  change register with (run (checks register_checks) register_handler).
  rewrite run_checks_all. cbn [body incoming]. unfold register_handler.
  destruct (no_errors _); cbn [negb]; [|now left].
  destruct (User.findOne_email _ _) as [x|[d0|]]; [now left|now left|].
  destruct (User.create _ _ _) as [x|[[k0 u0] coll]]; [now left|].
  right. eauto.
Qed.

(** X15. POST /api/auth/register refuses an email that a stored user has:
    the answer is 400 and nothing is stored.  So it keeps the emails of the
    stored users distinct: when no two users share an email before the
    request, none do after it. *)
Theorem register_keeps_emails_unique
    (e : env) (tok : option string) (b : list (string * value)) (st : store) :
  (forall k u s,
     users st !! k = Some u -> User.email u = Val s ->
     assoc "email" b = Some (VStr s) ->
     status (register e (incoming POST ["register"] tok b) st).1 = 400
     /\ (register e (incoming POST ["register"] tok b) st).2 = st)
  /\ (emails_unique (users st) ->
      emails_unique (users (register e (incoming POST ["register"] tok b) st).2)).
Proof.
  split.
  - intros k u s Hk Hmail Hb.
    change register with (run (checks register_checks) register_handler).
    rewrite run_checks_all. cbn [body incoming].
    destruct (failures register_checks b) as [|x l] eqn:Hf.
    2:{ unfold register_handler, no_errors.
        cbn [verrors add_verrors incoming app negb]. now split. }
    rewrite add_verrors_nil. unfold register_handler.
    cbn [no_errors verrors incoming negb body]. rewrite Hb.
    unfold User.findOne_email. cbn [castString].
    destruct (head_filter_some (User.email_matches (Val s)) (map_to_list (users st)) (k, u))
      as [y ->]; [now apply In_map_to_list|now apply email_matches_val|].
    now split.
  - intros Huniq.
    destruct (register_outcome e tok b st) as [->|(token & k & u & st' & Hr)];
      [exact Huniq|].
    rewrite Hr.
    apply register_stored in Hr as (_ & (f & _ & Hmail & Hnone) & _ & Hfresh & ->).
    cbn [snd users with_users]. intros k1 k2 u1 u2 s H1 H2 E1 E2.
    destruct (decide (k1 = k)) as [->|N1]; destruct (decide (k2 = k)) as [->|N2];
      [reflexivity| | |].
    + rewrite lookup_insert_eq in H1. injection H1 as <-.
      rewrite lookup_insert_ne in H2 by congruence.
      rewrite E1 in Hmail. subst f. apply Hnone in H2.
      apply (proj2 (email_matches_val s k2 u2)) in E2. congruence.
    + rewrite lookup_insert_eq in H2. injection H2 as <-.
      rewrite lookup_insert_ne in H1 by congruence.
      rewrite E2 in Hmail. subst f. apply Hnone in H1.
      apply (proj2 (email_matches_val s k1 u1)) in E1. congruence.
    + rewrite lookup_insert_ne in H1, H2 by congruence. eauto.
Qed.


Section Login.
Variable comparePassword : User.t -> option value -> option bool.

Lemma login_run e tok b st :
  if passes IsEmail (assoc "email" b) && is_some (assoc "password" b)
  then login comparePassword e (incoming POST ["login"] tok b) st
       = login_handler comparePassword e (incoming POST ["login"] tok b) st
  else status (login comparePassword e (incoming POST ["login"] tok b) st).1 = 400
       /\ (login comparePassword e (incoming POST ["login"] tok b) st).2 = st.
Proof.
  unfold login, login_stack. rewrite run_check. cbn [body incoming].
  unfold run, check_exists.
  destruct (passes IsEmail (assoc "email" b)); cbn [body incoming add_verror andb];
    destruct (assoc "password" b); cbn [is_some]; try reflexivity;
    unfold login_handler, no_errors; cbn [verrors add_verror incoming app negb];
    now split.
Qed.


(** X17. A user who has registered can log in.  Provided [comparePassword]
    accepts the password whose bcrypt hash the user stores, POST
    /api/auth/login with the email and the password of a registration that
    was answered 200 answers 200 for the same user, with a token of the
    same claims. *)
Theorem register_then_login
    (e e' : env) (tok tok' : option string) (b b' : list (string * value))
    (st st' : store) (token k p : string) (u : User.t) :
  (forall u0 p0, User.password u0 = Val (bcrypt_hash p0) ->
                 comparePassword u0 (Some (VStr p0)) = Some true) ->
  register e (incoming POST ["register"] tok b) st
    = (json 200 (Session token (k, u)), st') ->
  assoc "password" b = Some (VStr p) ->
  assoc "email" b' = assoc "email" b ->
  assoc "password" b' = Some (VStr p) ->
  token = jwt_sign (token_payload k u)
  /\ login comparePassword e' (incoming POST ["login"] tok' b') st'
     = (json 200 (Session (jwt_sign (token_payload k u)) (k, u)), st').
Proof.
  intros Hlaw Hreg Hp Hmail' Hp'.
  assert (Htoken : token = jwt_sign (token_payload k u)).
  { revert Hreg. change register with (run (checks register_checks) register_handler).
    rewrite run_checks_all. cbn [body incoming]. unfold register_handler.
    destruct (no_errors _); cbn [negb]; [|discriminate].
    destruct (User.findOne_email _ _) as [x|[d0|]]; [discriminate|discriminate|].
    destruct (User.create _ _ _) as [x|[[k0 u0] coll]]; [discriminate|].
    now intros [= <- <- <-]. }
  split; [exact Htoken|].
  apply register_stored in Hreg
    as (Hf & (f & Hcast & Hmail & Hnone) & Hpw & Hfresh & ->).
  assert (Hpass : passes IsEmail (assoc "email" b) = true).
  { unfold failures, register_checks in Hf. cbn [List.map concat failure_of] in Hf.
    destruct (passes IsEmail (assoc "email" b)); [reflexivity|].
    destruct (passes NotEmpty _); discriminate. }
  pose proof (login_run e' tok' b' (with_users (<[k := u]> (users st)) st)) as Hrun.
  rewrite Hmail', Hpass, Hp' in Hrun. cbn [is_some andb] in Hrun.
  rewrite Hrun. unfold login_handler. cbn [no_errors verrors incoming negb body].
  rewrite Hmail', Hp'.
  assert (Hself : User.email_matches f (k, u) = true).
  { rewrite <- Hmail. unfold User.email_matches. cbn [snd].
    destruct (User.email u) as [| |s]; try reflexivity.
    cbn [field_eqb]. apply String.eqb_refl. }
  unfold User.findOne_email. rewrite Hcast. cbn [users with_users].
  rewrite (head_filter_only (User.email_matches f) _ (k, u)).
  - rewrite (Hlaw u p (Hpw p Hp)). reflexivity.
  - apply In_map_to_list. apply lookup_insert_eq.
  - exact Hself.
  - intros [k1 u1] Hin Hm. apply In_map_to_list in Hin.
    destruct (decide (k1 = k)) as [->|Hne].
    + rewrite lookup_insert_eq in Hin. congruence.
    + rewrite lookup_insert_ne in Hin by congruence.
      rewrite (Hnone k1 u1 Hin) in Hm. discriminate.
Qed.

End Login.

(** ** Routes that answer with orders, users and counts *)

(** A string is not in a list of other literals. *)
Ltac outside :=
  let Hx := fresh "Hx" in
  simpl; intros Hx;
  repeat (destruct Hx as [Hx|Hx]; [discriminate Hx|]); exact Hx.

Lemma xrun_app ms1 ms2 h e req st :
  xrun (ms1 ++ ms2) h e req st = xrun ms1 (xrun ms2 h) e req st.
Proof.
  revert req. induction ms1 as [|m ms1 IH]; intros req; simpl; [reflexivity|].
  destruct (m req st); [apply IH|reflexivity|reflexivity].
Qed.

Lemma xrun_outcome ms h e req st :
  (exists req', xrun ms h e req st = h e req' st)
  \/ (exists r, xrun ms h e req st = plain r st).
Proof.
  revert req. induction ms as [|m ms IH]; intros req; simpl.
  - left. now exists req.
  - destruct (m req st); [apply IH|right; eauto|right; eauto].
Qed.

Lemma xrun_checks_all cs h e req st :
  xrun (checks cs) h e req st = h e (add_verrors (failures cs (body req)) req) st.
Proof.
  revert req. induction cs as [|[[k message] r] cs IH]; intros req.
  - simpl. now rewrite add_verrors_nil.
  - cbn [checks List.map fst snd xrun]. unfold check at 1. cbn beta iota.
    fold (checks cs). rewrite IH. unfold failures. cbn [List.map concat failure_of].
    destruct (passes r (assoc k (body req))).
    + reflexivity.
    + cbn [body add_verror]. f_equal.
      change (add_verror ?x req) with (add_verrors [x] req).
      apply add_verrors_app.
Qed.

Lemma xrun_auth_gate roles (h : xhandler) e req st u role :
  authenticated req u -> prop u "role" = inr role -> includes roles role = true ->
  xrun [auth; checkRole roles] h e req st = h e (set_user u req) st.
Proof.
  intros Hauth Hrole Hin. cbn [xrun].
  rewrite (auth_next _ u _ Hauth).
  now rewrite (checkRole_allowed _ (set_user u req) role _ Hrole Hin).
Qed.

Lemma length_insert_by {A : Type} (le : A -> A -> bool) x l :
  length (insert_by le x l) = S (length l).
Proof.
  induction l as [|y l IH]; simpl; [reflexivity|].
  destruct (le x y); simpl; [reflexivity|now rewrite IH].
Qed.

Lemma length_sort_by {A : Type} (le : A -> A -> bool) l :
  length (sort_by le l) = length l.
Proof.
  induction l as [|y l IH]; [reflexivity|].
  change (sort_by le (y :: l)) with (insert_by le y (sort_by le l)).
  now rewrite length_insert_by, IH.
Qed.

Lemma In_categories st c :
  In c (menu_categories st) <->
  exists k m, menuItems st !! k = Some m
              /\ match c with
                 | Some s => MenuItem.category m = Val s
                 | None => MenuItem.category m = Null
                 end.
Proof.
  unfold menu_categories.
  rewrite <- list_elem_of_In, elem_of_remove_dups, list_elem_of_In, in_concat.
  split.
  - intros (l & Hl & Hc). apply in_map_iff in Hl as ([k m] & <- & Hd).
    apply In_map_to_list in Hd. exists k, m. split; [exact Hd|].
    unfold category_of in Hc. cbn [snd] in Hc.
    destruct (MenuItem.category m); simpl in Hc; try tauto;
      destruct Hc as [<-|[]]; reflexivity.
  - intros (k & m & Hd & Hc). exists (category_of (k, m)). split.
    + apply in_map, In_map_to_list, Hd.
    + unfold category_of. cbn [snd]. destruct c; rewrite Hc; now left.
Qed.

(** X18. GET /api/menu/categories needs no token, changes nothing and lists
    every category that a stored menu item has, each once: the items that
    DELETE /api/menu/:id withdrew from the menu count as well. *)
Theorem categories_include_withdrawn_items (e : env) (req : request) (st : store) :
  exists l,
    menu_categories_handler e req st = ((200, Categories l), st)
    /\ NoDup l
    /\ forall c, In (Some c) l <->
         exists k m, menuItems st !! k = Some m /\ MenuItem.category m = Val c.
Proof.
  exists (menu_categories st). split; [reflexivity|]. split.
  - apply NoDup_remove_dups.
  - intros c. apply (In_categories st (Some c)).
Qed.

(** X19. For a staff member or an admin, the count of GET /api/menu/stats is
    the number of items that GET /api/menu lists. *)
Theorem menu_stats_counts_listed_items
    (e : env) (req req' : request) (st : store) (u role : option value) :
  authenticated req u -> prop u "role" = inr role ->
  includes ["staff"; "admin"] role = true ->
  exists l,
    menu_get e req' st = (json 200 (MenuItems l), st)
    /\ menu_stats e req st = ((200, TotalItems (length l)), st).
Proof.
  intros Hauth Hrole Hin. eexists. split; [reflexivity|].
  unfold menu_stats. rewrite (xrun_auth_gate _ _ _ _ _ u role Hauth Hrole Hin).
  unfold menu_stats_handler, reply. now rewrite length_sort_by.
Qed.

Lemma latest_first_total a b : latest_first a b = true \/ latest_first b a = true.
Proof.
  unfold latest_first. destruct (order_date a), (order_date b); auto.
  destruct (Z.leb_spec z0 z); [now left|right]. apply Z.leb_le. lia.
Qed.

Lemma field_eqb_Val s f : field_eqb s f = true <-> f = Val s.
Proof.
  destruct f as [| |s']; simpl; try (split; congruence).
  rewrite String.eqb_eq. split; congruence.
Qed.

(** X20. GET /api/orders, for a user whose role is neither staff nor admin,
    lists the orders whose owner is the id of the token, all of them and no
    other, the latest first, and changes nothing. *)
Theorem client_lists_own_orders
    (e : env) (req : request) (st : store) (u role : option value) (i k : string) :
  authenticated req u -> prop u "role" = inr role ->
  includes ["staff"; "admin"] role = false ->
  prop u "id" = inr (Some (VStr i)) -> castObjectId i = Some k ->
  exists docs,
    orders_list e req st = ((200, OrderViews (List.map (view false st) docs)), st)
    /\ (forall key o, In (key, o) docs <->
          orders st !! key = Some o /\ Order.user o = Val k)
    /\ in_order latest_first docs.
Proof.
  intros Hauth Hrole Hin Hid Hk.
  unfold orders_list. cbn [xrun]. rewrite (auth_next _ u _ Hauth).
  unfold orders_list_handler. cbn [user set_user].
  rewrite Hrole, Hin, Hid. cbn [owned_by]. rewrite Hk.
  eexists. split; [reflexivity|]. split.
  - intros key o. rewrite In_sort_by, filter_In, In_map_to_list. cbn [snd].
    now rewrite field_eqb_Val.
  - apply sort_by_in_order, latest_first_total.
Qed.

(** X21. GET /api/orders, for a staff member or an admin, lists every stored
    order, the latest first, each with its owner populated, and changes
    nothing. *)
Theorem staff_lists_all_orders
    (e : env) (req : request) (st : store) (u role : option value) :
  authenticated req u -> prop u "role" = inr role ->
  includes ["staff"; "admin"] role = true ->
  exists docs,
    orders_list e req st = ((200, OrderViews (List.map (view true st) docs)), st)
    /\ (forall key o, In (key, o) docs <-> orders st !! key = Some o)
    /\ in_order latest_first docs.
Proof.
  intros Hauth Hrole Hin.
  unfold orders_list. cbn [xrun]. rewrite (auth_next _ u _ Hauth).
  unfold orders_list_handler. cbn [user set_user].
  rewrite Hrole, Hin.
  eexists. split; [reflexivity|]. split.
  - intros key o. now rewrite In_sort_by, In_map_to_list.
  - apply sort_by_in_order, latest_first_total.
Qed.

Lemma no_errors_checked cs b req :
  no_errors (add_verrors (failures cs b) req) = true ->
  failures cs b = [] /\ no_errors req = true.
Proof.
  unfold no_errors, add_verrors. cbn [verrors].
  destruct (verrors req); [|discriminate]. cbn [app].
  destruct (failures cs b); [auto|discriminate].
Qed.

Lemma failures_cons c cs b :
  failures (c :: cs) b = [] -> passes c.2 (assoc c.1.1 b) = true /\ failures cs b = [].
Proof.
  destruct c as [[k message] r]. unfold failures. cbn [List.map concat failure_of fst snd].
  destruct (passes r (assoc k b)); [auto|discriminate].
Qed.



(** ** The users *)

Lemma by_name_total a b : by_name a b = true \/ by_name b a = true.
Proof.
  unfold by_name. rewrite (field_compare_antisym (User.name a.2) (User.name b.2)).
  destruct (field_compare _ _); simpl; auto.
Qed.

Lemma In_with_role r st k u :
  In (k, u) (List.filter (has_role r) (map_to_list (users st)))
  <-> users st !! k = Some u /\ User.role u = Val r.
Proof.
  rewrite filter_In, In_map_to_list. unfold has_role. cbn [snd].
  now rewrite field_eqb_Val.
Qed.

(** X23. GET /api/staff, for a token whose role is admin, lists the stored
    users whose role is staff, all of them and no other (so no admin), in
    the order of their names and without their password hashes, and changes
    nothing. *)
Theorem staff_list_is_the_staff
    (e : env) (req : request) (st : store) (u role : option value) :
  authenticated req u -> prop u "role" = inr role -> includes ["admin"] role = true ->
  exists docs,
    staff_list e req st = ((200, UserDocs (List.map without_password docs)), st)
    /\ (forall k usr, In (k, usr) docs <->
          users st !! k = Some usr /\ User.role usr = Val "staff")
    /\ in_order by_name docs
    /\ Forall (fun d => User.password d.2 = Undefined) (List.map without_password docs).
Proof.
  intros Hauth Hrole Hin. unfold staff_list.
  rewrite (xrun_auth_gate _ _ _ _ _ u role Hauth Hrole Hin).
  eexists. split; [reflexivity|]. split; [|split].
  - intros k usr. rewrite In_sort_by. apply In_with_role.
  - apply sort_by_in_order, by_name_total.
  - apply Forall_forall. intros d Hd. rewrite list_elem_of_In in Hd.
    apply in_map_iff in Hd as (d0 & <- & _).
    reflexivity.
Qed.

(** X24. GET /api/admin/users, when the user of the token is stored with the
    role admin, lists the stored users whose role is client, all of them and
    no other, without their password hashes, and changes nothing.  The role
    that counts is the stored one, not the one in the token. *)
Theorem admin_users_are_the_clients
    (e : env) (req : request) (st : store) (u i : option value) (k : string)
    (a : User.t) :
  authenticated req u -> prop u "id" = inr i -> castObjectIdValue i = Some k ->
  users st !! k = Some a -> User.role a = Val "admin" ->
  exists docs,
    admin_users e req st = ((200, UserDocs (List.map without_password docs)), st)
    /\ (forall key usr, In (key, usr) docs <->
          users st !! key = Some usr /\ User.role usr = Val "client")
    /\ Forall (fun d => User.password d.2 = Undefined) (List.map without_password docs).
Proof.
  intros Hauth Hid Hk Ha Hrole. unfold admin_users. cbn [xrun].
  rewrite (auth_next _ u _ Hauth). unfold isAdmin. cbn [user set_user].
  rewrite Hid, Hk, Ha, Hrole. cbn [field_eqb negb]. cbn.
  eexists. split; [reflexivity|]. split.
  - intros key usr. apply In_with_role.
  - apply Forall_forall. intros d Hd. rewrite list_elem_of_In in Hd.
    apply in_map_iff in Hd as (d0 & <- & _).
    reflexivity.
Qed.

Lemma xrun_gate roles (h : xhandler) e req st :
  (exists u, xrun [auth; checkRole roles] h e req st = h e (set_user u req) st)
  \/ (exists r, xrun [auth; checkRole roles] h e req st = plain r st).
Proof.
  cbn [xrun].
  destruct (auth_cases req st) as [(u & _ & ->)|(message & -> & _)]; [|right; eauto].
  unfold checkRole. destruct (prop (user (set_user u req)) "role"); [right; eauto|].
  destruct (includes roles o); [left; eauto|right; eauto].
Qed.

Lemma staff_user_object x1 x2 x3 x4 x5 :
  let obj := entry "name" x1 ++ entry "email" x2 ++ entry "password" x3
             ++ entry "role" x4 ++ entry "salary" x5 in
  assoc "email" obj = x2 /\ assoc "password" obj = x3
  /\ assoc "role" obj = x4 /\ assoc "salary" obj = x5.
Proof. destruct x1, x2, x3, x4, x5; repeat split. Qed.

Lemma cast_error_none {A : Type} (cast : option value -> option A) k b :
  cast_error cast k b = [] -> exists f, cast (assoc k b) = Some f.
Proof. unfold cast_error. destruct (cast (assoc k b)); [eauto|discriminate]. Qed.

Lemma insert_keeps_emails_unique coll k u f :
  emails_unique coll -> User.email u = f ->
  (forall k0 u0, coll !! k0 = Some u0 -> User.email_matches f (k0, u0) = false) ->
  emails_unique (<[k := u]> coll).
Proof.
  intros Huniq Hmail Hnone k1 k2 u1 u2 s H1 H2 E1 E2.
  destruct (decide (k1 = k)) as [->|N1]; destruct (decide (k2 = k)) as [->|N2];
    [reflexivity| | |].
  - rewrite lookup_insert_eq in H1. injection H1 as <-.
    rewrite lookup_insert_ne in H2 by congruence.
    rewrite E1 in Hmail. subst f. apply Hnone in H2.
    apply (proj2 (email_matches_val s k2 u2)) in E2. congruence.
  - rewrite lookup_insert_eq in H2. injection H2 as <-.
    rewrite lookup_insert_ne in H1 by congruence.
    rewrite E2 in Hmail. subst f. apply Hnone in H1.
    apply (proj2 (email_matches_val s k1 u1)) in E1. congruence.
  - rewrite lookup_insert_ne in H1, H2 by congruence. eauto.
Qed.

Lemma staff_post_handler_outcome e req st :
  (no_errors req = true ->
   passes (IsIn ["staff"; "admin"]) (assoc "role" (body req)) = true) ->
  (staff_post_handler e req st).2 = st
  \/ exists k u,
       users st !! k = None
       /\ staff_post_handler e req st
          = ((200, UserDoc (k, u)), with_users (<[k := u]> (users st)) st)
       /\ (User.role u = Val "staff" \/ User.role u = Val "admin")
       /\ (exists s, User.salary u = Val s)
       /\ (forall p, assoc "password" (body req) = Some (VStr p) ->
                     User.password u = Val (bcrypt_hash p))
       /\ (forall k0 u0, users st !! k0 = Some u0 ->
                         User.email_matches (User.email u) (k0, u0) = false).
Proof.
  intros Hpass. unfold staff_post_handler.
  destruct (no_errors req); cbn [negb]; [|now left]. specialize (Hpass eq_refl).
  destruct (User.findOne_email _ _) as [x|[d0|]] eqn:Hone; [now left|now left|].
  destruct (staff_user_object (assoc "name" (body req)) (assoc "email" (body req))
              (assoc "password" (body req)) (assoc "role" (body req))
              (assoc "salary" (body req)))
    as (Hemail & Hpw & Hrole & Hsalary).
  set (obj := entry "name" (assoc "name" (body req)) ++ _) in *.
  destruct (User.create e obj (users st)) as [x|[[k u] coll]] eqn:Hc; [now left|].
  right. exists k, u.
  unfold User.create in Hc.
  destruct (insert_doc _ _ _ _ _) as [x|[k1 c1]] eqn:Hins; [discriminate|].
  injection Hc as <- <- <-.
  apply insert_doc_inserted in Hins as (Herrs & _ & Hfresh & ->).
  apply app_eq_nil in Herrs as [_ Herrs].
  apply app_eq_nil in Herrs as [Hcast Hvalid].
  destruct (findOne_email_none _ _ Hone) as (f & Hf & Hnone).
  unfold User.cast_errors in Hcast.
  apply app_eq_nil in Hcast as [_ Hcast]. apply app_eq_nil in Hcast as [_ Hcast].
  apply app_eq_nil in Hcast as [_ Hcast]. apply app_eq_nil in Hcast as [Hcr _].
  apply cast_error_none in Hcr as (fr & Hfr). rewrite Hrole in Hfr.
  assert (Hstaff : User.role (User.construct e obj) = Val "staff"
                   \/ User.role (User.construct e obj) = Val "admin").
  { cbn [User.role User.construct]. unfold cast_path. rewrite Hrole, Hfr.
    destruct (assoc "role" (body req)) as [v|]; [|discriminate Hpass].
    destruct (status_check_cast ["staff"; "admin"] v fr Hpass) as (s & -> & Hs);
      [outside|outside|exact Hfr|].
    destruct Hs as [<-|[<-|[]]]; auto. }
  split; [exact Hfresh|]. split; [reflexivity|]. split; [exact Hstaff|].
  split; [|split].
  - unfold User.validate in Hvalid. apply app_eq_nil in Hvalid as [_ Hsal].
    replace (User.salaried (User.construct e obj)) with true in Hsal
      by (unfold User.salaried; destruct Hstaff as [-> | ->]; reflexivity).
    cbn [User.salary User.hash_password].
    destruct (User.salary (User.construct e obj)); try discriminate Hsal. eauto.
  - intros p Hp. cbn [User.password User.hash_password User.construct].
    unfold cast_path. now rewrite Hpw, Hp.
  - cbn [User.email User.hash_password User.construct]. unfold cast_path.
    rewrite Hemail, Hf. exact Hnone.
Qed.

(** X25. POST /api/staff stores nothing, or one new user whose role is staff
    or admin and who has a salary, under an id that was free; the answer is
    then 200 with the stored document, password hash included.  It refuses
    an email a stored user has, so it keeps the emails of the stored users
    distinct. *)
Theorem staff_post_creates_salaried_staff (e : env) (req : request) (st : store) :
  ((staff_post e req st).2 = st
   \/ exists k u,
        users st !! k = None
        /\ staff_post e req st
           = ((200, UserDoc (k, u)), with_users (<[k := u]> (users st)) st)
        /\ (User.role u = Val "staff" \/ User.role u = Val "admin")
        /\ (exists s, User.salary u = Val s)
        /\ (forall p, assoc "password" (body req) = Some (VStr p) ->
                      User.password u = Val (bcrypt_hash p)))
  /\ (emails_unique (users st) -> emails_unique (users (staff_post e req st).2)).
Proof.
  unfold staff_post. rewrite xrun_app.
  destruct (xrun_gate ["admin"] (xrun (checks staff_checks) staff_post_handler) e req st)
    as [(u & ->)|(r & ->)]; [|split; [now left|auto]].
  rewrite xrun_checks_all.
  destruct (staff_post_handler_outcome e
              (add_verrors (failures staff_checks (body (set_user u req)))
                 (set_user u req)) st)
    as [->|(k & usr & Hfresh & -> & Hrole & Hsal & Hpw & Hnone)].
  - intros Hno. apply no_errors_checked in Hno as [Hf _].
    apply failures_cons in Hf as [_ Hf]. apply failures_cons in Hf as [_ Hf].
    apply failures_cons in Hf as [_ Hf]. now apply failures_cons in Hf as [Hp _].
  - split; [now left|auto].
  - split.
    + right. exists k, usr. auto.
    + intros Huniq. cbn [snd users with_users].
      now apply (insert_keeps_emails_unique _ _ _ (User.email usr)).
Qed.

Lemma user_eta (u : User.t) :
  {| User.name := User.name u; User.email := User.email u;
     User.password := User.password u; User.role := User.role u;
     User.salary := User.salary u; User.createdAt := User.createdAt u |} = u.
Proof. now destruct u. Qed.

Lemma with_users_same st : with_users (users st) st = st.
Proof. now destruct st. Qed.

Lemma staff_member_included u :
  User.role u = Val "staff" \/ User.role u = Val "admin" ->
  includes ["staff"; "admin"] (field_value (User.role u)) = true.
Proof. intros [-> | ->]; reflexivity. Qed.

Lemma included_staff_member u :
  includes ["staff"; "admin"] (field_value (User.role u)) = true ->
  User.role u = Val "staff" \/ User.role u = Val "admin".
Proof.
  destruct (User.role u) as [| |s]; try discriminate. cbn [field_value includes existsb].
  destruct (String.eqb_spec s "staff") as [->|_]; [auto|].
  destruct (String.eqb_spec s "admin") as [->|_]; [auto|discriminate].
Qed.

(** X26. PUT /api/staff/:id answers 200 and changes nothing when the salary
    of the payload passes the check but is falsy, as the number 0 is, and
    the payload has no name: the stored salary of the staff member stays
    what it was. *)
Theorem staff_put_falsy_salary_changes_nothing
    (e : env) (req : request) (st : store) (u role : option value) (k : string)
    (usr : User.t) (s : float) :
  authenticated req u -> prop u "role" = inr role -> includes ["admin"] role = true ->
  verrors req = [] ->
  passes (IsFloat 0) (assoc "salary" (body req)) = true ->
  truthy (assoc "salary" (body req)) = false ->
  truthy (assoc "name" (body req)) = false ->
  castObjectId (id_param req) = Some k -> users st !! k = Some usr ->
  User.role usr = Val "staff" \/ User.role usr = Val "admin" ->
  User.salary usr = Val s ->
  staff_put e req st = ((200, UserDoc (without_password (k, usr))), st).
Proof.
  intros Hauth Hrole Hin Hclean Hpass Hsal Hname Hk Husr Hstaff Hs.
  unfold staff_put. rewrite xrun_app.
  rewrite (xrun_auth_gate _ _ _ _ _ u role Hauth Hrole Hin).
  rewrite xrun_checks_all. unfold failures.
  cbn [List.map concat failure_of body set_user]. rewrite Hpass. cbn [app].
  rewrite add_verrors_nil. unfold staff_put_handler, no_errors.
  cbn [verrors set_user id_param body]. rewrite Hclean. cbn [negb].
  unfold findById. rewrite Hk, Husr.
  rewrite (staff_member_included usr Hstaff). cbn [negb].
  unfold assign. rewrite Hsal, Hname. cbn [fst snd app].
  rewrite user_eta.
  replace (User.validate usr) with (@nil (string * string)).
  - now rewrite insert_id, with_users_same by exact Husr.
  - unfold User.validate, User.salaried. rewrite Hs.
    destruct Hstaff as [-> | ->]; reflexivity.
Qed.



Lemma staff_delete_handler_outcome e req st :
  (staff_delete_handler e req st).2 = st
  \/ exists k u0,
       users st !! k = Some u0
       /\ (User.role u0 = Val "staff" \/ User.role u0 = Val "admin")
       /\ (staff_delete_handler e req st).2 = with_users (delete k (users st)) st.
Proof.
  unfold staff_delete_handler, findById.
  destruct (castObjectId (id_param req)) as [k|]; [|now left].
  destruct (users st !! k) as [u0|] eqn:Hk; [|now left].
  destruct (includes _ _) eqn:Hin; cbn [negb]; [|now left].
  right. exists k, u0. split; [exact Hk|].
  split; [now apply included_staff_member|reflexivity].
Qed.

(** X28. DELETE /api/staff/:id removes at most one stored user, and only a
    staff member or an admin: a client account is never removed by it.  It
    adds and changes no user and leaves the menu, the orders and the
    reservations untouched. *)
Theorem staff_delete_removes_staff_only (e : env) (req : request) (st : store) :
  menuItems (staff_delete e req st).2 = menuItems st
  /\ orders (staff_delete e req st).2 = orders st
  /\ reservations (staff_delete e req st).2 = reservations st
  /\ (forall k u, users (staff_delete e req st).2 !! k = Some u ->
                  users st !! k = Some u)
  /\ (forall k u, users st !! k = Some u ->
                  users (staff_delete e req st).2 !! k = None ->
                  User.role u = Val "staff" \/ User.role u = Val "admin")
  /\ (forall k1 k2 u1 u2,
        users st !! k1 = Some u1 -> users st !! k2 = Some u2 ->
        users (staff_delete e req st).2 !! k1 = None ->
        users (staff_delete e req st).2 !! k2 = None -> k1 = k2).
Proof.
  assert (Hsame : forall st', st' = st ->
    menuItems st' = menuItems st /\ orders st' = orders st
    /\ reservations st' = reservations st
    /\ (forall k u, users st' !! k = Some u -> users st !! k = Some u)
    /\ (forall k u, users st !! k = Some u -> users st' !! k = None ->
                    User.role u = Val "staff" \/ User.role u = Val "admin")
    /\ (forall k1 k2 u1 u2,
          users st !! k1 = Some u1 -> users st !! k2 = Some u2 ->
          users st' !! k1 = None -> users st' !! k2 = None -> k1 = k2)).
  { intros st' ->. repeat split; auto; intros; congruence. }
  unfold staff_delete.
  destruct (xrun_outcome [auth; checkRole ["admin"]] staff_delete_handler e req st)
    as [(req' & ->)|(r & ->)]; [|now apply Hsame].
  destruct (staff_delete_handler_outcome e req' st)
    as [Hst|(k & u0 & Hk & Hstaff & ->)]; [now apply Hsame|].
  cbn [snd menuItems orders reservations users with_users].
  repeat split.
  - intros k' u Hu. apply lookup_delete_Some in Hu. tauto.
  - intros k' u Hu Hnone. apply lookup_delete_None in Hnone as [->|Hn]; congruence.
  - intros k1 k2 u1 u2 H1 H2 N1 N2.
    apply lookup_delete_None in N1 as [->|N1]; [|congruence].
    apply lookup_delete_None in N2 as [->|N2]; [reflexivity|congruence].
Qed.

(** X29. DELETE /api/staff/:id does not refuse the id of the admin who sends
    the request.  Once an admin has removed their own account, their token
    still opens the routes gated on the role of the token: GET /api/staff
    answers 200.  The routes gated on the stored role are closed: GET
    /api/admin/users answers 500. *)
Theorem deleted_admin_keeps_token_access
    (e : env) (req req' : request) (st : store) (u role : option value)
    (i k : string) (usr : User.t) :
  authenticated req u -> authenticated req' u ->
  prop u "role" = inr role -> includes ["admin"] role = true ->
  prop u "id" = inr (Some (VStr i)) -> castObjectId i = Some k ->
  castObjectId (id_param req) = Some k -> users st !! k = Some usr ->
  User.role usr = Val "staff" \/ User.role usr = Val "admin" ->
  staff_delete e req st
    = ((200, Plain (Msg "Membre du personnel supprimé")),
       with_users (delete k (users st)) st)
  /\ (exists l, staff_list e req' (with_users (delete k (users st)) st)
                = ((200, UserDocs l), with_users (delete k (users st)) st))
  /\ admin_users e req' (with_users (delete k (users st)) st)
     = ((500, Plain (Message "Erreur serveur")), with_users (delete k (users st)) st).
Proof.
  intros Hauth Hauth' Hrole Hin Hid Hi Hk Husr Hstaff. split; [|split].
  - unfold staff_delete. rewrite (xrun_auth_gate _ _ _ _ _ u role Hauth Hrole Hin).
    unfold staff_delete_handler, findById. cbn [id_param set_user].
    rewrite Hk, Husr, (staff_member_included usr Hstaff). reflexivity.
  - unfold staff_list. rewrite (xrun_auth_gate _ _ _ _ _ u role Hauth' Hrole Hin).
    eexists. reflexivity.
  - unfold admin_users. cbn [xrun]. rewrite (auth_next _ u _ Hauth').
    unfold isAdmin. cbn [user set_user]. rewrite Hid. cbn [castObjectIdValue].
    rewrite Hi. cbn [users with_users]. rewrite lookup_delete_eq. reflexivity.
Qed.

End Coverage.

(** * The remaining routes on the demonstration platform *)

Section Samples.
#[local] Existing Instance Demo.platform.

Lemma menu_delete_then_list_witness :
  menuItems (menu_delete_handler Demo.environment
               (set_param Demo.tart_id
                  (incoming DELETE [Demo.tart_id] (Some "staff-token") []))
               Demo.database).2 !! Demo.tart_id
  = Some (MenuItem.set_available false Demo.tart).
Proof.
  refine (proj1 (proj2 (menu_delete_then_list Demo.environment
            (set_param Demo.tart_id
               (incoming DELETE [Demo.tart_id] (Some "staff-token") []))
            Demo.database Demo.tart_id Demo.tart _ _))); reflexivity.
Defined.

Lemma menu_delete_then_restore_witness :
  menuItems
    (menu_put_handler Demo.environment
       (set_param Demo.tart_id
          (incoming PUT [Demo.tart_id] (Some "staff-token") [("available", VBool true)]))
       (menu_delete_handler Demo.environment
          (set_param Demo.tart_id
             (incoming DELETE [Demo.tart_id] (Some "staff-token") []))
          Demo.database).2).2 !! Demo.tart_id
  = Some (MenuItem.set_available true Demo.tart).
Proof.
  refine (proj1 (proj2 (menu_delete_then_restore Demo.environment Demo.environment
            (set_param Demo.tart_id
               (incoming DELETE [Demo.tart_id] (Some "staff-token") []))
            (set_param Demo.tart_id
               (incoming PUT [Demo.tart_id] (Some "staff-token")
                  [("available", VBool true)]))
            Demo.database Demo.tart_id Demo.tart _ _ _ _))); reflexivity.
Defined.

Lemma reservation_created_then_found_witness :
  reservations_api Demo.environment
    (incoming GET [fresh_oid Demo.environment] (Some "staff-token") [])
    (with_reservations
       (<[fresh_oid Demo.environment
            := Reservation.construct Demo.environment Sample.dinner]>
          (reservations Demo.database)) Demo.database)
  = (json 200 (ReservationDoc
       (fresh_oid Demo.environment,
        Reservation.construct Demo.environment Sample.dinner)),
     with_reservations
       (<[fresh_oid Demo.environment
            := Reservation.construct Demo.environment Sample.dinner]>
          (reservations Demo.database)) Demo.database).
Proof.
  refine (reservation_created_then_found Demo.environment Demo.environment
            None (Some "staff-token") Sample.dinner [] Demo.database _ _ _
            (Some (VObj [("id", VStr Demo.staff_id); ("role", VStr "staff")]))
            (Some (VStr "staff")) _ (or_intror _) (staff_authenticated _ _ _) _ _);
    vm_compute; reflexivity.
Defined.

Lemma reservation_delete_then_gone_witness :
  reservations_api Demo.environment
    (incoming DELETE [Demo.booking_id] (Some "staff-token") []) Demo.database
  = (json 200 (Msg "Réservation supprimée"),
     with_reservations (delete Demo.booking_id (reservations Demo.database))
       Demo.database).
Proof.
  refine (proj1 (reservation_delete_then_gone Demo.environment Demo.environment
            (Some "staff-token") [] Demo.database Demo.booking_id Demo.booking_id
            Demo.booking
            (Some (VObj [("id", VStr Demo.staff_id); ("role", VStr "staff")]))
            (Some (VStr "staff")) (staff_authenticated _ _ _) _ _ _ _));
    reflexivity.
Defined.

Lemma reservations_listed_in_order_witness :
  exists l,
    reservations_api Demo.environment (incoming GET [] (Some "staff-token") [])
      Demo.database = (json 200 (Reservations l), Demo.database)
    /\ (forall k r, In (k, r) l <-> reservations Demo.database !! k = Some r)
    /\ length l = size (reservations Demo.database)
    /\ in_order by_date_time l.
Proof.
  refine (reservations_listed_in_order Demo.environment (Some "staff-token") []
            Demo.database
            (Some (VObj [("id", VStr Demo.staff_id); ("role", VStr "staff")]))
            (Some (VStr "staff")) (staff_authenticated _ _ _) _ _);
    reflexivity.
Defined.

Lemma demotion_witness :
  isAdmin
    (set_user (Some (VObj [("id", VStr Demo.staff_id); ("role", VStr "admin")]))
       (incoming GET ["users"] (Some "staff-token") []))
    (role_put Demo.environment
       (set_param Demo.staff_id
          (incoming PUT ["users"; Demo.staff_id; "role"] (Some "admin-token")
             [("role", VStr "client")]))
       Sample.office).2
  = Respond (json 403 (Message
      "Accès refusé. Seuls les administrateurs peuvent effectuer cette action.")).
Proof.
  refine (proj1 (proj2 (demotion_reaches_admin_routes_only Demo.environment
            (set_param Demo.staff_id
               (incoming PUT ["users"; Demo.staff_id; "role"] (Some "admin-token")
                  [("role", VStr "client")]))
            (incoming GET ["users"] (Some "staff-token") [])
            Sample.office
            (Some (VObj [("id", VStr Demo.admin_id); ("role", VStr "admin")]))
            (Some (VStr Demo.admin_id))
            (Some (VObj [("id", VStr Demo.staff_id); ("role", VStr "admin")]))
            Demo.staff_id Demo.staff_id Sample.manager
            (admin_authenticated _ _ _) _ _ _ _ _ _ _ _ _))); reflexivity.
Defined.

Lemma orders_delete_by_staff_witness :
  orders_delete Demo.environment
    (set_param Demo.order_id
       (incoming DELETE [Demo.order_id] (Some "staff-token") []))
    Demo.database
  = (json 200 (Msg "Commande annulée"),
     with_orders
       (<[Demo.order_id := Order.set_status "cancelled" Demo.delivered_order]>
          (orders Demo.database)) Demo.database).
Proof.
  refine (orders_delete_open_to_other_roles Demo.environment
            (set_param Demo.order_id
               (incoming DELETE [Demo.order_id] (Some "staff-token") []))
            Demo.database
            (Some (VObj [("id", VStr Demo.staff_id); ("role", VStr "staff")]))
            (Some (VStr "staff")) Demo.order_id Demo.delivered_order
            (staff_authenticated _ _ _) _ _ _ _); reflexivity.
Defined.

Lemma compare_accepts_own_hash (u0 : User.t) (p0 : string) :
  User.password u0 = Val (bcrypt_hash p0) ->
  Sample.comparePassword u0 (Some (VStr p0)) = Some true.
Proof.
  intros Hp. unfold Sample.comparePassword. rewrite Hp.
  cbn [bcrypt_hash Demo.platform]. now rewrite String.eqb_refl.
Qed.

Lemma register_then_login_witness :
  status (login Sample.comparePassword Demo.environment
            (incoming POST ["login"] None
               [("email", VStr "max@mail.fr"); ("password", VStr "s3cret!")])
            (register Demo.environment
               (incoming POST ["register"] None (Demo.signup [])) Demo.database).2).1
  = 200.
Proof.
  pose proof (proj2 (register_then_login Sample.comparePassword
            Demo.environment Demo.environment None None (Demo.signup [])
            [("email", VStr "max@mail.fr"); ("password", VStr "s3cret!")]
            Demo.database
            (register Demo.environment
               (incoming POST ["register"] None (Demo.signup [])) Demo.database).2
            "issued-token" (fresh_oid Demo.environment) "s3cret!"
            (User.hash_password
               (User.construct Demo.environment
                  (Demo.signup [("role", VStr "client")])))
            compare_accepts_own_hash eq_refl eq_refl eq_refl eq_refl)) as Hlogin.
  rewrite Hlogin. reflexivity.
Defined.

Lemma menu_stats_witness :
  exists l,
    menu_get Demo.environment (incoming GET [] None []) Demo.database
      = (json 200 (MenuItems l), Demo.database)
    /\ menu_stats Demo.environment (incoming GET ["stats"] (Some "staff-token") [])
         Demo.database
       = ((200, TotalItems (length l)), Demo.database).
Proof.
  refine (menu_stats_counts_listed_items Demo.environment
            (incoming GET ["stats"] (Some "staff-token") [])
            (incoming GET [] None []) Demo.database
            (Some (VObj [("id", VStr Demo.staff_id); ("role", VStr "staff")]))
            (Some (VStr "staff")) (staff_authenticated _ _ _) _ _); reflexivity.
Defined.

Lemma client_lists_own_orders_witness :
  exists docs,
    orders_list Demo.environment (incoming GET [] (Some "client-token") [])
      Demo.database
      = ((200, OrderViews (List.map (view false Demo.database) docs)), Demo.database)
    /\ (forall key o, In (key, o) docs <->
          orders Demo.database !! key = Some o /\ Order.user o = Val Demo.client_id)
    /\ in_order latest_first docs.
Proof.
  refine (client_lists_own_orders Demo.environment
            (incoming GET [] (Some "client-token") []) Demo.database
            (Some (VObj [("id", VStr Demo.client_id); ("role", VStr "client")]))
            (Some (VStr "client")) Demo.client_id Demo.client_id
            (client_authenticated _ _ _) _ _ _ _); reflexivity.
Defined.

Lemma staff_lists_all_orders_witness :
  exists docs,
    orders_list Demo.environment (incoming GET [] (Some "staff-token") [])
      Demo.database
      = ((200, OrderViews (List.map (view true Demo.database) docs)), Demo.database)
    /\ (forall key o, In (key, o) docs <-> orders Demo.database !! key = Some o)
    /\ in_order latest_first docs.
Proof.
  refine (staff_lists_all_orders Demo.environment
            (incoming GET [] (Some "staff-token") []) Demo.database
            (Some (VObj [("id", VStr Demo.staff_id); ("role", VStr "staff")]))
            (Some (VStr "staff")) (staff_authenticated _ _ _) _ _); reflexivity.
Defined.

Lemma staff_list_witness :
  exists docs,
    staff_list Demo.environment (incoming GET [] (Some "admin-token") []) Sample.kitchen
      = ((200, UserDocs (List.map without_password docs)), Sample.kitchen)
    /\ (forall k usr, In (k, usr) docs <->
          users Sample.kitchen !! k = Some usr /\ User.role usr = Val "staff")
    /\ in_order by_name docs
    /\ Forall (fun d => User.password d.2 = Undefined) (List.map without_password docs).
Proof.
  refine (staff_list_is_the_staff Demo.environment
            (incoming GET [] (Some "admin-token") []) Sample.kitchen
            (Some (VObj [("id", VStr Demo.admin_id); ("role", VStr "admin")]))
            (Some (VStr "admin")) (admin_authenticated _ _ _) _ _); reflexivity.
Defined.

Lemma admin_users_witness :
  exists docs,
    admin_users Demo.environment (incoming GET ["users"] (Some "admin-token") [])
      Demo.database
      = ((200, UserDocs (List.map without_password docs)), Demo.database)
    /\ (forall key usr, In (key, usr) docs <->
          users Demo.database !! key = Some usr /\ User.role usr = Val "client")
    /\ Forall (fun d => User.password d.2 = Undefined) (List.map without_password docs).
Proof.
  refine (admin_users_are_the_clients Demo.environment
            (incoming GET ["users"] (Some "admin-token") []) Demo.database
            (Some (VObj [("id", VStr Demo.admin_id); ("role", VStr "admin")]))
            (Some (VStr Demo.admin_id)) Demo.admin_id Demo.admin_user
            (admin_authenticated _ _ _) _ _ _ _); reflexivity.
Defined.

Lemma staff_put_zero_salary_witness :
  staff_put Demo.environment
    (set_param Demo.staff_id
       (incoming PUT [Demo.staff_id] (Some "admin-token") [("salary", VNum 0)]))
    Sample.kitchen
  = ((200, UserDoc (without_password (Demo.staff_id, Sample.cook))), Sample.kitchen).
Proof.
  refine (staff_put_falsy_salary_changes_nothing Demo.environment
            (set_param Demo.staff_id
               (incoming PUT [Demo.staff_id] (Some "admin-token") [("salary", VNum 0)]))
            Sample.kitchen
            (Some (VObj [("id", VStr Demo.admin_id); ("role", VStr "admin")]))
            (Some (VStr "admin")) Demo.staff_id Sample.cook 2000%float
            (admin_authenticated _ _ _) _ _ _ _ _ _ _ _ (or_introl _) _);
    vm_compute; reflexivity.
Defined.

Lemma deleted_admin_witness :
  admin_users Demo.environment (incoming GET ["users"] (Some "admin-token") [])
    (with_users (delete Demo.admin_id (users Demo.database)) Demo.database)
  = ((500, Plain (Message "Erreur serveur")),
     with_users (delete Demo.admin_id (users Demo.database)) Demo.database).
Proof.
  refine (proj2 (proj2 (deleted_admin_keeps_token_access Demo.environment
            (set_param Demo.admin_id
               (incoming DELETE [Demo.admin_id] (Some "admin-token") []))
            (incoming GET ["users"] (Some "admin-token") []) Demo.database
            (Some (VObj [("id", VStr Demo.admin_id); ("role", VStr "admin")]))
            (Some (VStr "admin")) Demo.admin_id Demo.admin_id Demo.admin_user
            (admin_authenticated _ _ _) (admin_authenticated _ _ _)
            _ _ _ _ _ _ (or_intror _)))); reflexivity.
Defined.

End Samples.
